(** * The localCI repository monitor (cmd/localCI/repo.go)

    A shallow embedding of the [Repo] type of the localCI tool: its
    configuration validation ([setup]), its polling loop ([loop]), the
    reconciliation against the table of tested revisions
    ([testRevisions]) and the orchestration of one test
    ([setupRevision], [testRevision]).

    The Go code talks to the outside (source-control provider, file
    system, language environments, log server, the revisions themselves)
    through calls whose code is not part of repo.go.  Those calls are
    taken as parameters acting on an abstract [world]; every call the
    code makes is recorded, in order, in a trace of events. *)

From Stdlib Require Import ZArith Ascii String List Lia.
From stdpp Require Import base option list gmap strings pretty.

Local Open Scope Z_scope.
Local Open Scope string_scope.
Local Open Scope list_scope.

(** ** Plain data *)

(** A Go [error] value that is not nil. *)
Inductive error := Errorf (msg : string).

(** Go functions returning [(T, error)] give back both values. *)
Definition result (A : Type) : Type := (A * option error)%type.

(** [time.Duration]: a signed count of nanoseconds. *)
Definition Duration := Z.

(** [languageConfig]: the fields repo.go reads. *)
Record languageConfig := mkLanguageConfig {
  lang_workingDir : string;
  lang_env : list string;
}.

(** The zero value [languageConfig{}]. *)
Definition languageConfig_zero : languageConfig := mkLanguageConfig "" [].

Record stage := mkStage {
  stage_name : string;
  stage_commands : list string;
}.

Record stageConfig := mkStageConfig {
  sc_workingDir : string;
  sc_tty : bool;
  sc_logDir : string;
  sc_env : list string;
}.

Record LogServer := mkLogServer {
  IP : string;
  User : string;
  Dir : string;
}.

(** [RepoComment]: its declaration is not in repo.go, which reads the
    field [Comment] and compares a value with the zero value
    [RepoComment{}].  setupCommentTrigger tells a value that is not the
    zero value and has an empty [Comment] from the zero value, so the
    type has more than this one field: what repo.go does not read is
    kept in [otherFields], empty in the zero value. *)
Record RepoComment := mkRepoComment {
  Comment : string;
  otherFields : string;
}.

Definition logDirMode : Z := 493.   (* 0755 *)
Definition logFileMode : Z := 436.  (* 0664 *)
Definition logServerUser : string := "root".
Definition defaultEnv : list string := ["CI=true"; "LOCALCI=true"].

#[global] Instance error_eq_dec : EqDecision error.
Proof. solve_decision. Defined.
#[global] Instance languageConfig_eq_dec : EqDecision languageConfig.
Proof. solve_decision. Defined.
#[global] Instance LogServer_eq_dec : EqDecision LogServer.
Proof. solve_decision. Defined.
#[global] Instance RepoComment_eq_dec : EqDecision RepoComment.
Proof. solve_decision. Defined.

(** ** The interfaces repo.go is written against *)

(** The [revision] interface, with the methods repo.go calls (named
    [rev_id] for [id], and so on).  A revision value is a handle on an
    object that lives in the world: its being-tested marker is read from
    the world each time it is asked for, so that a value stored in the
    tested-table and the object a running test works on are the same
    thing.  The identity, the comparison and the name of the log
    directory are read off the value. *)
Class Revision (world revision : Type) := {
  rev_id : revision → string;
  rev_equal : revision → revision → bool;
  rev_isBeingTested : revision → world → bool;
  rev_canBeTested : revision → world → option error * world;
  rev_download : revision → string → world → option error * world;
  rev_logDirName : revision → string;
  rev_test : revision → stageConfig → gmap string stage → world → option error * world;
}.

Record pullRequestConfig (CVR : Type) := mkPullRequestConfig {
  prc_cvr : CVR;
  prc_commentTrigger : RepoComment;
  prc_postOnFailure : string;
  prc_postOnSuccess : string;
  prc_whitelist : string;
}.
Arguments mkPullRequestConfig {CVR}.
Arguments prc_cvr {CVR}.

(** Everything else repo.go calls and does not define: the provider
    client, the language environments, the log server, and the functions
    of the Go standard library it uses. *)
Class Externals (world revision CVR RepoLanguage : Type) := {
  newCVR : string → string → world → result CVR * world;
  getRepoSlug : CVR → string;
  getProjectSlug : CVR → string;
  getOpenPullRequests : CVR → world → result (list Z) * world;
  newRepoBranch : string → CVR → world → result revision * world;
  newPullRequest : Z → pullRequestConfig CVR → world → result revision * world;
  language_setup : RepoLanguage → world → option error * world;
  generateEnvironment : RepoLanguage → string → world → result languageConfig * world;
  cleanup : languageConfig → world → option error * world;
  logServer_copy : LogServer → string → world → option error * world;
  os_MkdirAll : string → Z → world → option error * world;
  os_RemoveAll : string → world → option error * world;
  os_Environ : world → list string;
  time_ParseDuration : string → result Duration;
  strings_TrimSpace : string → string;
  strings_Split : string → string → list string;
  filepath_Join : string → string → string;
  defaultLogDir : string;
}.

Section Model.

Context {world revision CVR RepoLanguage : Type}.
Context `{!Revision world revision}.
Context `{!Externals world revision CVR RepoLanguage}.

(** ** The Repo structure

    The field [LogServer] is named [logServer] here, [LogServer] being
    the name of its type; the logger is left out, the lines it writes
    are events of the trace. *)

Record Repo := mkRepo {
  URL : string;
  MasterBranch : string;
  PR : Z;
  RefreshTime : string;
  Token : string;
  Setup : list string;
  Run : list string;
  Teardown : list string;
  OnSuccess : list string;
  OnFailure : list string;
  TTY : bool;
  PostOnSuccess : string;
  PostOnFailure : string;
  LogDir : string;
  Language : RepoLanguage;
  CommentTrigger : RepoComment;
  logServer : LogServer;
  Whitelist : string;
  cvr : CVR;
  refresh : Duration;
  env : list string;
  whitelistUsers : list string;
  prConfig : pullRequestConfig CVR;
}.

(** ** Events and the state the code runs in *)

Inductive logLevel := Debug | Warn | Error.

(** One constructor per logging call of repo.go. *)
Inductive logmsg :=
| MsgCvr (c : CVR)
| MsgMonitoring
| MsgRequestingPullRequest (n : Z)
| MsgRequestingMaster (branch : string)
| MsgFailedMaster (branch : string) (e : error)
| MsgFailedAppendPullRequest (n : Z) (e : error)
| MsgRequestingOpenPullRequests
| MsgFailedOpenPullRequests (e : error)
| MsgFailedAppendPullRequests (prs : list Z) (e : error)
| MsgTestingRevisions (revs : list revision)
| MsgGoingToSleep (s : string)
| MsgBeingTested (tested : revision)
| MsgAlreadyTested (rev : revision)
| MsgCannotBeTested (id : string) (e : error)
| MsgFailedSetup (rev : revision) (e : error)
| MsgCleanupError (e : error)
| MsgFailedTest (rev : revision) (e : error)
| MsgFailedCopy (logDir : string) (server : LogServer)
| MsgStageConfig (config : stageConfig).

(** The calls to the outside, with what they returned.  The calls made
    while setting a revision up carry the revision they are made for. *)
Inductive event :=
| EvLog (lvl : logLevel) (msg : logmsg)
| EvNewCVR (url token : string) (res : result CVR)
| EvLanguageSetup (res : option error)
| EvNewRepoBranch (branch : string) (res : result revision)
| EvNewPullRequest (n : Z) (res : result revision)
| EvGetOpenPullRequests (res : result (list Z))
| EvCanBeTested (rev : revision) (res : option error)
| EvGenerateEnvironment (rev : revision) (slug : string) (res : result languageConfig)
| EvDownload (rev : revision) (dir : string) (res : option error)
| EvRemoveAll (dir : string) (res : option error)
| EvMkdirAll (dir : string) (mode : Z) (res : option error)
| EvTest (rev : revision) (config : stageConfig) (stages : gmap string stage) (res : option error)
| EvLogCopy (server : LogServer) (dir : string) (res : option error)
| EvCleanup (langEnv : languageConfig) (res : option error)
| EvLock
| EvUnlock
| EvGo (rev : revision) (langEnv : languageConfig)
| EvSleep (d : Duration).

(** The state: the world, the trace of events so far, the goroutines
    started by [go] that have not run yet, the package-level variable
    [runTestsInParallel], and the range variables of testRevisions.

    The closure of a goroutine (repo.go 367-371) refers to [revision],
    the range variable of the second loop of testRevisions, and to
    [langEnv].  [langEnv] is declared in the body of the loop: one
    variable per iteration, never assigned again.  [revision] is
    declared by the range clause: with the Go this repository is built
    with (1.8.3; so it is before Go 1.22) a for statement has one such
    variable, assigned at the head of each iteration and shared by the
    closures of all its iterations.  A goroutine is therefore recorded
    with the address of the range variable it captured and its
    [langEnv]; [rangeVars] holds what each range variable holds now,
    and [rangeVar] is the address of the range variable of the for
    statement in progress (of the next one, between two). *)
Record state := mkState {
  ext : world;
  trace : list event;
  spawned : list (nat * languageConfig);
  runTestsInParallel : bool;
  rangeVars : gmap nat revision;
  rangeVar : nat;
}.

Definition M (A : Type) : Type := state → A * state.

Definition ret {A} (a : A) : M A := λ s, (a, s).

Definition bind {A B} (m : M A) (k : A → M B) : M B :=
  λ s, let '(a, s') := m s in k a s'.

Notation "'let!' x ':=' c 'in' k" := (bind c (λ x, k))
  (at level 10, x pattern, c at level 100, k at level 200).
Notation "c '>>' k" := (bind c (λ _, k))
  (at level 100, k at level 200, right associativity).

Definition emit (e : event) : M unit :=
  λ s, (tt, mkState (ext s) (trace s ++ [e]) (spawned s) (runTestsInParallel s)
              (rangeVars s) (rangeVar s)).

Definition logf (lvl : logLevel) (msg : logmsg) : M unit := emit (EvLog lvl msg).

(** A call to the outside: it acts on the world only. *)
Definition call {A} (f : world → A * world) : M A :=
  λ s, let '(a, w) := f (ext s) in
       (a, mkState w (trace s) (spawned s) (runTestsInParallel s)
             (rangeVars s) (rangeVar s)).

Definition getWorld : M world := λ s, (ext s, s).

Definition getParallel : M bool := λ s, (runTestsInParallel s, s).

Definition setParallel (b : bool) : M unit :=
  λ s, (tt, mkState (ext s) (trace s) (spawned s) b (rangeVars s) (rangeVar s)).

(** The head of an iteration of [for _, revision := range revisions]:
    the range variable of the for statement in progress is assigned. *)
Definition setRangeVar (rev : revision) : M unit :=
  λ s, (tt, mkState (ext s) (trace s) (spawned s) (runTestsInParallel s)
              (<[rangeVar s := rev]> (rangeVars s)) (rangeVar s)).

(** The end of the for statement: the next one has a range variable of
    its own. *)
Definition endRange : M unit :=
  λ s, (tt, mkState (ext s) (trace s) (spawned s) (runTestsInParallel s)
              (rangeVars s) (S (rangeVar s))).

Definition getRangeVars : M (gmap nat revision) := λ s, (rangeVars s, s).

(** [go func() {...}()] in the iteration of [rev]: the goroutine is
    recorded, it does not run in the caller.  Its closure captures the
    range variable itself, not the revision it holds, and [langEnv]. *)
Definition go (rev : revision) (langEnv : languageConfig) : M unit :=
  λ s, (tt, mkState (ext s) (trace s ++ [EvGo rev langEnv])
                    (spawned s ++ [(rangeVar s, langEnv)]) (runTestsInParallel s)
                    (rangeVars s) (rangeVar s)).

(** ** setupRevision and testRevision *)

Definition setupRevision (r : Repo) (rev : revision) : M (result languageConfig) :=
  let slug := getProjectSlug (cvr r) in
  let! res := call (generateEnvironment (Language r) slug) in
  emit (EvGenerateEnvironment rev slug res) >>
  let '(langEnv, err) := res in
  match err with
  | Some e => ret (languageConfig_zero, Some e)
  | None =>
    let! err := call (rev_download rev (lang_workingDir langEnv)) in
    emit (EvDownload rev (lang_workingDir langEnv) err) >>
    match err with
    | Some e => ret (languageConfig_zero, Some e)
    | None =>
      let logDir := filepath_Join (LogDir r) (rev_logDirName rev) in
      let! discarded := call (os_RemoveAll logDir) in
      emit (EvRemoveAll logDir discarded) >>
      let! err := call (os_MkdirAll logDir logDirMode) in
      emit (EvMkdirAll logDir logDirMode err) >>
      match err with
      | Some e => ret (languageConfig_zero, Some e)
      | None => ret (langEnv, None)
      end
    end
  end.

Definition stagesOf (r : Repo) : gmap string stage :=
  <["setup" := mkStage "setup" (Setup r)]>
  (<["run" := mkStage "run" (Run r)]>
  (<["teardown" := mkStage "teardown" (Teardown r)]>
  (<["onSuccess" := mkStage "onSuccess" (OnSuccess r)]>
  (<["onFailure" := mkStage "onFailure" (OnFailure r)]> ∅)))).

Definition stageConfigOf (r : Repo) (rev : revision) (langEnv : languageConfig) : stageConfig :=
  let config := mkStageConfig (lang_workingDir langEnv) (TTY r)
                  (filepath_Join (LogDir r) (rev_logDirName rev)) (env r) in
  if (0 <? length (lang_env langEnv))%nat
  then mkStageConfig (sc_workingDir config) (sc_tty config) (sc_logDir config)
         (sc_env config ++ lang_env langEnv)
  else config.

(** The deferred function of testRevision: ship the logs, log a failure. *)
Definition copyLogs (r : Repo) (config : stageConfig) : M unit :=
  let! err := call (logServer_copy (logServer r) (sc_logDir config)) in
  emit (EvLogCopy (logServer r) (sc_logDir config) err) >>
  match err with
  | Some _ => logf Error (MsgFailedCopy (sc_logDir config) (logServer r))
  | None => ret tt
  end.

Definition testRevision (r : Repo) (rev : revision) (langEnv : languageConfig)
  : M (option error) :=
  let config := stageConfigOf r rev langEnv in
  let deferred := negb (String.length (IP (logServer r)) =? 0)%nat in
  logf Debug (MsgStageConfig config) >>
  let stages := stagesOf r in
  let! res := call (rev_test rev config stages) in
  emit (EvTest rev config stages res) >>
  (if deferred then copyLogs r config else ret tt) >>
  ret res.

(** ** testRevisions *)

(** The inner loop of the first pass: is [k] the id of a discovered
    revision? *)
Definition found (revisions : list revision) (k : string) : bool :=
  existsb (λ r, bool_decide (rev_id r = k)) revisions.

(** The first pass: the range over the tested-table, deleting as it
    goes. *)
Definition removeStale (revisions : list revision) (w : world)
    (revisionsTested : gmap string revision) : gmap string revision :=
  foldl (λ m kv,
           if negb (found revisions kv.1) && negb (rev_isBeingTested kv.2 w)
           then delete kv.1 m else m)
        revisionsTested (map_to_list revisionsTested).

(** The deferred function registered for a revision that was set up. *)
Definition cleanupRevision (langEnv : languageConfig) : M unit :=
  let! err := call (cleanup langEnv) in
  emit (EvCleanup langEnv err) >>
  match err with
  | Some e => logf Error (MsgCleanupError e)
  | None => ret tt
  end.

(** What the goroutine and the serialized branch both do with the
    revision they find in [revision]: test it, and log a failure. *)
Definition testTask (r : Repo) (rev : revision) (langEnv : languageConfig) : M unit :=
  let! err := testRevision r rev langEnv in
  match err with
  | Some e => logf Error (MsgFailedTest rev e)
  | None => ret tt
  end.

(** The body of the second loop, for one discovered revision, in two
    parts.  It works on the tested-table and on the stack of deferred
    cleanups (last registered first); [continue] leaves both as they
    are.

    The second part: from the check that the revision can be tested to
    the end of the body. *)
Definition testRevisions_candidate (r : Repo) (rev : revision)
    (st : gmap string revision * list languageConfig)
  : M (gmap string revision * list languageConfig) :=
  let '(revisionsTested, defers) := st in
  let continue : M (gmap string revision * list languageConfig) := ret st in
  (* check if the revision can be tested *)
  let! err := call (rev_canBeTested rev) in
  emit (EvCanBeTested rev err) >>
  match err with
  | Some e => logf Debug (MsgCannotBeTested (rev_id rev) e) >> continue
  | None =>
    (* setup revision *)
    let! res := setupRevision r rev in
    match snd res with
    | Some e => logf Error (MsgFailedSetup rev e) >> continue
    | None =>
      let langEnv := fst res in
      (* cleanup revision: defer *)
      let defers := langEnv :: defers in
      (* test revision *)
      let! parallel := getParallel in
      (if parallel then go rev langEnv
       else emit EvLock >> testTask r rev langEnv >> emit EvUnlock) >>
      (* copy the PR that was tested *)
      ret (<[rev_id rev := rev]> revisionsTested, defers)
    end
  end.

(** The first part: the checks against the tested-table. *)
Definition testRevisions_body (r : Repo) (rev : revision)
    (st : gmap string revision * list languageConfig)
  : M (gmap string revision * list languageConfig) :=
  let '(revisionsTested, defers) := st in
  let continue : M (gmap string revision * list languageConfig) := ret st in
  (* for _, revision := range revisions *)
  setRangeVar rev >>
  let! w := getWorld in
  match revisionsTested !! rev_id rev with
  | Some tested =>
    (* checking if the old version of the PR is being tested *)
    if rev_isBeingTested tested w
    then logf Debug (MsgBeingTested tested) >> continue
    else if rev_equal rev tested
    then logf Debug (MsgAlreadyTested rev) >> continue
    else testRevisions_candidate r rev st
  | None => testRevisions_candidate r rev st
  end.

(** The second loop. *)
Fixpoint testRevisions_loop (r : Repo) (revisions : list revision)
    (st : gmap string revision * list languageConfig)
  : M (gmap string revision * list languageConfig) :=
  match revisions with
  | [] => ret st
  | rev :: rest =>
    let! st' := testRevisions_body r rev st in
    testRevisions_loop r rest st'
  end.

(** The deferred calls run when testRevisions returns, last registered
    first. *)
Fixpoint runDeferred (defers : list languageConfig) : M unit :=
  match defers with
  | [] => ret tt
  | langEnv :: rest => cleanupRevision langEnv >> runDeferred rest
  end.

Definition testRevisions (r : Repo) (revisions : list revision)
    (revisionsTested : gmap string revision) : M (gmap string revision) :=
  let! w := getWorld in
  let tested := removeStale revisions w revisionsTested in
  let! st := testRevisions_loop r revisions (tested, []) in
  endRange >>
  runDeferred (snd st) >>
  ret (fst st).

(** ** The goroutines, when they run *)

(** The goroutine started at repo.go 367-371.  It reads [revision] when
    it runs, from the range variable its closure captured: the revision
    it tests is the one the loop has reached by then, in the
    environment of the iteration that started it.  (No closure exists
    before its range variable was assigned.) *)
Definition goroutine (r : Repo) (g : nat * languageConfig) : M unit :=
  let! vars := getRangeVars in
  match vars !! fst g with
  | Some rev => testTask r rev (snd g)
  | None => ret tt
  end.

Fixpoint runGoroutines (r : Repo) (gs : list (nat * languageConfig)) : M unit :=
  match gs with
  | [] => ret tt
  | g :: rest => goroutine r g >> runGoroutines r rest
  end.

(** One of the schedules: the caller is parked (it sleeps, or it has
    returned) and the goroutines started so far run to their end, in
    the order they were started. *)
Definition runSpawned (r : Repo) : M unit :=
  λ s, runGoroutines r (spawned s)
         (mkState (ext s) (trace s) [] (runTestsInParallel s)
            (rangeVars s) (rangeVar s)).

(** ** Repo.test: one pull request, tested once

    The revision printed with %#v in the error message is left out. *)

Definition test (r : Repo) : M (option error) :=
  if (PR r =? 0)%Z
  then ret (Some (Errorf "Missing pull request number in configuration file"))
  else
    let! res := call (newPullRequest (PR r) (prConfig r)) in
    emit (EvNewPullRequest (PR r) res) >>
    match snd res with
    | Some (Errorf msg) =>
      ret (Some (Errorf ("failed to get pull request " +:+ pretty (PR r) +:+ " " +:+ msg)))
    | None =>
      let rev := fst res in
      setParallel false >>
      let! res := setupRevision r rev in
      match snd res with
      | Some (Errorf msg) => ret (Some (Errorf ("failed to setup revision: " +:+ msg)))
      | None =>
        let langEnv := fst res in
        let! err := testRevision r rev langEnv in
        cleanupRevision langEnv >>
        ret err
      end
    end.

(** ** setup *)

Definition set_URL (v : string) (r : Repo) : Repo :=
  mkRepo v (MasterBranch r) (PR r) (RefreshTime r) (Token r) (Setup r) (Run r)
    (Teardown r) (OnSuccess r) (OnFailure r) (TTY r) (PostOnSuccess r)
    (PostOnFailure r) (LogDir r) (Language r) (CommentTrigger r) (logServer r)
    (Whitelist r) (cvr r) (refresh r) (env r) (whitelistUsers r) (prConfig r).

Definition set_logServer (v : LogServer) (r : Repo) : Repo :=
  mkRepo (URL r) (MasterBranch r) (PR r) (RefreshTime r) (Token r) (Setup r) (Run r)
    (Teardown r) (OnSuccess r) (OnFailure r) (TTY r) (PostOnSuccess r)
    (PostOnFailure r) (LogDir r) (Language r) (CommentTrigger r) v
    (Whitelist r) (cvr r) (refresh r) (env r) (whitelistUsers r) (prConfig r).

Definition set_cvr (v : CVR) (r : Repo) : Repo :=
  mkRepo (URL r) (MasterBranch r) (PR r) (RefreshTime r) (Token r) (Setup r) (Run r)
    (Teardown r) (OnSuccess r) (OnFailure r) (TTY r) (PostOnSuccess r)
    (PostOnFailure r) (LogDir r) (Language r) (CommentTrigger r) (logServer r)
    (Whitelist r) v (refresh r) (env r) (whitelistUsers r) (prConfig r).

Definition set_refresh (v : Duration) (r : Repo) : Repo :=
  mkRepo (URL r) (MasterBranch r) (PR r) (RefreshTime r) (Token r) (Setup r) (Run r)
    (Teardown r) (OnSuccess r) (OnFailure r) (TTY r) (PostOnSuccess r)
    (PostOnFailure r) (LogDir r) (Language r) (CommentTrigger r) (logServer r)
    (Whitelist r) (cvr r) v (env r) (whitelistUsers r) (prConfig r).

Definition set_env (v : list string) (r : Repo) : Repo :=
  mkRepo (URL r) (MasterBranch r) (PR r) (RefreshTime r) (Token r) (Setup r) (Run r)
    (Teardown r) (OnSuccess r) (OnFailure r) (TTY r) (PostOnSuccess r)
    (PostOnFailure r) (LogDir r) (Language r) (CommentTrigger r) (logServer r)
    (Whitelist r) (cvr r) (refresh r) v (whitelistUsers r) (prConfig r).

Definition set_whitelistUsers (v : list string) (r : Repo) : Repo :=
  mkRepo (URL r) (MasterBranch r) (PR r) (RefreshTime r) (Token r) (Setup r) (Run r)
    (Teardown r) (OnSuccess r) (OnFailure r) (TTY r) (PostOnSuccess r)
    (PostOnFailure r) (LogDir r) (Language r) (CommentTrigger r) (logServer r)
    (Whitelist r) (cvr r) (refresh r) (env r) v (prConfig r).

Definition set_prConfig (v : pullRequestConfig CVR) (r : Repo) : Repo :=
  mkRepo (URL r) (MasterBranch r) (PR r) (RefreshTime r) (Token r) (Setup r) (Run r)
    (Teardown r) (OnSuccess r) (OnFailure r) (TTY r) (PostOnSuccess r)
    (PostOnFailure r) (LogDir r) (Language r) (CommentTrigger r) (logServer r)
    (Whitelist r) (cvr r) (refresh r) (env r) (whitelistUsers r) v.

(** The setup methods have a pointer receiver: each gives back the Repo
    as it left it, and its error. *)
Definition setupCvr (r : Repo) : M (Repo * option error) :=
  let r := set_URL (strings_TrimSpace (URL r)) r in
  if (String.length (URL r) =? 0)%nat
  then ret (r, Some (Errorf "missing repository url"))
  else
    let! res := call (newCVR (URL r) (Token r)) in
    emit (EvNewCVR (URL r) (Token r) res) >>
    let r := set_cvr (fst res) r in
    logf Debug (MsgCvr (cvr r)) >>
    ret (r, snd res).

Definition setupLogServer (r : Repo) : M (Repo * option error) :=
  if bool_decide (logServer r = mkLogServer "" "" "")
  then ret (r, None)
  else if (String.length (IP (logServer r)) =? 0)%nat
  then ret (r, Some (Errorf "missing server ip"))
  else
    let r :=
      if (String.length (User (logServer r)) =? 0)%nat
      then set_logServer (mkLogServer (IP (logServer r)) logServerUser (Dir (logServer r))) r
      else r in
    let r :=
      if (String.length (Dir (logServer r)) =? 0)%nat
      then set_logServer (mkLogServer (IP (logServer r)) (User (logServer r)) defaultLogDir) r
      else r in
    ret (r, None).

Definition setupLogDir (r : Repo) : M (Repo * option error) :=
  let! err := call (os_MkdirAll (LogDir r) logDirMode) in
  emit (EvMkdirAll (LogDir r) logDirMode err) >>
  ret (r, err).

Definition setupRefreshTime (r : Repo) : M (Repo * option error) :=
  let res := time_ParseDuration (RefreshTime r) in
  let r := set_refresh (fst res) r in
  match snd res with
  | Some (Errorf msg) =>
    ret (r, Some (Errorf ("failed to parse refresh time '" +:+ RefreshTime r
                          +:+ "' " +:+ msg)))
  | None => ret (r, None)
  end.

Definition setupCommentTrigger (r : Repo) : M (Repo * option error) :=
  if bool_decide (CommentTrigger r = mkRepoComment "" "")
  then ret (r, None)
  else if (String.length (Comment (CommentTrigger r)) =? 0)%nat
  then ret (r, Some (Errorf "missing comment trigger"))
  else ret (r, None).

Definition setupLanguage (r : Repo) : M (Repo * option error) :=
  let! err := call (language_setup (Language r)) in
  emit (EvLanguageSetup err) >>
  ret (r, err).

Definition setupStages (r : Repo) : M (Repo * option error) :=
  if (length (Run r) =? 0)%nat
  then ret (r, Some (Errorf "missing run commands"))
  else ret (r, None).

Definition setupWhitelist (r : Repo) : M (Repo * option error) :=
  ret (set_whitelistUsers (strings_Split (Whitelist r) ",") r, None).

Definition setupEnvars (r : Repo) : M (Repo * option error) :=
  let! w := getWorld in
  let repoSlug := "LOCALCI_REPO_SLUG=" +:+ getRepoSlug (cvr r) in
  ret (set_env ((os_Environ w ++ defaultEnv) ++ [repoSlug])%list r, None).

Definition setupFuncs : list (Repo → M (Repo * option error)) :=
  [ setupCvr; setupRefreshTime; setupLogDir; setupLogServer; setupCommentTrigger;
    setupLanguage; setupStages; setupWhitelist; setupEnvars ].

(** The loop over setupFuncs: the first error is returned. *)
Fixpoint runSetupFuncs (fs : list (Repo → M (Repo * option error))) (r : Repo)
  : M (Repo * option error) :=
  match fs with
  | [] => ret (r, None)
  | setupFunc :: rest =>
    let! res := setupFunc r in
    match snd res with
    | Some e => ret (fst res, Some e)
    | None => runSetupFuncs rest (fst res)
    end
  end.

Definition setup (r : Repo) : M (Repo * option error) :=
  let! res := runSetupFuncs setupFuncs r in
  match snd res with
  | Some e => ret (fst res, Some e)
  | None =>
    let r := fst res in
    let r := set_prConfig (mkPullRequestConfig (cvr r) (CommentTrigger r)
                             (PostOnFailure r) (PostOnSuccess r) (Whitelist r)) r in
    logf Debug (MsgCvr (cvr r)) >>
    ret (r, None)
  end.

(** ** loop *)

(** The closure appendPullRequests: it stops at the first pull request
    that cannot be fetched, and keeps those appended before it. *)
Fixpoint appendPullRequests (r : Repo) (revisions : list revision) (prs : list Z)
  : M (list revision * option error) :=
  match prs with
  | [] => ret (revisions, None)
  | prNumber :: rest =>
    logf Debug (MsgRequestingPullRequest prNumber) >>
    let! res := call (newPullRequest prNumber (prConfig r)) in
    emit (EvNewPullRequest prNumber res) >>
    match snd res with
    | Some (Errorf msg) =>
      ret (revisions,
           Some (Errorf ("failed to get pull request '" +:+ pretty prNumber
                         +:+ "' " +:+ msg)))
    | None => appendPullRequests r (revisions ++ [fst res])%list rest
    end
  end.

(** The first half of an iteration of the for loop: the revisions to
    test. *)
Definition discover (r : Repo) : M (list revision) :=
  let revisionsToTest : list revision := [] in
  (* append master branch *)
  logf Debug (MsgRequestingMaster (MasterBranch r)) >>
  let! res := call (newRepoBranch (MasterBranch r) (cvr r)) in
  emit (EvNewRepoBranch (MasterBranch r) res) >>
  let! revisionsToTest :=
    match snd res with
    | Some e => logf Warn (MsgFailedMaster (MasterBranch r) e) >> ret revisionsToTest
    | None => ret (revisionsToTest ++ [fst res])%list
    end in
  (* append pull requests *)
  if negb (PR r =? 0)%Z
  then
    let! res := appendPullRequests r revisionsToTest [PR r] in
    match snd res with
    | Some e => logf Warn (MsgFailedAppendPullRequest (PR r) e) >> ret (fst res)
    | None => ret (fst res)
    end
  else
    logf Debug MsgRequestingOpenPullRequests >>
    let! prs := call (getOpenPullRequests (cvr r)) in
    emit (EvGetOpenPullRequests prs) >>
    match snd prs with
    | Some e => logf Warn (MsgFailedOpenPullRequests e) >> ret revisionsToTest
    | None =>
      let! res := appendPullRequests r revisionsToTest (fst prs) in
      match snd res with
      | Some e => logf Warn (MsgFailedAppendPullRequests (fst prs) e) >> ret (fst res)
      | None => ret (fst res)
      end
    end.

(** One iteration of the for loop of [loop]. *)
Definition loop_iteration (r : Repo) (revisionsTested : gmap string revision)
  : M (gmap string revision) :=
  let! revisionsToTest := discover r in
  let! revisionsTested :=
    if (0 <? length revisionsToTest)%nat
    then logf Debug (MsgTestingRevisions revisionsToTest) >>
         testRevisions r revisionsToTest revisionsTested
    else ret revisionsTested in
  logf Debug (MsgGoingToSleep (RefreshTime r)) >>
  emit (EvSleep (refresh r)) >>
  ret revisionsTested.

(** The for loop never ends; its first [n] iterations. *)
Fixpoint loop_iterations (r : Repo) (n : nat) (revisionsTested : gmap string revision)
  : M (gmap string revision) :=
  match n with
  | O => ret revisionsTested
  | S n' =>
    let! revisionsTested := loop_iteration r revisionsTested in
    loop_iterations r n' revisionsTested
  end.

Definition loop (r : Repo) (n : nat) : M (gmap string revision) :=
  logf Debug MsgMonitoring >>
  loop_iterations r n ∅.

(** ** Reading a trace *)

(** The state with more events at the end of its trace. *)
Definition logged (s : state) (evs : list event) : state :=
  mkState (ext s) (trace s ++ evs) (spawned s) (runTestsInParallel s)
    (rangeVars s) (rangeVar s).

(** The state once the range variable was assigned. *)
Definition assigned (rev : revision) (s : state) : state :=
  snd (setRangeVar rev s).

(** What the goroutines that have not run yet would test if they ran
    now: for each, the revision its range variable holds. *)
Definition pending (s : state) : list (option revision) :=
  map (λ g, rangeVars s !! fst g) (spawned s).

(** The revision a call is made on, or made for. *)
Definition subject (e : event) : option revision :=
  match e with
  | EvCanBeTested rev _ => Some rev
  | EvGenerateEnvironment rev _ _ => Some rev
  | EvDownload rev _ _ => Some rev
  | EvTest rev _ _ _ => Some rev
  | EvGo rev _ => Some rev
  | _ => None
  end.

(** An environment was provisioned. *)
Definition provisioned (e : event) : bool :=
  match e with
  | EvGenerateEnvironment _ _ (_, None) => true
  | _ => false
  end.

(** An environment was released. *)
Definition released (e : event) : bool :=
  match e with
  | EvCleanup _ _ => true
  | _ => false
  end.

(** setupRevision gave up after the environment was provisioned: the
    download failed, or the log directory could not be created. *)
Definition abandoned (e : event) : bool :=
  match e with
  | EvDownload _ _ (Some _) => true
  | EvMkdirAll _ _ (Some _) => true
  | _ => false
  end.

(** The test method of a revision was called. *)
Definition isTest (e : event) : bool :=
  match e with
  | EvTest _ _ _ _ => true
  | _ => false
  end.

Definition count (f : event → bool) (t : list event) : nat :=
  length (List.filter f t).

(** Events that neither provision, release nor abandon an environment,
    and are about [rev] if about a revision at all. *)
Definition bystander (rev : revision) (e : event) : Prop :=
  (subject e = None ∨ subject e = Some rev)
  ∧ provisioned e = false ∧ released e = false ∧ abandoned e = false.

(** The table checks at the head of the loop body let the candidate
    through. *)
Definition needsTest (revisionsTested : gmap string revision) (rev : revision)
    (w : world) : bool :=
  match revisionsTested !! rev_id rev with
  | Some tested => negb (rev_isBeingTested tested w) && negb (rev_equal rev tested)
  | None => true
  end.

(** The state of an iteration once canBeTested has answered. *)
Definition afterCanBeTested (rev : revision) (s : state) : state :=
  snd ((setRangeVar rev >>
        let! err := call (rev_canBeTested rev) in emit (EvCanBeTested rev err)) s).

(** ** Kinds of events *)

Definition isSleep (e : event) : bool :=
  match e with EvSleep _ => true | _ => false end.

Definition isGo (e : event) : bool :=
  match e with EvGo _ _ => true | _ => false end.

Definition isLock (e : event) : bool :=
  match e with EvLock => true | _ => false end.

Definition isUnlock (e : event) : bool :=
  match e with EvUnlock => true | _ => false end.

Definition isCopy (e : event) : bool :=
  match e with EvLogCopy _ _ _ => true | _ => false end.

Definition isLog (e : event) : bool :=
  match e with EvLog _ _ => true | _ => false end.

(** A pull request was asked for. *)
Definition isFetch (e : event) : bool :=
  match e with EvNewPullRequest _ _ => true | _ => false end.

(** The open pull requests were listed. *)
Definition isListing (e : event) : bool :=
  match e with EvGetOpenPullRequests _ => true | _ => false end.

(** What setupRevision may call. *)
Definition fromSetupRevision (e : event) : bool :=
  match e with
  | EvGenerateEnvironment _ _ _ | EvDownload _ _ _ | EvRemoveAll _ _
  | EvMkdirAll _ _ _ => true
  | _ => false
  end.

(** What the loop body may do before it dispatches. *)
Definition beforeDispatch (e : event) : bool :=
  match e with
  | EvLog _ _ | EvCanBeTested _ _ => true
  | _ => fromSetupRevision e
  end.

(** What testRevision and its caller may do. *)
Definition fromTestTask (e : event) : bool :=
  match e with
  | EvLog _ _ | EvTest _ _ _ _ | EvLogCopy _ _ _ => true
  | _ => false
  end.

(** What testRevisions may do. *)
Definition fromTestRevisions (e : event) : bool :=
  match e with
  | EvCleanup _ _ | EvLock | EvUnlock | EvGo _ _ => true
  | _ => beforeDispatch e || fromTestTask e
  end.

(** What the discovery may do. *)
Definition fromDiscover (e : event) : bool :=
  match e with
  | EvLog _ _ | EvNewRepoBranch _ _ | EvNewPullRequest _ _
  | EvGetOpenPullRequests _ => true
  | _ => false
  end.

(** What setupCvr may do. *)
Definition fromSetupCvr (e : event) : bool :=
  match e with
  | EvLog _ _ | EvNewCVR _ _ _ => true
  | _ => false
  end.

(** The use of testLock along a trace, from a lock that is held or not:
    None when the lock is taken twice, released while free, or when a
    revision is tested without it; otherwise whether it is held at the
    end. *)
Fixpoint locking (held : bool) (t : list event) : option bool :=
  match t with
  | [] => Some held
  | e :: rest =>
    match e with
    | EvLock => if held then None else locking true rest
    | EvUnlock => if held then locking false rest else None
    | EvTest _ _ _ _ => if held then locking held rest else None
    | _ => locking held rest
    end
  end.

(** The environments released along a trace, in order. *)
Fixpoint releasedEnvs (t : list event) : list languageConfig :=
  match t with
  | [] => []
  | EvCleanup langEnv _ :: rest => langEnv :: releasedEnvs rest
  | _ :: rest => releasedEnvs rest
  end.

(** The environments handed to goroutines along a trace, in order. *)
Fixpoint goEnvs (t : list event) : list languageConfig :=
  match t with
  | [] => []
  | EvGo _ langEnv :: rest => langEnv :: goEnvs rest
  | _ :: rest => goEnvs rest
  end.

(** The sleeps along a trace, in order. *)
Fixpoint sleeps (t : list event) : list Duration :=
  match t with
  | [] => []
  | EvSleep d :: rest => d :: sleeps rest
  | _ :: rest => sleeps rest
  end.

(** The pull requests asked for along a trace, in order: the number
    and what the provider answered. *)
Fixpoint asked (t : list event) : list (Z * result revision) :=
  match t with
  | [] => []
  | EvNewPullRequest n res :: rest => (n, res) :: asked rest
  | _ :: rest => asked rest
  end.

(** The revisions of the pull requests that could be fetched. *)
Fixpoint fetchedOf (l : list (Z * result revision)) : list revision :=
  match l with
  | [] => []
  | (_, (pr, None)) :: rest => pr :: fetchedOf rest
  | _ :: rest => fetchedOf rest
  end.

(** The listings of the open pull requests along a trace, in order. *)
Fixpoint listings (t : list event) : list (result (list Z)) :=
  match t with
  | [] => []
  | EvGetOpenPullRequests res :: rest => res :: listings rest
  | _ :: rest => listings rest
  end.

(** The answers are those of the provider, asked for these pull
    requests in this order from the world [w], and [w'] is the world it
    is left in. *)
Fixpoint answers (cfg : pullRequestConfig CVR) (w : world)
    (l : list (Z * result revision)) (w' : world) : Prop :=
  match l with
  | [] => w' = w
  | (n, res) :: rest =>
    fst (newPullRequest n cfg w) = res
    ∧ answers cfg (snd (newPullRequest n cfg w)) rest w'
  end.

(** Every key of the tested-table is the identity of its revision. *)
Definition keyedById (revisionsTested : gmap string revision) : Prop :=
  ∀ k v, revisionsTested !! k = Some v → rev_id v = k.

(** The settings of a Repo that come from the configuration file and
    that setup has no reason to touch. *)
Definition sameSettings (r r' : Repo) : Prop :=
  MasterBranch r' = MasterBranch r ∧ PR r' = PR r
  ∧ RefreshTime r' = RefreshTime r ∧ Token r' = Token r
  ∧ Setup r' = Setup r ∧ Run r' = Run r ∧ Teardown r' = Teardown r
  ∧ OnSuccess r' = OnSuccess r ∧ OnFailure r' = OnFailure r
  ∧ TTY r' = TTY r ∧ PostOnSuccess r' = PostOnSuccess r
  ∧ PostOnFailure r' = PostOnFailure r ∧ LogDir r' = LogDir r
  ∧ Language r' = Language r ∧ CommentTrigger r' = CommentTrigger r
  ∧ Whitelist r' = Whitelist r.

(** What one turn of the loop, or several, adds to the trace, to the
    deferred cleanups and to the goroutines. *)
Definition census (s s' : state) (defers defers' : list languageConfig) : Prop :=
  ∃ t, trace s' = trace s ++ t
       ∧ runTestsInParallel s' = runTestsInParallel s
       ∧ Forall (λ e, fromTestRevisions e = true) t
       ∧ locking false t = Some false
       ∧ releasedEnvs t = []
       ∧ length defers' = (length defers + count isGo t + count isTest t)%nat
       ∧ count isLock t = count isTest t
       ∧ count isUnlock t = count isTest t
       ∧ length (spawned s') = (length (spawned s) + count isGo t)%nat
       ∧ (runTestsInParallel s = true →
          count isTest t = 0%nat ∧ defers' = rev (goEnvs t) ++ defers)
       ∧ (runTestsInParallel s = false →
          count isGo t = 0%nat ∧ spawned s' = spawned s).

End Model.

(** ** The revisions' test method and the stage runner *)

Section StageRunner.

Context {world : Type}.

(** Running one shell command of a stage: whether it succeeded. *)
Variable runCommand : string → stageConfig → world → bool * world.

(** Modelled from the spec: the Stage Runner, the [run] method of a
    stage, which repo.go does not contain.  It executes each command in
    order, stops at the first failing command and returns that failure;
    an empty command list is a success. *)
Fixpoint stage_run_commands (name : string) (commands : list string)
    (config : stageConfig) (w : world) : option error * world :=
  match commands with
  | [] => (None, w)
  | c :: rest =>
    let '(ok, w') := runCommand c config w in
    if ok then stage_run_commands name rest config w'
    else (Some (Errorf ("stage " +:+ name +:+ " failed: " +:+ c)), w')
  end.

(** Modelled from the spec: the [run] method of a stage, on its own
    commands. *)
Definition stage_run (st : stage) (config : stageConfig) (w : world)
  : option error * world :=
  stage_run_commands (stage_name st) (stage_commands st) config w.

(** [stages[name]]: a missing key gives the zero stage. *)
Definition stageAt (stages : gmap string stage) (name : string) : stage :=
  default (mkStage "" []) (stages !! name).

(** The first error of two results, in order. *)
Definition firstError (a b : option error) : option error :=
  match a with Some e => Some e | None => b end.

(** Modelled from the spec: the [test] method of a revision, which
    repo.go calls and does not contain.  It invokes the Stage Runner for
    setup, run and teardown unconditionally in that order, then for
    onSuccess if all three passed or for onFailure if any failed.  The
    result is the failure of the first of the three stages that failed.
    The second component lists the stages handed to the Stage Runner, in
    order. *)
Definition revision_test (config : stageConfig) (stages : gmap string stage)
    (w : world) : (option error * world) * list stage :=
  let '(e1, w1) := stage_run (stageAt stages "setup") config w in
  let '(e2, w2) := stage_run (stageAt stages "run") config w1 in
  let '(e3, w3) := stage_run (stageAt stages "teardown") config w2 in
  let err := firstError e1 (firstError e2 e3) in
  let last := match err with
              | None => stageAt stages "onSuccess"
              | Some _ => stageAt stages "onFailure"
              end in
  let '(_, w4) := stage_run last config w3 in
  ((err, w4),
   [stageAt stages "setup"; stageAt stages "run"; stageAt stages "teardown"; last]).

End StageRunner.

(** ** time.ParseDuration *)

Module GoTime.

Local Open Scope Z_scope.

Definition maxInt64 : Z := 9223372036854775807.

(** int64 arithmetic wraps around. *)
Definition wrap64 (x : Z) : Z := (x + 2 ^ 63) mod 2 ^ 64 - 2 ^ 63.

Definition isDigit (c : ascii) : bool :=
  (48 <=? Z.of_nat (nat_of_ascii c)) && (Z.of_nat (nat_of_ascii c) <=? 57).

Definition digitVal (c : ascii) : Z := Z.of_nat (nat_of_ascii c) - 48.

(** leadingInt: the leading digits of s as an int64, and the rest; None
    on overflow. *)
Fixpoint leadingInt (x : Z) (s : string) : option (Z * string) :=
  match s with
  | String c rest =>
    if isDigit c then
      if x >? maxInt64 / 10 then None
      else
        let x' := wrap64 (x * 10 + digitVal c) in
        if x' <? 0 then None else leadingInt x' rest
    else Some (x, s)
  | EmptyString => Some (x, s)
  end.

(** leadingFraction: the leading digits of s as the numerator of a
    fraction and its scale; digits past an overflow are dropped. *)
Fixpoint leadingFraction (x scale : Z) (overflow : bool) (s : string)
  : Z * Z * string :=
  match s with
  | String c rest =>
    if isDigit c then
      if overflow then leadingFraction x scale overflow rest
      else if x >? maxInt64 / 10 then leadingFraction x scale true rest
      else
        let y := wrap64 (x * 10 + digitVal c) in
        if y <? 0 then leadingFraction x scale true rest
        else leadingFraction y (scale * 10) overflow rest
    else (x, scale, s)
  | EmptyString => (x, scale, s)
  end.

(** The unit: the longest prefix without '.' or a digit. *)
Fixpoint spanUnit (s : string) : string * string :=
  match s with
  | String c rest =>
    if Ascii.eqb c "."%char || isDigit c then (EmptyString, s)
    else let '(u, r) := spanUnit rest in (String c u, r)
  | EmptyString => (EmptyString, s)
  end.

Definition micro_B5 : string :=
  String (ascii_of_nat 194) (String (ascii_of_nat 181) "s").
Definition micro_3BC : string :=
  String (ascii_of_nat 206) (String (ascii_of_nat 188) "s").

Definition unitMap (u : string) : option Z :=
  if String.eqb u "ns" then Some 1
  else if String.eqb u "us" then Some 1000
  else if String.eqb u micro_B5 then Some 1000
  else if String.eqb u micro_3BC then Some 1000
  else if String.eqb u "ms" then Some 1000000
  else if String.eqb u "s" then Some 1000000000
  else if String.eqb u "m" then Some 60000000000
  else if String.eqb u "h" then Some 3600000000000
  else None.

Definition invalid (orig : string) : result Duration :=
  (0, Some (Errorf ("time: invalid duration " +:+ orig))).

(** The loop over the terms of a duration: digits, an optional point and
    digits, and a unit.  Each
    term consumes at least its unit, so the length of the string is
    enough fuel.  The fractional part is computed exactly, where Go
    goes through float64. *)
Fixpoint parseTerms (fuel : nat) (orig : string) (d : Z) (s : string)
  : result Duration :=
  match s with
  | EmptyString => (d, None)
  | String c0 _ =>
    match fuel with
    | O => invalid orig
    | S fuel' =>
      if negb (Ascii.eqb c0 "."%char || isDigit c0) then invalid orig
      else
        match leadingInt 0 s with
        | None => invalid orig
        | Some (v, s1) =>
          let pre := negb (String.length s =? String.length s1)%nat in
          let '(f, scale, s2, post) :=
            match s1 with
            | String "."%char s1' =>
              let '(f, scale, s2) := leadingFraction 0 1 false s1' in
              (f, scale, s2, negb (String.length s1' =? String.length s2)%nat)
            | _ => (0, 1, s1, false)
            end in
          if negb pre && negb post then invalid orig
          else
            let '(u, s3) := spanUnit s2 in
            if (String.length u =? 0)%nat
            then (0, Some (Errorf ("time: missing unit in duration " +:+ orig)))
            else
              match unitMap u with
              | None =>
                (0, Some (Errorf ("time: unknown unit " +:+ u +:+ " in duration "
                                  +:+ orig)))
              | Some unit =>
                if v >? maxInt64 / unit then invalid orig
                else
                  let v := wrap64 (v * unit) in
                  let v := if f >? 0 then wrap64 (v + f * unit / scale) else v in
                  if v <? 0 then invalid orig
                  else
                    let d := wrap64 (d + v) in
                    if d <? 0 then invalid orig
                    else parseTerms fuel' orig d s3
              end
        end
    end
  end.

Definition ParseDuration (s : string) : result Duration :=
  let orig := s in
  let '(neg, s) :=
    match s with
    | String c rest =>
      if Ascii.eqb c "-"%char then (true, rest)
      else if Ascii.eqb c "+"%char then (false, rest)
      else (false, s)
    | EmptyString => (false, s)
    end in
  if String.eqb s "0" then (0, None)
  else if String.eqb s "" then invalid orig
  else
    let res := parseTerms (String.length s) orig 0 s in
    match snd res with
    | Some e => (0, Some e)
    | None => (if neg then wrap64 (- fst res) else fst res, None)
    end.

End GoTime.


(** ** A simulated outside

    One implementation of the two interfaces, small enough to run the
    model on concrete inputs: a provider that serves a fixed sequence of
    branch heads and of pull requests, environments and a log server
    that fail on demand, and revisions whose being-tested marker lives
    in the world. *)

Module Sim.

(** A revision object: its identity, the commit it points to, and the
    address of the object. *)
Record rev := mkRev {
  r_id : string;
  r_sha : string;
  r_obj : nat;
}.

Record world := mkWorld {
  marked : list nat;              (* objects whose being-tested marker is set *)
  nextObj : nat;                  (* next free object address *)
  branchHeads : list string;      (* head served at each fetch of the branch *)
  openPRs : result (list Z);      (* answer of the provider's listing *)
  prHeads : list (Z * string);    (* head of each pull request that exists *)
  blocked : list string;          (* ids that cannot be tested *)
  provisionFails : bool;
  brokenDownloads : list string;  (* ids whose download fails *)
  mkdirFails : bool;
  copyFails : bool;
  cleanupFails : bool;
  environ : list string;
}.

Definition with_marked (m : list nat) (w : world) : world :=
  mkWorld m (nextObj w) (branchHeads w) (openPRs w) (prHeads w) (blocked w)
    (provisionFails w) (brokenDownloads w) (mkdirFails w) (copyFails w)
    (cleanupFails w) (environ w).

Definition with_nextObj (n : nat) (w : world) : world :=
  mkWorld (marked w) n (branchHeads w) (openPRs w) (prHeads w) (blocked w)
    (provisionFails w) (brokenDownloads w) (mkdirFails w) (copyFails w)
    (cleanupFails w) (environ w).

Definition with_branchHeads (h : list string) (w : world) : world :=
  mkWorld (marked w) (nextObj w) h (openPRs w) (prHeads w) (blocked w)
    (provisionFails w) (brokenDownloads w) (mkdirFails w) (copyFails w)
    (cleanupFails w) (environ w).

Definition nilRev : rev := mkRev "" "" 0.

Definition failIf (b : bool) (msg : string) : option error :=
  if b then Some (Errorf msg) else None.

Definition inList (x : string) (l : list string) : bool :=
  existsb (String.eqb x) l.

(** A shell command fails when it is [false]. *)
Definition runCommand (c : string) (_ : stageConfig) (w : world) : bool * world :=
  (negb (String.eqb c "false"), w).

Definition isBeingTested (r : rev) (w : world) : bool :=
  existsb (Nat.eqb (r_obj r)) (marked w).

(** Modelled from the spec: the being-tested marker is a transient
    marker set for the duration of a test; the test itself is
    [revision_test]. *)
Definition test (r : rev) (config : stageConfig) (stages : gmap string stage)
    (w : world) : option error * world :=
  let w1 := with_marked (r_obj r :: marked w) w in
  let '(err, w2) := fst (revision_test runCommand config stages w1) in
  (err, with_marked (marked w) w2).

#[global] Instance sim_revision : Revision world rev := {
  rev_id := r_id;
  rev_equal := λ a b, String.eqb (r_id a) (r_id b) && String.eqb (r_sha a) (r_sha b);
  rev_isBeingTested := isBeingTested;
  rev_canBeTested := λ r w, (failIf (inList (r_id r) (blocked w)) "not in whitelist", w);
  rev_download := λ r dir w,
    (failIf (inList (r_id r) (brokenDownloads w)) "download failed", w);
  rev_logDirName := r_id;
  rev_test := test;
}.

(** The white space of ASCII.  strings.TrimSpace also trims the white
    space of Unicode beyond it, which no configuration here contains. *)
Definition isSpace (c : ascii) : bool :=
  let n := nat_of_ascii c in
  (Nat.eqb n 32 || (Nat.leb 9 n && Nat.leb n 13))%bool.

Fixpoint trimLeft (s : string) : string :=
  match s with
  | String c rest => if isSpace c then trimLeft rest else s
  | EmptyString => s
  end.

Fixpoint trimRight (s : string) : string :=
  match s with
  | String c rest =>
    let rest' := trimRight rest in
    if isSpace c && String.eqb rest' "" then EmptyString else String c rest'
  | EmptyString => s
  end.

Fixpoint splitOn (sep : ascii) (cur : string) (s : string) : list string :=
  match s with
  | String c rest =>
    if Ascii.eqb c sep then cur :: splitOn sep EmptyString rest
    else splitOn sep (cur +:+ String c EmptyString) rest
  | EmptyString => [cur]
  end.

Fixpoint assocZ (n : Z) (l : list (Z * string)) : option string :=
  match l with
  | [] => None
  | (k, v) :: rest => if (k =? n)%Z then Some v else assocZ n rest
  end.

Definition newRepoBranch (name : string) (c : string) (w : world)
  : result rev * world :=
  match branchHeads w with
  | [] => ((nilRev, Some (Errorf "branch not found")), w)
  | h :: rest =>
    ((mkRev name h (nextObj w), None),
     with_branchHeads rest (with_nextObj (S (nextObj w)) w))
  end.

Definition newPullRequest (n : Z) (cfg : pullRequestConfig string) (w : world)
  : result rev * world :=
  match assocZ n (prHeads w) with
  | None => ((nilRev, Some (Errorf "pull request not found")), w)
  | Some sha =>
    ((mkRev (pretty n) sha (nextObj w), None), with_nextObj (S (nextObj w)) w)
  end.

Definition generateEnvironment (lang slug : string) (w : world)
  : result languageConfig * world :=
  if provisionFails w
  then ((languageConfig_zero, Some (Errorf "cannot create environment")), w)
  else ((mkLanguageConfig ("/tmp/" +:+ slug) ["GOPATH=/tmp/" +:+ slug], None), w).

#[global] Instance sim_externals : Externals world rev string string := {
  newCVR := λ url token w, ((url, None), w);
  getRepoSlug := λ c, c;
  getProjectSlug := λ c, c;
  getOpenPullRequests := λ c w, (openPRs w, w);
  newRepoBranch := newRepoBranch;
  newPullRequest := newPullRequest;
  language_setup := λ l w, (None, w);
  generateEnvironment := generateEnvironment;
  cleanup := λ langEnv w, (failIf (cleanupFails w) "cleanup failed", w);
  logServer_copy := λ srv dir w, (failIf (copyFails w) "copy failed", w);
  os_MkdirAll := λ dir mode w, (failIf (mkdirFails w) "mkdir failed", w);
  os_RemoveAll := λ dir w, (None, w);
  os_Environ := environ;
  time_ParseDuration := GoTime.ParseDuration;
  strings_TrimSpace := λ s, trimRight (trimLeft s);
  strings_Split := λ s sep,
    match sep with
    | String c EmptyString => splitOn c EmptyString s
    | _ => [s]
    end;
  filepath_Join := λ a b,
    if String.eqb a "" then b else if String.eqb b "" then a else a +:+ "/" +:+ b;
  defaultLogDir := "/var/log/localCI";
}.

(** A world where nothing fails: a branch with one commit and no pull
    request. *)
Definition quiet : world :=
  mkWorld [] 0 ["c1"] ([], None) [] [] false [] false false false ["HOME=/root"].

(** A repository configuration as read from a file, before [setup]. *)
Definition config (refreshTime : string) : @Repo string string :=
  mkRepo " github.com/clearcontainers/tests " "master" 0 refreshTime "token"
    [] ["echo pass"] [] [] [] false "ok" "failed" "/logs" "Go"
    (mkRepoComment "" "") (mkLogServer "" "" "") "" "" 0 [] []
    (mkPullRequestConfig "" (mkRepoComment "" "") "" "" "").

Definition start (w : world) (parallel : bool) : @state world rev string :=
  mkState w [] [] parallel ∅ 0.

(** The repository once set up (what [setup] makes of [config "30s"] in
    the quiet world). *)
Definition repo : @Repo string string := fst (fst (setup (config "30s") (start quiet false))).

(** The same repository with a log server. *)
Definition repoWithLogs : @Repo string string :=
  set_logServer (mkLogServer "10.0.0.1" "root" "/var/log/localCI") repo.

#[global] Instance rev_eq_dec : EqDecision rev.
Proof. solve_decision. Defined.

(** The branch at its first commit, as three different objects, and at
    its second commit; pull request 7. *)
Definition master1 : rev := mkRev "master" "c1" 0.
Definition master1' : rev := mkRev "master" "c1" 1.
Definition master2 : rev := mkRev "master" "c2" 1.
Definition pr7 : rev := mkRev "7" "p1" 2.

(** Pull request 7 as a later poll finds it: the same commit, another
    object. *)
Definition pr7' : rev := mkRev "7" "p1" 3.

(** Worlds that differ from the quiet one in one respect. *)

(** No environment can be provisioned; the branch does not move. *)
Definition noProvision : world :=
  mkWorld [] 0 ["c1"; "c1"] ([], None) [] [] true [] false false false ["HOME=/root"].

(** The download of the branch fails. *)
Definition brokenDownload : world :=
  mkWorld [] 0 ["c1"] ([], None) [] [] false ["master"] false false false
    ["HOME=/root"].

(** The provider cannot be reached. *)
Definition offline : world :=
  mkWorld [] 0 [] ([], Some (Errorf "no route to host")) [] [] false [] false false
    false ["HOME=/root"].

(** A second commit is pushed to the branch between two polls. *)
Definition pushed : world :=
  mkWorld [] 0 ["c1"; "c2"] ([], None) [] [] false [] false false false ["HOME=/root"].

(** The log server refuses the logs; the run stage fails when asked to. *)
Definition noLogServer : world :=
  mkWorld [] 0 ["c1"] ([], None) [] [] false [] false true false ["HOME=/root"].

(** The object at address 0 is being tested. *)
Definition busy : world := with_marked [0%nat] quiet.

(** A pull request is open, and it is the one the configuration pins. *)
Definition withPR7 : world :=
  mkWorld [] 0 ["c1"] ([7], None) [(7, "p1")] [] false [] false false false
    ["HOME=/root"].

(** The same, but the author of the pull request is not accepted. *)
Definition blockedPR7 : world :=
  mkWorld [] 0 ["c1"] ([7], None) [(7, "p1")] ["7"] false [] false false false
    ["HOME=/root"].

(** A configuration with its URL, pull request number and log server
    left to choose. *)
Definition configFor (url : string) (pr : Z) (srv : LogServer) : @Repo string string :=
  mkRepo url "master" pr "30s" "token"
    [] ["echo pass"] [] [] [] false "ok" "failed" "/logs" "Go"
    (mkRepoComment "" "") srv "" "" 0 [] []
    (mkPullRequestConfig "" (mkRepoComment "" "") "" "" "").

(** The repository set up for pull request 7 only. *)
Definition pinned : @Repo string string :=
  fst (fst (setup (configFor "github.com/clearcontainers/tests" 7 (mkLogServer "" "" ""))
              (start withPR7 false))).

End Sim.

(** [Repo.test], under a name that the [test] of a simulated revision
    does not hide. *)
Abbreviation Repo_test := test.


(** * Properties *)

Section Properties.

Context {world revision CVR RepoLanguage : Type}.
Context `{!Revision world revision}.
Context `{!Externals world revision CVR RepoLanguage}.

Abbreviation Repo := (@Repo CVR RepoLanguage).
Abbreviation state := (@state world revision CVR).
Abbreviation event := (@event revision CVR).
Abbreviation table := (gmap string revision).

(** ** testRevision and the shipping of logs *)

(** What testRevision does when a log server is configured. *)
Lemma testRevision_with_log_server (r : Repo) (rev : revision)
    (langEnv : languageConfig) (s : state) :
  IP (logServer r) ≠ "" →
  let config := stageConfigOf r rev langEnv in
  let tested := rev_test rev config (stagesOf r) (ext s) in
  let shipped := logServer_copy (logServer r) (sc_logDir config) (snd tested) in
  testRevision r rev langEnv s =
    (fst tested,
     mkState (snd shipped)
       (trace s ++ [EvLog Debug (MsgStageConfig config);
                    EvTest rev config (stagesOf r) (fst tested);
                    EvLogCopy (logServer r) (sc_logDir config) (fst shipped)]
                ++ match fst shipped with
                   | Some _ => [EvLog Error (MsgFailedCopy (sc_logDir config) (logServer r))]
                   | None => []
                   end)
       (spawned s) (runTestsInParallel s) (rangeVars s) (rangeVar s)).
Proof.
  intros Hip config tested shipped.
  assert (Hlen : (String.length (IP (logServer r)) =? 0)%nat = false).
  { apply Nat.eqb_neq. destruct (IP (logServer r)); [done | simpl; lia]. }
  unfold testRevision, copyLogs, bind, logf, emit, call, ret. simpl.
  rewrite Hlen. simpl.
  fold config. fold tested.
  destruct tested as [tres w1] eqn:Ht. simpl.
  subst shipped. simpl.
  destruct (logServer_copy (logServer r) (sc_logDir config) w1) as [cres w2]. simpl.
  destruct cres; simpl; rewrite <- ?app_assoc; reflexivity.
Qed.

(** ** The loop when nothing is discovered *)

Lemma loop_iteration_nothing_discovered (r : Repo) (revisionsTested : table) (s : state) :
  fst (discover r s) = [] →
  loop_iteration r revisionsTested s =
    (revisionsTested,
     logged (snd (discover r s))
       [EvLog Debug (MsgGoingToSleep (RefreshTime r)); EvSleep (refresh r)]).
Proof.
  intros Hnone. unfold loop_iteration, bind.
  destruct (discover r s) as [revs s1]. simpl in Hnone. subst revs. simpl.
  unfold logf, emit, ret, logged. simpl. by rewrite <- app_assoc.
Qed.

(** ** setup and the refresh time *)

Lemma setupCvr_RefreshTime (r : Repo) (s : state) :
  RefreshTime (fst (fst (setupCvr r s))) = RefreshTime r.
Proof.
  unfold setupCvr, bind, call, emit, logf, ret. simpl.
  destruct (String.length (strings_TrimSpace (URL r)) =? 0)%nat; simpl; [done |].
  destruct (newCVR _ _ _) as [[c e] w]. reflexivity.
Qed.

Lemma setupRefreshTime_spec (r : Repo) (s : state) :
  snd (setupRefreshTime r s) = s
  ∧ refresh (fst (fst (setupRefreshTime r s))) = fst (time_ParseDuration (RefreshTime r))
  ∧ (snd (fst (setupRefreshTime r s)) = None
     ↔ snd (time_ParseDuration (RefreshTime r)) = None).
Proof.
  unfold setupRefreshTime, ret.
  destruct (time_ParseDuration (RefreshTime r)) as [d [[msg]|]]; simpl;
    repeat split; try done.
Qed.

Lemma setup_unparsable_refresh_time (r : Repo) (s : state) :
  snd (time_ParseDuration (RefreshTime r)) ≠ None →
  snd (fst (setup r s)) ≠ None.
Proof.
  intros Hparse. unfold setup, setupFuncs. cbn [runSetupFuncs]. unfold bind at 1 2.
  pose proof (setupCvr_RefreshTime r s) as Hrt.
  destruct (setupCvr r s) as [[r1 e1] s1]. simpl in Hrt. cbn [fst snd].
  destruct e1 as [e|]; [by unfold ret |].
  unfold bind at 1.
  pose proof (setupRefreshTime_spec r1 s1) as (_ & _ & Hiff).
  destruct (setupRefreshTime r1 s1) as [[r2 e2] s2]. cbn [fst snd] in *.
  destruct e2 as [e|]; [by unfold ret |].
  exfalso. apply Hparse. rewrite <- Hrt. by apply Hiff.
Qed.

(** ** The first pass of testRevisions: stale entries *)

Lemma found_elem_of (revisions : list revision) (k : string) :
  found revisions k = true ↔ k ∈ map rev_id revisions.
Proof.
  unfold found. rewrite existsb_exists. split.
  - intros (rev & Hin & Hk). apply bool_decide_eq_true in Hk. subst k.
    apply list_elem_of_In, in_map, Hin.
  - intros Hin. apply list_elem_of_In, in_map_iff in Hin as (rev & Hk & Hin).
    exists rev. split; [done |]. by apply bool_decide_eq_true.
Qed.

Lemma found_not_elem_of (revisions : list revision) (k : string) :
  found revisions k = false ↔ k ∉ map rev_id revisions.
Proof.
  rewrite <- found_elem_of. destruct (found revisions k); split; congruence.
Qed.

Lemma foldl_delete_lookup (P : string * revision → bool)
    (l : list (string * revision)) (m : table) (k : string) :
  foldl (λ m kv, if P kv then delete kv.1 m else m) m l !! k =
    if existsb (λ kv, bool_decide (kv.1 = k) && P kv) l then None else m !! k.
Proof.
  revert m. induction l as [|a l IH]; intros m; simpl; [done |].
  rewrite IH. destruct (P a) eqn:HP.
  - destruct (bool_decide (a.1 = k)) eqn:Hk; simpl.
    + apply bool_decide_eq_true in Hk. subst k. rewrite lookup_delete_eq.
      by destruct (existsb _ l).
    + apply bool_decide_eq_false in Hk. by rewrite lookup_delete_ne.
  - by rewrite andb_false_r.
Qed.

(** An entry survives the first pass unless its identity was not
    discovered and it is not being tested. *)
Lemma removeStale_lookup (revisions : list revision) (w : world) (tested : table)
    (k : string) :
  removeStale revisions w tested !! k =
    match tested !! k with
    | Some v =>
      if negb (found revisions k) && negb (rev_isBeingTested v w) then None else Some v
    | None => None
    end.
Proof.
  unfold removeStale. rewrite foldl_delete_lookup.
  destruct (existsb _ (map_to_list tested)) eqn:Hex.
  - apply existsb_exists in Hex as ([k' v] & Hin & Hcond).
    apply andb_true_iff in Hcond as [Hk Hstale]. simpl in *.
    apply bool_decide_eq_true in Hk. subst k'.
    apply list_elem_of_In, elem_of_map_to_list in Hin. rewrite Hin.
    by rewrite Hstale.
  - destruct (tested !! k) as [v|] eqn:Hlook; [|done].
    destruct (negb (found revisions k) && negb (rev_isBeingTested v w)) eqn:Hstale;
      [|done].
    exfalso. apply not_true_iff_false in Hex. apply Hex.
    apply existsb_exists. exists (k, v). split.
    + by apply list_elem_of_In, elem_of_map_to_list.
    + simpl. rewrite Hstale. by rewrite bool_decide_eq_true_2.
Qed.

(** ** The second loop of testRevisions *)

Lemma testRevisions_loop_app (r : Repo) (l1 l2 : list revision)
    (st : table * list languageConfig) (s : state) :
  testRevisions_loop r (l1 ++ l2) st s =
    testRevisions_loop r l2 (fst (testRevisions_loop r l1 st s))
      (snd (testRevisions_loop r l1 st s)).
Proof.
  revert st s. induction l1 as [|rev l1 IH]; intros st s; simpl; [done |].
  unfold bind. destruct (testRevisions_body r rev st s) as [st' s']. apply IH.
Qed.

(** The body when the tested-table holds a revision being tested. *)
Lemma body_being_tested (r : Repo) (rev tested : revision) (revisionsTested : table)
    (defers : list languageConfig) (s : state) :
  revisionsTested !! rev_id rev = Some tested →
  rev_isBeingTested tested (ext s) = true →
  testRevisions_body r rev (revisionsTested, defers) s =
    ((revisionsTested, defers),
     logged (assigned rev s) [EvLog Debug (MsgBeingTested tested)]).
Proof.
  intros Hlook Hbusy. unfold testRevisions_body, bind, getWorld, setRangeVar.
  cbn [ext]. rewrite Hlook, Hbusy. reflexivity.
Qed.

(** The body when the tested-table holds an equal revision that is not
    being tested. *)
Lemma body_already_tested (r : Repo) (rev tested : revision) (revisionsTested : table)
    (defers : list languageConfig) (s : state) :
  revisionsTested !! rev_id rev = Some tested →
  rev_isBeingTested tested (ext s) = false →
  rev_equal rev tested = true →
  testRevisions_body r rev (revisionsTested, defers) s =
    ((revisionsTested, defers),
     logged (assigned rev s) [EvLog Debug (MsgAlreadyTested rev)]).
Proof.
  intros Hlook Hbusy Heq. unfold testRevisions_body, bind, getWorld, setRangeVar.
  cbn [ext]. rewrite Hlook, Hbusy, Heq. reflexivity.
Qed.

(** ** What each step adds to the trace *)

Lemma count_app (f : event → bool) (t1 t2 : list event) :
  count f (t1 ++ t2) = (count f t1 + count f t2)%nat.
Proof. unfold count. by rewrite List.filter_app, length_app. Qed.

Lemma count_none (f : event → bool) (t : list event) :
  Forall (λ e, f e = false) t → count f t = 0%nat.
Proof.
  unfold count. induction 1 as [|e t He _ IH]; simpl; [done |]. by rewrite He.
Qed.

Ltac run_step :=
  unfold bind, call, emit, logf, ret, getWorld, getParallel, go; simpl.

Ltac give_trace :=
  rewrite <- ?app_assoc; eexists; split; [reflexivity |].

Ltac check_events :=
  unfold bystander;
  repeat match goal with
         | |- Forall _ _ => constructor
         | |- _ ∧ _ => split
         end;
  simpl; auto.

Lemma setupRevision_events (r : Repo) (rev : revision) (s : state) :
  ∃ t, trace (snd (setupRevision r rev s)) = trace s ++ t
       ∧ Forall (λ e, subject e = None ∨ subject e = Some rev) t
       ∧ count released t = 0%nat
       ∧ count provisioned t =
           (count abandoned t
            + match snd (fst (setupRevision r rev s)) with
              | Some _ => 0
              | None => 1
              end)%nat
       ∧ count isTest t = 0%nat.
Proof.
  unfold setupRevision. run_step.
  destruct (generateEnvironment _ _ _) as [[langEnv [e|]] w1]; simpl.
  { give_trace. check_events. }
  destruct (rev_download _ _ _) as [[e|] w2]; simpl.
  { give_trace. check_events. }
  destruct (os_RemoveAll _ _) as [d w3]; simpl.
  destruct (os_MkdirAll _ _ _) as [[e|] w4]; simpl.
  { give_trace. check_events. }
  give_trace. check_events.
Qed.

Lemma testRevision_events (r : Repo) (rev : revision) (langEnv : languageConfig)
    (s : state) :
  ∃ t, trace (snd (testRevision r rev langEnv s)) = trace s ++ t
       ∧ Forall (bystander rev) t.
Proof.
  unfold testRevision, copyLogs. run_step.
  destruct (rev_test _ _ _ _) as [res w1]; simpl.
  destruct (negb _); simpl.
  - destruct (logServer_copy _ _ _) as [[e|] w2]; simpl;
      give_trace; check_events.
  - give_trace; check_events.
Qed.

Lemma testTask_events (r : Repo) (rev : revision) (langEnv : languageConfig)
    (s : state) :
  ∃ t, trace (snd (testTask r rev langEnv s)) = trace s ++ t
       ∧ Forall (bystander rev) t.
Proof.
  unfold testTask, bind.
  destruct (testRevision_events r rev langEnv s) as (t & Ht & Hall).
  destruct (testRevision r rev langEnv s) as [[e|] s1]; simpl in *.
  - exists (t ++ [EvLog Error (MsgFailedTest rev e)]). split.
    + unfold logf, emit. simpl. by rewrite Ht, app_assoc.
    + apply Forall_app. split; [done |]. check_events.
  - exists t. by split.
Qed.

Lemma cleanupRevision_events (langEnv : languageConfig) (s : state) :
  ∃ t, trace (snd (cleanupRevision langEnv s)) = trace s ++ t
       ∧ Forall (λ e, subject e = None) t
       ∧ count released t = 1%nat
       ∧ count provisioned t = 0%nat
       ∧ count abandoned t = 0%nat.
Proof.
  unfold cleanupRevision. run_step.
  destruct (cleanup _ _) as [[e|] w1]; simpl;
    give_trace; check_events.
Qed.

(** ** The loop body *)

Lemma body_candidate (r : Repo) (rev : revision) (revisionsTested : table)
    (defers : list languageConfig) (s : state) :
  needsTest revisionsTested rev (ext s) = true →
  testRevisions_body r rev (revisionsTested, defers) s =
    testRevisions_candidate r rev (revisionsTested, defers) (assigned rev s).
Proof.
  unfold needsTest, testRevisions_body, bind, getWorld, setRangeVar. cbn [ext].
  destruct (revisionsTested !! rev_id rev) as [tested|]; [|done].
  destruct (rev_isBeingTested tested (ext s)); [done |].
  by destruct (rev_equal rev tested).
Qed.

(** The second part of the body, case by case. *)
Lemma candidate_unfold (r : Repo) (rev : revision) (revisionsTested : table)
    (defers : list languageConfig) (s : state) :
  testRevisions_candidate r rev (revisionsTested, defers) (assigned rev s) =
    match fst (rev_canBeTested rev (ext s)) with
    | Some e =>
      ((revisionsTested, defers),
       logged (afterCanBeTested rev s)
         [EvLog Debug (MsgCannotBeTested (rev_id rev) e)])
    | None =>
      let res := setupRevision r rev (afterCanBeTested rev s) in
      let s2 := snd res in
      match snd (fst res) with
      | Some e => ((revisionsTested, defers), logged s2 [EvLog Error (MsgFailedSetup rev e)])
      | None =>
        let langEnv := fst (fst res) in
        ((<[rev_id rev := rev]> revisionsTested, langEnv :: defers),
         if runTestsInParallel s2
         then mkState (ext s2) (trace s2 ++ [EvGo rev langEnv])
                (spawned s2 ++ [(rangeVar s2, langEnv)]) (runTestsInParallel s2)
                (rangeVars s2) (rangeVar s2)
         else logged (snd (testTask r rev langEnv (logged s2 [EvLock]))) [EvUnlock])
      end
    end.
Proof.
  unfold testRevisions_candidate, afterCanBeTested, assigned, logged.
  unfold bind, call, emit, logf, ret, getParallel, go, setRangeVar. simpl.
  destruct (rev_canBeTested rev (ext s)) as [[e|] w1]; simpl; [reflexivity |].
  destruct (setupRevision r rev _) as [[langEnv [e|]] s2]; simpl; [reflexivity |].
  destruct (runTestsInParallel s2) eqn:Hpar; simpl; rewrite ?Hpar; [reflexivity |].
  destruct (testTask r rev langEnv _) as [u s3]. reflexivity.
Qed.

(** What the body does to the tested-table and to the deferred cleanups:
    the candidate is recorded exactly when it was let through by the
    table checks, can be tested, and its setup succeeded. *)
Lemma body_table (r : Repo) (rev : revision) (revisionsTested : table)
    (defers : list languageConfig) (s : state) :
  fst (testRevisions_body r rev (revisionsTested, defers) s) =
    if needsTest revisionsTested rev (ext s)
    then match fst (rev_canBeTested rev (ext s)) with
         | Some _ => (revisionsTested, defers)
         | None =>
           let res := fst (setupRevision r rev (afterCanBeTested rev s)) in
           match snd res with
           | Some _ => (revisionsTested, defers)
           | None => (<[rev_id rev := rev]> revisionsTested, fst res :: defers)
           end
         end
    else (revisionsTested, defers).
Proof.
  destruct (needsTest revisionsTested rev (ext s)) eqn:Hneeds.
  - rewrite body_candidate by done. rewrite candidate_unfold.
    destruct (fst (rev_canBeTested rev (ext s))); [done |]. simpl.
    by destruct (snd (fst (setupRevision r rev (afterCanBeTested rev s)))).
  - unfold needsTest in Hneeds.
    unfold testRevisions_body, bind, getWorld, setRangeVar. cbn [ext].
    destruct (revisionsTested !! rev_id rev) as [tested|]; [|done].
    destruct (rev_isBeingTested tested (ext s)); [done |].
    by destruct (rev_equal rev tested).
Qed.

Lemma afterCanBeTested_trace (rev : revision) (s : state) :
  trace (afterCanBeTested rev s)
  = trace s ++ [EvCanBeTested rev (fst (rev_canBeTested rev (ext s)))].
Proof.
  unfold afterCanBeTested. run_step. by destruct (rev_canBeTested rev (ext s)).
Qed.

Lemma bystander_counts (rev : revision) (t : list event) :
  Forall (bystander rev) t →
  Forall (λ e, subject e = None ∨ subject e = Some rev) t
  ∧ count provisioned t = 0%nat ∧ count released t = 0%nat
  ∧ count abandoned t = 0%nat.
Proof.
  intros Hall. repeat split; [| apply count_none ..];
    (eapply Forall_impl; [exact Hall |]); unfold bystander; intros e (? & ? & ? & ?);
    assumption.
Qed.

(** What the second part of the body adds to the trace. *)
Lemma candidate_events (r : Repo) (rev : revision) (revisionsTested : table)
    (defers : list languageConfig) (s : state) :
  ∃ t, trace (snd (testRevisions_candidate r rev (revisionsTested, defers)
                     (assigned rev s)))
       = trace s ++ t
       ∧ Forall (λ e, subject e = None ∨ subject e = Some rev) t
       ∧ count released t = 0%nat
       ∧ (count provisioned t + length defers
          = count abandoned t
            + length (snd (fst (testRevisions_candidate r rev
                                  (revisionsTested, defers) (assigned rev s)))))%nat.
Proof.
  rewrite candidate_unfold.
  pose proof (afterCanBeTested_trace rev s) as Hcan.
  destruct (fst (rev_canBeTested rev (ext s))) as [e|]; simpl.
  { rewrite Hcan. give_trace. check_events. }
  destruct (setupRevision_events r rev (afterCanBeTested rev s))
    as (t1 & Ht1 & Hsub1 & Hrel1 & Hprov1 & _).
  destruct (setupRevision r rev (afterCanBeTested rev s)) as [[langEnv err] s2].
  simpl in *. rewrite Hcan in Ht1.
  destruct err as [e|]; simpl.
  { rewrite Ht1. give_trace. repeat split.
    - constructor; [auto |]. apply Forall_app. split; [done |]. check_events.
    - change (count released ([EvCanBeTested rev None] ++ t1 ++
                              [EvLog Error (MsgFailedSetup rev e)]) = 0%nat).
      rewrite !count_app, Hrel1. reflexivity.
    - change (count provisioned ([EvCanBeTested rev None] ++ t1 ++
                [EvLog Error (MsgFailedSetup rev e)]) + length defers
              = count abandoned ([EvCanBeTested rev None] ++ t1 ++
                  [EvLog Error (MsgFailedSetup rev e)]) + length defers)%nat.
      rewrite !count_app, Hprov1. unfold count. simpl. lia. }
  destruct (runTestsInParallel s2); simpl.
  { rewrite Ht1. give_trace. repeat split.
    - constructor; [auto |]. apply Forall_app. split; [done |]. check_events.
    - change (count released ([EvCanBeTested rev None] ++ t1 ++
                              [EvGo rev langEnv]) = 0%nat).
      rewrite !count_app, Hrel1. reflexivity.
    - change (count provisioned ([EvCanBeTested rev None] ++ t1 ++
                [EvGo rev langEnv]) + length defers
              = count abandoned ([EvCanBeTested rev None] ++ t1 ++
                  [EvGo rev langEnv]) + S (length defers))%nat.
      rewrite !count_app, Hprov1. unfold count. simpl. lia. }
  destruct (testTask_events r rev langEnv (logged s2 [EvLock])) as (t2 & Ht2 & Hall2).
  apply bystander_counts in Hall2 as (Hsub2 & Hprov2 & Hrel2 & Hab2).
  rewrite Ht2. simpl. rewrite Ht1. give_trace. repeat split.
  - constructor; [auto |]. apply Forall_app. split; [done |].
    constructor; [auto |]. apply Forall_app. split; [done |]. check_events.
  - change (count released ([EvCanBeTested rev None] ++ t1 ++ [EvLock] ++ t2
                            ++ [EvUnlock]) = 0%nat).
    rewrite !count_app, Hrel1, Hrel2. reflexivity.
  - change (count provisioned ([EvCanBeTested rev None] ++ t1 ++ [EvLock] ++ t2
                               ++ [EvUnlock]) + length defers
            = count abandoned ([EvCanBeTested rev None] ++ t1 ++ [EvLock] ++ t2
                               ++ [EvUnlock]) + S (length defers))%nat.
    rewrite !count_app, Hprov1, Hprov2, Hab2. unfold count. simpl. lia.
Qed.

(** What the body adds to the trace. *)
Lemma body_events (r : Repo) (rev : revision) (st : table * list languageConfig)
    (s : state) :
  ∃ t, trace (snd (testRevisions_body r rev st s)) = trace s ++ t
       ∧ Forall (λ e, subject e = None ∨ subject e = Some rev) t
       ∧ count released t = 0%nat
       ∧ (count provisioned t + length (snd st)
          = count abandoned t + length (snd (fst (testRevisions_body r rev st s))))%nat.
Proof.
  destruct st as [revisionsTested defers].
  assert (Hskip : ∀ msg,
    ∃ t, trace (logged (assigned rev s) [EvLog Debug msg]) = trace s ++ t
         ∧ Forall (λ e, subject e = None ∨ subject e = Some rev) t
         ∧ count released t = 0%nat
         ∧ (count provisioned t + length defers
            = count abandoned t + length defers)%nat).
  { intros msg. exists [EvLog Debug msg]. check_events. }
  pose proof (candidate_events r rev revisionsTested defers s) as Hcandidate.
  unfold testRevisions_body, bind, getWorld, setRangeVar. cbn [ext].
  destruct (revisionsTested !! rev_id rev) as [tested|].
  { destruct (rev_isBeingTested tested (ext s)); [apply Hskip |].
    destruct (rev_equal rev tested); [apply Hskip |]. exact Hcandidate. }
  exact Hcandidate.
Qed.

(** ** The whole of testRevisions *)

Lemma body_lookup_other (r : Repo) (rev : revision) (st : table * list languageConfig)
    (s : state) (k : string) :
  k ≠ rev_id rev →
  fst (fst (testRevisions_body r rev st s)) !! k = fst st !! k.
Proof.
  intros Hk. destruct st as [revisionsTested defers]. rewrite body_table.
  destruct (needsTest _ _ _); [|done].
  destruct (fst (rev_canBeTested rev (ext s))); [done |]. simpl.
  destruct (snd (fst (setupRevision r rev (afterCanBeTested rev s)))); [done |].
  simpl. by rewrite lookup_insert_ne.
Qed.

Lemma loop_lookup_other (r : Repo) (revisions : list revision)
    (st : table * list languageConfig) (s : state) (k : string) :
  k ∉ map rev_id revisions →
  fst (fst (testRevisions_loop r revisions st s)) !! k = fst st !! k.
Proof.
  revert st s. induction revisions as [|rev rest IH]; intros st s Hk; simpl; [done |].
  simpl in Hk. apply not_elem_of_cons in Hk as [Hne Hrest].
  unfold bind. pose proof (body_lookup_other r rev st s k Hne) as Hbody.
  destruct (testRevisions_body r rev st s) as [st' s']. simpl in Hbody.
  rewrite IH by done. exact Hbody.
Qed.

Lemma loop_events (r : Repo) (revisions : list revision)
    (st : table * list languageConfig) (s : state) :
  ∃ t, trace (snd (testRevisions_loop r revisions st s)) = trace s ++ t
       ∧ Forall (λ e, subject e = None ∨ ∃ rev, rev ∈ revisions ∧ subject e = Some rev) t
       ∧ count released t = 0%nat
       ∧ (count provisioned t + length (snd st)
          = count abandoned t
            + length (snd (fst (testRevisions_loop r revisions st s))))%nat.
Proof.
  revert st s. induction revisions as [|rev rest IH]; intros st s; simpl.
  { exists []. rewrite app_nil_r. repeat split; try reflexivity. constructor. }
  unfold bind.
  destruct (body_events r rev st s) as (t1 & Ht1 & Hsub1 & Hrel1 & Hbal1).
  destruct (testRevisions_body r rev st s) as [st1 s1]. simpl in *.
  destruct (IH st1 s1) as (t2 & Ht2 & Hsub2 & Hrel2 & Hbal2).
  exists (t1 ++ t2). repeat split.
  - by rewrite Ht2, Ht1, app_assoc.
  - apply Forall_app. split.
    + eapply Forall_impl; [exact Hsub1 |]. intros e [Hnone | Hrev]; [by left |].
      right. exists rev. split; [apply list_elem_of_here | done].
    + eapply Forall_impl; [exact Hsub2 |]. intros e [Hnone | (rev' & Hin & Hrev)];
        [by left |].
      right. exists rev'. split; [by apply list_elem_of_further | done].
  - by rewrite count_app, Hrel1, Hrel2.
  - rewrite !count_app. lia.
Qed.

Lemma runDeferred_events (defers : list languageConfig) (s : state) :
  ∃ t, trace (snd (runDeferred defers s)) = trace s ++ t
       ∧ Forall (λ e, subject e = None) t
       ∧ count released t = length defers
       ∧ count provisioned t = 0%nat
       ∧ count abandoned t = 0%nat.
Proof.
  revert s. induction defers as [|langEnv rest IH]; intros s; simpl.
  { exists []. rewrite app_nil_r. repeat split; try reflexivity. constructor. }
  unfold bind.
  destruct (cleanupRevision_events langEnv s) as (t1 & Ht1 & Hsub1 & Hrel1 & Hp1 & Ha1).
  destruct (cleanupRevision langEnv s) as [u s1]. simpl in *.
  destruct (IH s1) as (t2 & Ht2 & Hsub2 & Hrel2 & Hp2 & Ha2).
  exists (t1 ++ t2). repeat split.
  - by rewrite Ht2, Ht1, app_assoc.
  - by apply Forall_app.
  - by rewrite count_app, Hrel1, Hrel2.
  - by rewrite count_app, Hp1, Hp2.
  - by rewrite count_app, Ha1, Ha2.
Qed.

(** testRevisions, as its three steps. *)
Lemma testRevisions_unfold (r : Repo) (revisions : list revision)
    (revisionsTested : table) (s : state) :
  let looped := testRevisions_loop r revisions
                  (removeStale revisions (ext s) revisionsTested, []) s in
  testRevisions r revisions revisionsTested s =
    (fst (fst looped),
     snd (runDeferred (snd (fst looped)) (snd (endRange (snd looped))))).
Proof.
  unfold testRevisions, bind, getWorld, ret. simpl.
  destruct (testRevisions_loop _ _ _ _) as [[tested defers] s1]. simpl.
  by destruct (runDeferred defers _).
Qed.

(** Every environment provisioned during testRevisions is either
    released when testRevisions returns, or was abandoned by
    setupRevision; every event about a revision is about a discovered
    one. *)
Lemma testRevisions_events (r : Repo) (revisions : list revision)
    (revisionsTested : table) (s : state) :
  ∃ t, trace (snd (testRevisions r revisions revisionsTested s)) = trace s ++ t
       ∧ Forall (λ e, subject e = None ∨ ∃ rev, rev ∈ revisions ∧ subject e = Some rev) t
       ∧ count provisioned t = (count released t + count abandoned t)%nat.
Proof.
  rewrite testRevisions_unfold. simpl.
  destruct (loop_events r revisions
              (removeStale revisions (ext s) revisionsTested, []) s)
    as (t1 & Ht1 & Hsub1 & Hrel1 & Hbal1).
  destruct (testRevisions_loop _ _ _ _) as [[tested defers] s1]. simpl in *.
  destruct (runDeferred_events defers (snd (endRange s1)))
    as (t2 & Ht2 & Hsub2 & Hrel2 & Hp2 & Ha2).
  simpl in Ht2. exists (t1 ++ t2). repeat split.
  - by rewrite Ht2, Ht1, app_assoc.
  - apply Forall_app. split; [done |].
    eapply Forall_impl; [exact Hsub2 |]. intros e He. by left.
  - rewrite !count_app. lia.
Qed.

(** The first pass keeps the entry of every discovered identity. *)
Lemma removeStale_discovered (revisions : list revision) (w : world) (tested : table)
    (rev : revision) :
  rev ∈ revisions →
  removeStale revisions w tested !! rev_id rev = tested !! rev_id rev.
Proof.
  intros Hin. rewrite removeStale_lookup.
  destruct (tested !! rev_id rev) as [v|]; [|done].
  assert (Hfound : found revisions (rev_id rev) = true).
  { apply found_elem_of, list_elem_of_In, in_map, list_elem_of_In, Hin. }
  by rewrite Hfound.
Qed.

(** Events about the members of a list are not about a revision whose
    identity is not in the list. *)
Lemma events_of_others (l : list revision) (rev : revision) (t : list event) :
  rev_id rev ∉ map rev_id l →
  Forall (λ e, subject e = None ∨ ∃ rev', rev' ∈ l ∧ subject e = Some rev') t →
  Forall (λ e, subject e ≠ Some rev) t.
Proof.
  intros Hid Hall. eapply Forall_impl; [exact Hall |].
  intros e [Hnone | (rev' & Hin & Hsome)]; [congruence |].
  intros Heq. rewrite Hsome in Heq. injection Heq as ->.
  apply Hid, list_elem_of_In, in_map, list_elem_of_In, Hin.
Qed.

(** ** Reconciliation against the tested-table *)

(** What the loop itself does with a revision whose identity is in the
    tested-table with an equal content (the table entry not being
    tested when the cycle starts): it skips it.  The task that runs
    testRevisions makes no call on it or for it (no canBeTested, no
    environment, no download, no test, no go statement in its
    iteration), and the table keeps its entry.  The discovered
    revisions have distinct identities.  This is about the calls of
    testRevisions only: what a goroutine started in an earlier
    iteration tests is not in its trace. *)
Lemma unchanged_revision_skipped_by_loop (r : Repo) (revisions : list revision)
    (revisionsTested : table) (s : state) (rev tested : revision) :
  NoDup (map rev_id revisions) →
  rev ∈ revisions →
  revisionsTested !! rev_id rev = Some tested →
  rev_isBeingTested tested (ext s) = false →
  rev_equal rev tested = true →
  fst (testRevisions r revisions revisionsTested s) !! rev_id rev = Some tested
  ∧ ∃ t, trace (snd (testRevisions r revisions revisionsTested s)) = trace s ++ t
         ∧ Forall (λ e, subject e ≠ Some rev) t.
Proof.
  intros Hnodup Hin Hlook _ Hequal.
  apply list_elem_of_split in Hin as (pre & post & ->).
  rewrite map_app in Hnodup. simpl in Hnodup.
  apply NoDup_app in Hnodup as (_ & Hpre & Hpost).
  apply NoDup_cons in Hpost as [Hpost _].
  assert (Hpre' : rev_id rev ∉ map rev_id pre).
  { intros Hin. apply (Hpre _ Hin). apply list_elem_of_here. }
  rewrite testRevisions_unfold. simpl.
  set (tested0 := removeStale (pre ++ rev :: post) (ext s) revisionsTested).
  assert (Hlook0 : tested0 !! rev_id rev = Some tested).
  { subst tested0. rewrite removeStale_discovered; [done |].
    apply elem_of_app. right. apply list_elem_of_here. }
  rewrite testRevisions_loop_app.
  pose proof (loop_lookup_other r pre (tested0, []) s _ Hpre') as Hlook1.
  destruct (loop_events r pre (tested0, []) s) as (t1 & Ht1 & Hsub1 & _).
  destruct (testRevisions_loop r pre (tested0, []) s) as [[tested1 defers1] s1].
  simpl in Hlook1, Ht1. rewrite Hlook0 in Hlook1. cbn [fst snd testRevisions_loop].
  assert (Hbody : ∃ msg, testRevisions_body r rev (tested1, defers1) s1
                         = ((tested1, defers1),
                            logged (assigned rev s1) [EvLog Debug msg])).
  { destruct (rev_isBeingTested tested (ext s1)) eqn:Hbusy.
    - exists (MsgBeingTested tested). by apply body_being_tested.
    - exists (MsgAlreadyTested rev). by apply (body_already_tested r rev tested). }
  destruct Hbody as (msg & Hbody). unfold bind. rewrite Hbody.
  pose proof (loop_lookup_other r post (tested1, defers1)
                (logged (assigned rev s1) [EvLog Debug msg]) _ Hpost) as Hlook2.
  destruct (loop_events r post (tested1, defers1)
              (logged (assigned rev s1) [EvLog Debug msg]))
    as (t2 & Ht2 & Hsub2 & _).
  destruct (testRevisions_loop r post _ _) as [[tested2 defers2] s2].
  simpl in Hlook2, Ht2. cbn [fst snd].
  destruct (runDeferred_events defers2 (snd (endRange s2))) as (t3 & Ht3 & Hsub3 & _).
  simpl in Ht3. split; [by rewrite Hlook2 |].
  exists (t1 ++ [EvLog Debug msg] ++ t2 ++ t3). split.
  - rewrite Ht3, Ht2, Ht1. by rewrite <- !app_assoc.
  - apply Forall_app. split; [by apply (events_of_others pre) |].
    constructor; [done |]. apply Forall_app.
    split; [by apply (events_of_others post) |].
    eapply Forall_impl; [exact Hsub3 |]. intros e He. congruence.
Qed.

(** When the loop of a poll cycle reaches a discovered revision whose
    identity is in the tested-table with an entry marked being-tested,
    it skips it: the range variable is assigned, and the only thing
    done for this candidate is a debug line; the table, the deferred
    cleanups, the world and the goroutines are as they were, and the
    loop goes on with the next revision. *)
Lemma loop_skips_being_tested (r : Repo) (pre post : list revision)
    (rev tested : revision) (revisionsTested : table)
    (defers : list languageConfig) (s : state) :
  let reached := testRevisions_loop r pre (revisionsTested, defers) s in
  fst (fst reached) !! rev_id rev = Some tested →
  rev_isBeingTested tested (ext (snd reached)) = true →
  testRevisions_body r rev (fst reached) (snd reached)
  = (fst reached,
     logged (assigned rev (snd reached)) [EvLog Debug (MsgBeingTested tested)])
  ∧ testRevisions_loop r (pre ++ rev :: post) (revisionsTested, defers) s
    = testRevisions_loop r post (fst reached)
        (logged (assigned rev (snd reached)) [EvLog Debug (MsgBeingTested tested)]).
Proof.
  intros reached Hlook Hbusy.
  assert (Hbody : testRevisions_body r rev (fst reached) (snd reached)
                  = (fst reached,
                     logged (assigned rev (snd reached))
                       [EvLog Debug (MsgBeingTested tested)])).
  { destruct (fst reached) as [tested1 defers1] eqn:Hst. simpl in Hlook.
    by apply body_being_tested. }
  split; [exact Hbody |].
  rewrite testRevisions_loop_app. fold reached. simpl. unfold bind.
  by rewrite Hbody.
Qed.

(** C5: an entry of the tested-table whose identity is not among the
    revisions discovered in this cycle is removed by testRevisions if
    and only if it is not marked being-tested; an entry being tested
    stays as it is. *)
Theorem stale_entry_removed_iff_not_being_tested (r : Repo)
    (revisions : list revision) (revisionsTested : table) (s : state)
    (k : string) (v : revision) :
  revisionsTested !! k = Some v →
  k ∉ map rev_id revisions →
  (fst (testRevisions r revisions revisionsTested s) !! k = None
   ↔ rev_isBeingTested v (ext s) = false)
  ∧ (rev_isBeingTested v (ext s) = true →
     fst (testRevisions r revisions revisionsTested s) !! k = Some v).
Proof.
  intros Hlook Hk.
  assert (Hres : fst (testRevisions r revisions revisionsTested s) !! k
                 = if rev_isBeingTested v (ext s) then Some v else None).
  { rewrite testRevisions_unfold. simpl.
    rewrite loop_lookup_other by done. simpl.
    rewrite removeStale_lookup, Hlook.
    apply found_not_elem_of in Hk. rewrite Hk. simpl.
    by destruct (rev_isBeingTested v (ext s)). }
  rewrite Hres. destruct (rev_isBeingTested v (ext s)); split; (split || idtac);
    congruence.
Qed.

Lemma setupRevision_preserves (r : Repo) (rev : revision) (s : state) :
  spawned (snd (setupRevision r rev s)) = spawned s
  ∧ runTestsInParallel (snd (setupRevision r rev s)) = runTestsInParallel s.
Proof.
  unfold setupRevision. run_step.
  destruct (generateEnvironment _ _ _) as [[langEnv [e|]] w1]; simpl; [done |].
  destruct (rev_download _ _ _) as [[e|] w2]; simpl; [done |].
  destruct (os_RemoveAll _ _) as [d w3]; simpl.
  by destruct (os_MkdirAll _ _ _) as [[e|] w4].
Qed.

Lemma afterCanBeTested_preserves (rev : revision) (s : state) :
  spawned (afterCanBeTested rev s) = spawned s
  ∧ runTestsInParallel (afterCanBeTested rev s) = runTestsInParallel s.
Proof.
  unfold afterCanBeTested. run_step. by destruct (rev_canBeTested rev (ext s)).
Qed.

(** setupRevision does not touch the range variables. *)
Lemma setupRevision_rangeVars (r : Repo) (rev : revision) (s : state) :
  rangeVars (snd (setupRevision r rev s)) = rangeVars s
  ∧ rangeVar (snd (setupRevision r rev s)) = rangeVar s.
Proof.
  unfold setupRevision. run_step.
  destruct (generateEnvironment _ _ _) as [[langEnv [e|]] w1]; simpl; [done |].
  destruct (rev_download _ _ _) as [[e|] w2]; simpl; [done |].
  destruct (os_RemoveAll _ _) as [d w3]; simpl.
  by destruct (os_MkdirAll _ _ _) as [[e|] w4].
Qed.

(** Once canBeTested has answered, the range variable of the loop holds
    the revision of the iteration. *)
Lemma afterCanBeTested_rangeVars (rev : revision) (s : state) :
  rangeVars (afterCanBeTested rev s) = <[rangeVar s := rev]> (rangeVars s)
  ∧ rangeVar (afterCanBeTested rev s) = rangeVar s.
Proof.
  unfold afterCanBeTested. run_step. unfold setRangeVar. simpl.
  by destruct (rev_canBeTested rev (ext s)).
Qed.

(** C1 (amended): a discovered revision that reaches dispatch (the table
    checks let it through and it can be tested) is recorded into the
    tested-table under its identity exactly when its setup (environment,
    download, log directory) succeeds, whatever the test then does; when
    the setup fails the table keeps, for this identity, what it had
    before the cycle.  The discovered revisions have distinct
    identities. *)
Theorem dispatched_revision_recorded_iff_setup_succeeds (r : Repo)
    (pre post : list revision) (rev : revision) (revisionsTested : table)
    (s : state) :
  NoDup (map rev_id (pre ++ rev :: post)) →
  let reached :=
    testRevisions_loop r pre
      (removeStale (pre ++ rev :: post) (ext s) revisionsTested, []) s in
  needsTest (fst (fst reached)) rev (ext (snd reached)) = true →
  fst (rev_canBeTested rev (ext (snd reached))) = None →
  fst (testRevisions r (pre ++ rev :: post) revisionsTested s) !! rev_id rev =
    match snd (fst (setupRevision r rev (afterCanBeTested rev (snd reached)))) with
    | None => Some rev
    | Some _ => revisionsTested !! rev_id rev
    end.
Proof.
  intros Hnodup reached Hneeds Hcan.
  rewrite map_app in Hnodup. simpl in Hnodup.
  apply NoDup_app in Hnodup as (_ & Hpre & Hpost).
  apply NoDup_cons in Hpost as [Hpost _].
  assert (Hpre' : rev_id rev ∉ map rev_id pre).
  { intros Hin. apply (Hpre _ Hin). apply list_elem_of_here. }
  rewrite testRevisions_unfold. cbn [fst snd].
  rewrite testRevisions_loop_app. fold reached.
  pose proof (loop_lookup_other r pre
    (removeStale (pre ++ rev :: post) (ext s) revisionsTested, []) s _ Hpre') as Hlook1.
  fold reached in Hlook1. cbn [fst] in Hlook1.
  rewrite removeStale_discovered in Hlook1
    by (apply elem_of_app; right; apply list_elem_of_here).
  cbn [testRevisions_loop]. unfold bind.
  pose proof (body_table r rev (fst (fst reached)) (snd (fst reached)) (snd reached))
    as Hbody.
  rewrite Hneeds, Hcan in Hbody. cbn zeta in Hbody.
  destruct (fst reached) as [tested1 defers1] eqn:Hst. cbn [fst snd] in *.
  destruct (testRevisions_body r rev (tested1, defers1) (snd reached)) as [st2 s2].
  cbn [fst] in Hbody.
  rewrite loop_lookup_other by done. rewrite Hbody.
  destruct (snd (fst (setupRevision r rev (afterCanBeTested rev (snd reached))))).
  - exact Hlook1.
  - cbn [fst]. apply lookup_insert_eq.
Qed.

(** C9 (amended): in parallel mode, when the loop dispatches a revision
    it writes the tested-table entry itself, right after starting the
    goroutine.  It does not call the revision's test method and does
    nothing to the revision after setupRevision: the world it leaves,
    and with it the being-tested marker of the revision, is the one
    setupRevision left; the test is left to the goroutine, started on
    the range variable of the loop, which holds the revision at that
    time, and on the environment of the iteration. *)
Theorem parallel_dispatch_records_without_marking (r : Repo) (rev : revision)
    (revisionsTested : table) (defers : list languageConfig) (s : state) :
  runTestsInParallel s = true →
  needsTest revisionsTested rev (ext s) = true →
  fst (rev_canBeTested rev (ext s)) = None →
  snd (fst (setupRevision r rev (afterCanBeTested rev s))) = None →
  let s2 := snd (setupRevision r rev (afterCanBeTested rev s)) in
  let langEnv := fst (fst (setupRevision r rev (afterCanBeTested rev s))) in
  let done := testRevisions_body r rev (revisionsTested, defers) s in
  fst done = (<[rev_id rev := rev]> revisionsTested, langEnv :: defers)
  ∧ snd done = mkState (ext s2) (trace s2 ++ [EvGo rev langEnv])
                 (spawned s ++ [(rangeVar s, langEnv)]) true
                 (<[rangeVar s := rev]> (rangeVars s)) (rangeVar s)
  ∧ rev_isBeingTested rev (ext (snd done)) = rev_isBeingTested rev (ext s2)
  ∧ ∃ t, trace (snd done) = trace s ++ t ∧ count isTest t = 0%nat.
Proof.
  intros Hpar Hneeds Hcan Hsetup s2 langEnv done.
  destruct (setupRevision_preserves r rev (afterCanBeTested rev s)) as [Hsp2 Hpar2].
  destruct (afterCanBeTested_preserves rev s) as [Hsp1 Hpar1].
  destruct (setupRevision_rangeVars r rev (afterCanBeTested rev s)) as [Hvars2 Hvar2].
  destruct (afterCanBeTested_rangeVars rev s) as [Hvars1 Hvar1].
  fold s2 in Hsp2, Hpar2, Hvars2, Hvar2.
  rewrite Hsp1 in Hsp2. rewrite Hpar1, Hpar in Hpar2.
  rewrite Hvars1 in Hvars2. rewrite Hvar1 in Hvar2.
  assert (Hdone : done = ((<[rev_id rev := rev]> revisionsTested, langEnv :: defers),
                          mkState (ext s2) (trace s2 ++ [EvGo rev langEnv])
                            (spawned s ++ [(rangeVar s, langEnv)]) true
                            (<[rangeVar s := rev]> (rangeVars s)) (rangeVar s))).
  { subst done. rewrite body_candidate by done. rewrite candidate_unfold.
    rewrite Hcan. cbn zeta. rewrite Hsetup. fold s2. fold langEnv.
    by rewrite Hpar2, Hsp2, Hvars2, Hvar2. }
  rewrite Hdone. cbn [fst snd ext trace]. repeat split.
  destruct (setupRevision_events r rev (afterCanBeTested rev s))
    as (t1 & Ht1 & _ & _ & _ & Htest1).
  fold s2 in Ht1. rewrite afterCanBeTested_trace, Hcan in Ht1.
  exists ([EvCanBeTested rev None] ++ t1 ++ [EvGo rev langEnv]). split.
  - rewrite Ht1. by rewrite <- !app_assoc.
  - rewrite !count_app, Htest1. reflexivity.
Qed.

(** ** Discovery when the provider fails *)

Lemma appendPullRequests_all_fail (r : Repo) (revisions : list revision)
    (prs : list Z) (s : state) :
  (∀ n w, snd (fst (newPullRequest n (prConfig r) w)) ≠ None) →
  fst (fst (appendPullRequests r revisions prs s)) = revisions.
Proof.
  intros Hfail. destruct prs as [|n rest]; simpl; [done |].
  run_step. specialize (Hfail n (ext s)).
  destruct (newPullRequest n (prConfig r) (ext s)) as [[pr [[msg]|]] w1];
    simpl in *; [done | congruence].
Qed.

(** When the fetch of the master branch and every fetch of a pull
    request fail, no revision is discovered. *)
Lemma discover_nothing_when_fetches_fail (r : Repo) (s : state) :
  (∀ w, snd (fst (newRepoBranch (MasterBranch r) (cvr r) w)) ≠ None) →
  (∀ n w, snd (fst (newPullRequest n (prConfig r) w)) ≠ None) →
  fst (discover r s) = [].
Proof.
  intros Hbranch Hprs. unfold discover.
  generalize [PR r]. intros pinned.
  unfold bind at 1 2 3 4, logf, emit, call. simpl.
  specialize (Hbranch (ext s)).
  destruct (newRepoBranch (MasterBranch r) (cvr r) (ext s)) as [[b [e|]] w1];
    simpl in *; [|congruence].
  unfold bind at 1, emit. simpl.
  destruct (negb (PR r =? 0)%Z).
  - unfold bind at 1.
    match goal with
    | |- context [appendPullRequests r [] pinned ?s1] =>
      pose proof (appendPullRequests_all_fail r [] pinned s1 Hprs) as Hnone;
      destruct (appendPullRequests r [] pinned s1) as [[revs err] s2]
    end.
    simpl in *. subst revs. by destruct err.
  - unfold bind at 1 2 3, logf, emit, call. simpl.
    destruct (getOpenPullRequests (cvr r) w1) as [[prs [e'|]] w2]; simpl; [done |].
    unfold bind at 1.
    match goal with
    | |- context [appendPullRequests r [] prs ?s1] =>
      pose proof (appendPullRequests_all_fail r [] prs s1 Hprs) as Hnone;
      destruct (appendPullRequests r [] prs s1) as [[revs err] s2]
    end.
    simpl in *. subst revs. by destruct err.
Qed.

(** ** Log shipping, the idle iteration, validation, stages *)

(** C8: with a log server configured (a non-empty IP), testRevision
    ships the log directory after the revision's test has returned,
    whether the test passed or failed, and returns what the test
    returned, whatever the shipping did: a failed shipping only adds an
    error line to the log. *)
Theorem logs_shipped_after_test_without_changing_result (r : Repo) (rev : revision)
    (langEnv : languageConfig) (s : state) :
  IP (logServer r) ≠ "" →
  let config := stageConfigOf r rev langEnv in
  let tested := rev_test rev config (stagesOf r) (ext s) in
  let shipped := logServer_copy (logServer r) (sc_logDir config) (snd tested) in
  fst (testRevision r rev langEnv s) = fst tested
  ∧ ext (snd (testRevision r rev langEnv s)) = snd shipped
  ∧ trace (snd (testRevision r rev langEnv s)) =
      trace s ++ [EvLog Debug (MsgStageConfig config);
                  EvTest rev config (stagesOf r) (fst tested);
                  EvLogCopy (logServer r) (sc_logDir config) (fst shipped)]
              ++ match fst shipped with
                 | Some _ => [EvLog Error (MsgFailedCopy (sc_logDir config) (logServer r))]
                 | None => []
                 end.
Proof.
  intros Hip config tested shipped.
  rewrite (testRevision_with_log_server r rev langEnv s Hip). by cbn [fst snd ext trace].
Qed.

(** C10: when an iteration of the loop discovers no revision,
    testRevisions is not called: the tested-table is left as it is (no
    entry is removed), nothing is dispatched, and after the discovery
    the iteration only logs that it goes to sleep, and sleeps. *)
Theorem nothing_discovered_skips_reconciliation (r : Repo) (revisionsTested : table)
    (s : state) :
  fst (discover r s) = [] →
  fst (loop_iteration r revisionsTested s) = revisionsTested
  ∧ snd (loop_iteration r revisionsTested s) =
      logged (snd (discover r s))
        [EvLog Debug (MsgGoingToSleep (RefreshTime r)); EvSleep (refresh r)].
Proof.
  intros Hnone. by rewrite loop_iteration_nothing_discovered.
Qed.

(** C7 (amended): setup fails whenever the refresh time does not parse
    as a duration.  No sign check is made: setupRefreshTime returns nil
    exactly when the string parses, and stores the parsed duration
    whatever its sign, so a zero or negative duration is accepted. *)
Theorem setup_rejects_only_unparsable_refresh_time (r : Repo) (s : state) :
  (snd (time_ParseDuration (RefreshTime r)) ≠ None → snd (fst (setup r s)) ≠ None)
  ∧ (snd (fst (setupRefreshTime r s)) = None
     ↔ snd (time_ParseDuration (RefreshTime r)) = None)
  ∧ refresh (fst (fst (setupRefreshTime r s))) = fst (time_ParseDuration (RefreshTime r)).
Proof.
  split; [apply setup_unparsable_refresh_time |].
  destruct (setupRefreshTime_spec r s) as (_ & Hrefresh & Hiff). by split.
Qed.

(** The stages map built by testRevision. *)
Lemma stagesOf_lookup (r : Repo) :
  stageAt (stagesOf r) "setup" = mkStage "setup" (Setup r)
  ∧ stageAt (stagesOf r) "run" = mkStage "run" (Run r)
  ∧ stageAt (stagesOf r) "teardown" = mkStage "teardown" (Teardown r)
  ∧ stageAt (stagesOf r) "onSuccess" = mkStage "onSuccess" (OnSuccess r)
  ∧ stageAt (stagesOf r) "onFailure" = mkStage "onFailure" (OnFailure r).
Proof.
  unfold stageAt, stagesOf. repeat split; by simplify_map_eq.
Qed.

(** C6: the test of a revision, on the stages map and the configuration
    testRevision builds, hands to the stage runner the setup stage, then
    the run stage, then the teardown stage, each with the commands of
    the repository, and then exactly one more stage: onSuccess if the
    three passed, onFailure if one of them failed.  The test passes
    exactly when the three passed. *)
Theorem stages_run_in_order_then_one_outcome
    (runCommand : string → stageConfig → world → bool * world)
    (r : Repo) (rev : revision) (langEnv : languageConfig) (w : world) :
  let config := stageConfigOf r rev langEnv in
  let e1 := stage_run runCommand (mkStage "setup" (Setup r)) config w in
  let e2 := stage_run runCommand (mkStage "run" (Run r)) config (snd e1) in
  let e3 := stage_run runCommand (mkStage "teardown" (Teardown r)) config (snd e2) in
  let passed := bool_decide (fst e1 = None ∧ fst e2 = None ∧ fst e3 = None) in
  let res := revision_test runCommand config (stagesOf r) w in
  snd res = [mkStage "setup" (Setup r); mkStage "run" (Run r);
             mkStage "teardown" (Teardown r);
             if passed then mkStage "onSuccess" (OnSuccess r)
             else mkStage "onFailure" (OnFailure r)]
  ∧ (fst (fst res) = None ↔ passed = true)
  ∧ length (List.filter
              (λ st, String.eqb (stage_name st) "onSuccess"
                     || String.eqb (stage_name st) "onFailure") (snd res)) = 1%nat
  ∧ snd (fst res) =
      snd (stage_run runCommand
             (if passed then mkStage "onSuccess" (OnSuccess r)
              else mkStage "onFailure" (OnFailure r)) config (snd e3)).
Proof.
  intros config e1 e2 e3 passed res.
  destruct (stagesOf_lookup r) as (Hs & Hr & Ht & Hok & Hko).
  subst res. unfold revision_test. rewrite Hs, Hr, Ht, Hok, Hko.
  fold e1. destruct e1 as [r1 w1] eqn:He1. cbn [fst snd] in *.
  fold e2. destruct e2 as [r2 w2] eqn:He2. cbn [fst snd] in *.
  fold e3. destruct e3 as [r3 w3] eqn:He3. cbn [fst snd] in *.
  subst passed.
  destruct r1 as [err1|], r2 as [err2|], r3 as [err3|]; cbn [firstError];
    first [ rewrite bool_decide_eq_false_2; [| intros (? & ? & ?); congruence]
          | rewrite bool_decide_eq_true_2; [| done] ];
    match goal with
    | |- context [stage_run runCommand ?st config w3] =>
      destruct (stage_run runCommand st config w3) as [r4 w4] eqn:He4
    end;
    cbn [fst snd]; repeat split; try congruence; try done.
Qed.

(** * More of repo.go *)

(** ** setup *)

Abbreviation setupFunc := (Repo → @M world revision CVR (Repo * option error)).

Lemma sameSettings_refl (r : Repo) : sameSettings r r.
Proof. unfold sameSettings. repeat split. Qed.

Lemma sameSettings_trans (r1 r2 r3 : Repo) :
  sameSettings r1 r2 → sameSettings r2 r3 → sameSettings r1 r3.
Proof. unfold sameSettings. intuition congruence. Qed.

Ltac frame_step :=
  unfold sameSettings; run_step; repeat case_match; simpl; repeat split; reflexivity.

Lemma setupCvr_frame (r : Repo) (s : state) :
  sameSettings r (fst (fst (setupCvr r s)))
  ∧ logServer (fst (fst (setupCvr r s))) = logServer r.
Proof. split; [unfold setupCvr; frame_step |]. unfold setupCvr. run_step. by repeat case_match. Qed.

Lemma setupRefreshTime_frame (r : Repo) (s : state) :
  sameSettings r (fst (fst (setupRefreshTime r s)))
  ∧ logServer (fst (fst (setupRefreshTime r s))) = logServer r
  ∧ URL (fst (fst (setupRefreshTime r s))) = URL r
  ∧ cvr (fst (fst (setupRefreshTime r s))) = cvr r.
Proof.
  split; [unfold setupRefreshTime; frame_step |]. unfold setupRefreshTime. run_step.
  by repeat case_match.
Qed.

Lemma setupLogDir_frame (r : Repo) (s : state) :
  fst (fst (setupLogDir r s)) = r.
Proof. unfold setupLogDir. run_step. by repeat case_match. Qed.

Lemma setupLogServer_frame (r : Repo) (s : state) :
  sameSettings r (fst (fst (setupLogServer r s)))
  ∧ URL (fst (fst (setupLogServer r s))) = URL r
  ∧ cvr (fst (fst (setupLogServer r s))) = cvr r
  ∧ refresh (fst (fst (setupLogServer r s))) = refresh r
  ∧ snd (setupLogServer r s) = s.
Proof.
  split; [unfold setupLogServer; frame_step |]. unfold setupLogServer. run_step.
  by repeat case_match.
Qed.

Lemma setupCommentTrigger_frame (r : Repo) (s : state) :
  fst (fst (setupCommentTrigger r s)) = r ∧ snd (setupCommentTrigger r s) = s.
Proof. unfold setupCommentTrigger. run_step. by repeat case_match. Qed.

Lemma setupLanguage_frame (r : Repo) (s : state) :
  fst (fst (setupLanguage r s)) = r.
Proof. unfold setupLanguage. run_step. by repeat case_match. Qed.

Lemma setupStages_frame (r : Repo) (s : state) :
  fst (fst (setupStages r s)) = r ∧ snd (setupStages r s) = s.
Proof. unfold setupStages. run_step. by repeat case_match. Qed.

Lemma setupWhitelist_frame (r : Repo) (s : state) :
  sameSettings r (fst (fst (setupWhitelist r s)))
  ∧ logServer (fst (fst (setupWhitelist r s))) = logServer r
  ∧ URL (fst (fst (setupWhitelist r s))) = URL r
  ∧ cvr (fst (fst (setupWhitelist r s))) = cvr r
  ∧ refresh (fst (fst (setupWhitelist r s))) = refresh r
  ∧ snd (setupWhitelist r s) = s.
Proof. split; [unfold setupWhitelist; frame_step |]. by unfold setupWhitelist, ret. Qed.

Lemma setupEnvars_frame (r : Repo) (s : state) :
  sameSettings r (fst (fst (setupEnvars r s)))
  ∧ logServer (fst (fst (setupEnvars r s))) = logServer r
  ∧ URL (fst (fst (setupEnvars r s))) = URL r
  ∧ cvr (fst (fst (setupEnvars r s))) = cvr r
  ∧ refresh (fst (fst (setupEnvars r s))) = refresh r
  ∧ whitelistUsers (fst (fst (setupEnvars r s))) = whitelistUsers r
  ∧ snd (setupEnvars r s) = s.
Proof. split; [unfold setupEnvars; frame_step |]. by unfold setupEnvars. Qed.

(** The loop over setupFuncs keeps what each function keeps. *)
Lemma runSetupFuncs_keeps (fs : list setupFunc) :
  Forall (λ f, ∀ r s, sameSettings r (fst (fst (f r s)))) fs →
  ∀ r s, sameSettings r (fst (fst (runSetupFuncs fs r s))).
Proof.
  induction 1 as [|f fs Hf _ IH]; intros r s; simpl; [apply sameSettings_refl |].
  unfold bind. specialize (Hf r s). destruct (f r s) as [[r1 e] s1]. simpl in *.
  destruct e; simpl; [done |].
  eapply sameSettings_trans; [exact Hf | apply IH].
Qed.

Lemma setupFuncs_keep :
  Forall (λ f : setupFunc, ∀ r s, sameSettings r (fst (fst (f r s)))) setupFuncs.
Proof.
  unfold setupFuncs. repeat first [apply Forall_nil_2 | apply Forall_cons_2];
    intros r s.
  - apply setupCvr_frame.
  - apply setupRefreshTime_frame.
  - rewrite setupLogDir_frame. apply sameSettings_refl.
  - apply setupLogServer_frame.
  - destruct (setupCommentTrigger_frame r s) as [-> _]. apply sameSettings_refl.
  - rewrite setupLanguage_frame. apply sameSettings_refl.
  - destruct (setupStages_frame r s) as [-> _]. apply sameSettings_refl.
  - apply setupWhitelist_frame.
  - apply setupEnvars_frame.
Qed.

Lemma setup_sameSettings (r : Repo) (s : state) :
  sameSettings r (fst (fst (setup r s))).
Proof.
  unfold setup, bind.
  pose proof (runSetupFuncs_keeps setupFuncs setupFuncs_keep r s) as Hkeep.
  destruct (runSetupFuncs setupFuncs r s) as [[r1 e] s1]. simpl in *.
  destruct e; simpl; [done |].
  eapply sameSettings_trans; [exact Hkeep |]. unfold sameSettings. repeat split.
Qed.

(** X1: whatever its outcome, setup leaves the settings read from the
    configuration file as they are: the branch, the pull request number,
    the refresh time string, the token, the five command lists, the
    comments, the log directory, the language, the comment trigger and
    the whitelist. *)
Theorem setup_keeps_settings (r : Repo) (s : state) :
  sameSettings r (fst (fst (setup r s))).
Proof. apply setup_sameSettings. Qed.

(** A successful setup, step by step: the Repo and the state each
    function hands to the next. *)
Lemma setup_ok_inv (r : Repo) (s : state) :
  snd (fst (setup r s)) = None →
  ∃ r1 s1 r2 s3 r4 s6 r8 r9,
    setupCvr r s = ((r1, None), s1)
    ∧ setupRefreshTime r1 s1 = ((r2, None), s1)
    ∧ setupLogDir r2 s1 = ((r2, None), s3)
    ∧ setupLogServer r2 s3 = ((r4, None), s3)
    ∧ setupCommentTrigger r4 s3 = ((r4, None), s3)
    ∧ setupLanguage r4 s3 = ((r4, None), s6)
    ∧ setupStages r4 s6 = ((r4, None), s6)
    ∧ setupWhitelist r4 s6 = ((r8, None), s6)
    ∧ setupEnvars r8 s6 = ((r9, None), s6)
    ∧ setup r s =
        ((set_prConfig (mkPullRequestConfig (cvr r9) (CommentTrigger r9)
                          (PostOnFailure r9) (PostOnSuccess r9) (Whitelist r9)) r9,
          None),
         logged s6 [EvLog Debug (MsgCvr (cvr r9))]).
Proof.
  unfold setup, setupFuncs. cbn [runSetupFuncs]. unfold bind.
  destruct (setupCvr r s) as [[r1 e1] s1] eqn:E1. cbn [fst snd].
  destruct e1; [discriminate |].
  pose proof (setupRefreshTime_spec r1 s1) as (Hs2 & _).
  destruct (setupRefreshTime r1 s1) as [[r2 e2] s2] eqn:E2. cbn [fst snd] in *.
  subst s2. destruct e2; [discriminate |].
  pose proof (setupLogDir_frame r2 s1) as Hr3.
  destruct (setupLogDir r2 s1) as [[r3 e3] s3] eqn:E3. cbn [fst snd] in *.
  subst r3. destruct e3; [discriminate |].
  pose proof (setupLogServer_frame r2 s3) as (_ & _ & _ & _ & Hs4).
  destruct (setupLogServer r2 s3) as [[r4 e4] s4] eqn:E4. cbn [fst snd] in *.
  subst s4. destruct e4; [discriminate |].
  pose proof (setupCommentTrigger_frame r4 s3) as (Hr5 & Hs5).
  destruct (setupCommentTrigger r4 s3) as [[r5 e5] s5] eqn:E5. cbn [fst snd] in *.
  subst r5 s5. destruct e5; [discriminate |].
  pose proof (setupLanguage_frame r4 s3) as Hr6.
  destruct (setupLanguage r4 s3) as [[r6 e6] s6] eqn:E6. cbn [fst snd] in *.
  subst r6. destruct e6; [discriminate |].
  pose proof (setupStages_frame r4 s6) as (Hr7 & Hs7).
  destruct (setupStages r4 s6) as [[r7 e7] s7] eqn:E7. cbn [fst snd] in *.
  subst r7 s7. destruct e7; [discriminate |].
  pose proof (setupWhitelist_frame r4 s6) as (_ & _ & _ & _ & _ & Hs8).
  destruct (setupWhitelist r4 s6) as [[r8 e8] s8] eqn:E8. cbn [fst snd] in *.
  subst s8. destruct e8; [discriminate |].
  pose proof (setupEnvars_frame r8 s6) as (_ & _ & _ & _ & _ & _ & Hs9).
  destruct (setupEnvars r8 s6) as [[r9 e9] s9] eqn:E9. cbn [fst snd] in *.
  subst s9. destruct e9; [discriminate |].
  intros _. exists r1, s1, r2, s3, r4, s6, r8, r9. by repeat split.
Qed.

Lemma setupCvr_ok (r : Repo) (s : state) :
  snd (fst (setupCvr r s)) = None →
  strings_TrimSpace (URL r) ≠ ""
  ∧ URL (fst (fst (setupCvr r s))) = strings_TrimSpace (URL r)
  ∧ snd (fst (newCVR (strings_TrimSpace (URL r)) (Token r) (ext s))) = None
  ∧ cvr (fst (fst (setupCvr r s)))
    = fst (fst (newCVR (strings_TrimSpace (URL r)) (Token r) (ext s))).
Proof.
  unfold setupCvr. run_step.
  destruct (strings_TrimSpace (URL r)) as [|c u] eqn:Hurl; simpl; [discriminate |].
  destruct (newCVR _ _ _) as [[c' e] w1]. simpl. intros ->. by repeat split.
Qed.

Lemma setupLogServer_ok (r : Repo) (s : state) :
  snd (fst (setupLogServer r s)) = None
  ↔ logServer r = mkLogServer "" "" "" ∨ IP (logServer r) ≠ "".
Proof.
  unfold setupLogServer, ret.
  destruct (bool_decide (logServer r = mkLogServer "" "" "")) eqn:Hzero.
  { apply bool_decide_eq_true in Hzero. simpl. split; [by left | done]. }
  apply bool_decide_eq_false in Hzero.
  destruct (IP (logServer r)) as [|c ip] eqn:Hip; simpl.
  - split; [discriminate |]. intros [? | ?]; done.
  - split; [by right | done].
Qed.

Lemma setupStages_ok (r : Repo) (s : state) :
  snd (fst (setupStages r s)) = None ↔ Run r ≠ [].
Proof.
  unfold setupStages, ret. destruct (Run r); simpl; split; done.
Qed.

(** X2: when setup succeeds, the configuration passed every check: the
    URL is not blank, the refresh time is a duration, there is something
    to run, and a log server, if there is one, has an address.  The Repo
    then holds the URL without the surrounding blanks and the parsed
    refresh time.  A comment trigger, if there is one, has a comment. *)
Theorem setup_success_validates (r : Repo) (s : state) :
  snd (fst (setup r s)) = None →
  strings_TrimSpace (URL r) ≠ ""
  ∧ snd (time_ParseDuration (RefreshTime r)) = None
  ∧ Run r ≠ []
  ∧ (logServer r = mkLogServer "" "" "" ∨ IP (logServer r) ≠ "")
  ∧ URL (fst (fst (setup r s))) = strings_TrimSpace (URL r)
  ∧ refresh (fst (fst (setup r s))) = fst (time_ParseDuration (RefreshTime r))
  ∧ (CommentTrigger r = mkRepoComment "" "" ∨ Comment (CommentTrigger r) ≠ "").
Proof.
  intros Hok.
  destruct (setup_ok_inv r s Hok)
    as (r1 & s1 & r2 & s3 & r4 & s6 & r8 & r9 & E1 & E2 & E3 & E4 & E5 & _ & E7
        & E8 & E9 & Hsetup).
  rewrite Hsetup. cbn [fst snd URL refresh set_prConfig].
  pose proof (setupCvr_ok r s) as H1. pose proof (setupCvr_frame r s) as [F1 L1].
  rewrite E1 in H1, F1, L1. cbn [fst snd] in *.
  destruct (H1 eq_refl) as (Hurl & Hurl1 & _).
  pose proof (setupRefreshTime_spec r1 s1) as (_ & Href2 & H2).
  pose proof (setupRefreshTime_frame r1 s1) as (F2 & L2 & U2 & _).
  rewrite E2 in Href2, H2, F2, L2, U2. cbn [fst snd] in *.
  pose proof (setupLogServer_ok r2 s3) as H4.
  pose proof (setupLogServer_frame r2 s3) as (F4 & U4 & _ & R4 & _).
  rewrite E4 in H4, F4, U4, R4. cbn [fst snd] in *.
  pose proof (setupStages_ok r4 s6) as H7. rewrite E7 in H7. cbn [fst snd] in *.
  pose proof (setupWhitelist_frame r4 s6) as (_ & _ & U8 & _ & R8 & _).
  rewrite E8 in U8, R8. cbn [fst snd] in *.
  pose proof (setupEnvars_frame r8 s6) as (_ & _ & U9 & _ & R9 & _).
  rewrite E9 in U9, R9. cbn [fst snd] in *.
  destruct F1 as (_ & _ & Hrt1 & _ & _ & Hrun1 & _ & _ & _ & _ & _ & _ & _ & _
                  & Hct1 & _).
  destruct F2 as (_ & _ & _ & _ & _ & Hrun2 & _ & _ & _ & _ & _ & _ & _ & _
                  & Hct2 & _).
  destruct F4 as (_ & _ & _ & _ & _ & Hrun4 & _ & _ & _ & _ & _ & _ & _ & _
                  & Hct4 & _).
  split_and!.
  - exact Hurl.
  - rewrite <- Hrt1. by apply H2.
  - rewrite <- Hrun1, <- Hrun2, <- Hrun4. by apply H7.
  - rewrite <- L1, <- L2. by apply H4.
  - rewrite U9, U8, U4, U2. exact Hurl1.
  - rewrite R9, R8, R4, Href2. by rewrite Hrt1.
  - rewrite <- Hct1, <- Hct2, <- Hct4. unfold setupCommentTrigger, ret in E5.
    destruct (bool_decide (CommentTrigger r4 = mkRepoComment "" "")) eqn:Hzero.
    + left. by apply bool_decide_eq_true in Hzero.
    + right. destruct (Comment (CommentTrigger r4)); [| done].
      simpl in E5. discriminate.
Qed.

(** X3: when setup succeeds, the Repo holds what the later steps derive:
    the provider client newCVR returned for the trimmed URL, the users
    of the whitelist, the pull request configuration copied from the
    settings, and the environment of the stages: the environment of the
    process, then CI=true and LOCALCI=true, then the slug of the
    repository. *)
Theorem setup_success_derives (r : Repo) (s : state) :
  snd (fst (setup r s)) = None →
  let r' := fst (fst (setup r s)) in
  cvr r' = fst (fst (newCVR (strings_TrimSpace (URL r)) (Token r) (ext s)))
  ∧ whitelistUsers r' = strings_Split (Whitelist r) ","
  ∧ prConfig r' = mkPullRequestConfig (cvr r') (CommentTrigger r) (PostOnFailure r)
                    (PostOnSuccess r) (Whitelist r)
  ∧ env r' = os_Environ (ext (snd (setup r s)))
             ++ ["CI=true"; "LOCALCI=true";
                 "LOCALCI_REPO_SLUG=" +:+ getRepoSlug (cvr r')].
Proof.
  intros Hok. pose proof (setup_sameSettings r s) as Hkeep.
  destruct (setup_ok_inv r s Hok)
    as (r1 & s1 & r2 & s3 & r4 & s6 & r8 & r9 & E1 & E2 & _ & E4 & _ & _ & _
        & E8 & E9 & Hsetup).
  cbv zeta. rewrite Hsetup in Hkeep |- *.
  cbn [fst snd cvr whitelistUsers prConfig env set_prConfig logged ext] in *.
  pose proof (setupCvr_ok r s) as H1. rewrite E1 in H1. cbn [fst snd] in H1.
  destruct (H1 eq_refl) as (_ & _ & _ & Hcvr1).
  pose proof (setupRefreshTime_frame r1 s1) as (_ & _ & _ & C2).
  rewrite E2 in C2. cbn [fst snd] in C2.
  pose proof (setupLogServer_frame r2 s3) as (F4 & _ & C4 & _).
  rewrite E4 in F4, C4. cbn [fst snd] in F4, C4.
  unfold setupWhitelist, ret in E8. injection E8 as <-.
  unfold setupEnvars, bind, getWorld, ret in E9. injection E9 as <-.
  unfold sameSettings, set_prConfig, set_env, set_whitelistUsers in *. simpl in *.
  destruct Hkeep as (_ & _ & _ & _ & _ & _ & _ & _ & _ & _ & Hps & Hpf & _ & _ & Hct & Hw).
  repeat split.
  - by rewrite C4, C2.
  - by rewrite Hw.
  - by rewrite Hct, Hpf, Hps, Hw.
  - unfold defaultEnv. by rewrite <- app_assoc.
Qed.

(** X4: a URL that is blank, or made of blanks only, stops setup at
    once: the error is "missing repository url" and nothing outside was
    called. *)
Theorem setup_blank_url (r : Repo) (s : state) :
  strings_TrimSpace (URL r) = "" →
  setup r s = ((set_URL "" r, Some (Errorf "missing repository url")), s).
Proof.
  intros Hblank. unfold setup, setupFuncs. cbn [runSetupFuncs].
  unfold setupCvr, bind, ret. cbn [URL set_URL]. by rewrite Hblank.
Qed.

Lemma setupCvr_events (r : Repo) (s : state) :
  ∃ t, trace (snd (setupCvr r s)) = trace s ++ t
       ∧ Forall (λ e, fromSetupCvr e = true) t.
Proof.
  unfold setupCvr. run_step.
  destruct (String.length _ =? 0)%nat; simpl.
  { exists []. by rewrite app_nil_r. }
  destruct (newCVR _ _ _) as [[c e] w1]. simpl. give_trace. check_events.
Qed.

(** X5: a refresh time that does not parse stops setup before anything
    is created: at most the provider client was built; no directory was
    made and the language was not set up. *)
Theorem setup_unparsable_refresh_time_stops_early (r : Repo) (s : state) :
  snd (time_ParseDuration (RefreshTime r)) ≠ None →
  ∃ t, trace (snd (setup r s)) = trace s ++ t
       ∧ Forall (λ e, fromSetupCvr e = true) t.
Proof.
  intros Hparse. unfold setup, setupFuncs. cbn [runSetupFuncs]. unfold bind at 1 2.
  destruct (setupCvr_events r s) as (t & Ht & Hall).
  pose proof (setupCvr_RefreshTime r s) as Hrt.
  destruct (setupCvr r s) as [[r1 e1] s1]. cbn [fst snd] in *.
  destruct e1 as [e|]; [by exists t |].
  unfold bind at 1.
  pose proof (setupRefreshTime_spec r1 s1) as (Hs2 & _ & Hiff).
  destruct (setupRefreshTime r1 s1) as [[r2 e2] s2]. cbn [fst snd] in *. subst s2.
  destruct e2 as [e|]; [by exists t |].
  exfalso. apply Hparse. rewrite <- Hrt. by apply Hiff.
Qed.

(** X6: setupLogServer on a log server with an address: the address is
    kept, an empty user becomes root, an empty directory becomes the
    default log directory, and a second run changes nothing more. *)
Theorem setupLogServer_defaults (r : Repo) (s : state) :
  IP (logServer r) ≠ "" →
  let r' := fst (fst (setupLogServer r s)) in
  snd (fst (setupLogServer r s)) = None
  ∧ IP (logServer r') = IP (logServer r)
  ∧ User (logServer r') = (if decide (User (logServer r) = "") then "root"
                           else User (logServer r))
  ∧ Dir (logServer r') = (if decide (Dir (logServer r) = "") then defaultLogDir
                          else Dir (logServer r))
  ∧ User (logServer r') ≠ ""
  ∧ setupLogServer r' s = ((r', None), s).
Proof.
  intros Hip. destruct r. cbn [logServer] in *.
  destruct logServer0 as [ip user dir]. cbn [IP] in Hip.
  unfold setupLogServer, ret. cbn [logServer IP User Dir set_logServer].
  destruct ip as [|c ip]; [done |].
  rewrite bool_decide_eq_false_2 by done. cbn [String.length Nat.eqb].
  destruct user as [|cu user], dir as [|cd dir]; cbn;
    repeat split; try done;
    repeat (rewrite ?bool_decide_eq_false_2 by done; cbn); try done.
  all: destruct defaultLogDir; cbn; done.
Qed.

(** ** setupRevision, testRevision and Repo.test *)

Lemma kinds_exclude (f g : event → bool) (t : list event) :
  (∀ e, f e = true → g e = false) →
  Forall (λ e, f e = true) t → count g t = 0%nat.
Proof.
  intros Hfg Hall. apply count_none. eapply Forall_impl; [exact Hall |]. exact Hfg.
Qed.

Ltac by_kind := let e := fresh "e" in intros e; destruct e; simpl; congruence.

(** X7: setupRevision succeeds exactly when the environment is
    provisioned, the revision downloaded and the log directory created;
    what os.RemoveAll returns is ignored.  On success it returns the
    provisioned environment, on any error the zero languageConfig; when
    provisioning fails nothing else is called. *)
Theorem setupRevision_outcome (r : Repo) (rev : revision) (s : state) :
  let slug := getProjectSlug (cvr r) in
  let logDir := filepath_Join (LogDir r) (rev_logDirName rev) in
  let g := generateEnvironment (Language r) slug (ext s) in
  let d := rev_download rev (lang_workingDir (fst (fst g))) (snd g) in
  let rm := os_RemoveAll logDir (snd d) in
  let mk := os_MkdirAll logDir logDirMode (snd rm) in
  let res := setupRevision r rev s in
  (snd (fst res) = None ↔ snd (fst g) = None ∧ fst d = None ∧ fst mk = None)
  ∧ (snd (fst res) = None → fst (fst res) = fst (fst g) ∧ ext (snd res) = snd mk)
  ∧ (snd (fst res) ≠ None → fst (fst res) = languageConfig_zero)
  ∧ (snd (fst g) ≠ None →
     snd res = mkState (snd g) (trace s ++ [EvGenerateEnvironment rev slug (fst g)])
                 (spawned s) (runTestsInParallel s) (rangeVars s) (rangeVar s)).
Proof.
  cbv zeta. unfold setupRevision. run_step.
  destruct (generateEnvironment _ _ _) as [[langEnv [e|]] w1]; simpl.
  { repeat split; try done. intros (? & _); done. }
  destruct (rev_download _ _ _) as [[e|] w2]; simpl.
  { repeat split; try done. intros (_ & ? & _); done. }
  destruct (os_RemoveAll _ _) as [d w3]; simpl.
  destruct (os_MkdirAll _ _ _) as [[e|] w4]; simpl.
  { repeat split; try done. intros (_ & _ & ?); done. }
  repeat split; done.
Qed.

Lemma setupRevision_census (r : Repo) (rev : revision) (s : state) :
  ∃ t, trace (snd (setupRevision r rev s)) = trace s ++ t
       ∧ Forall (λ e, fromSetupRevision e = true) t
       ∧ count provisioned t =
           (count abandoned t
            + match snd (fst (setupRevision r rev s)) with
              | Some _ => 0
              | None => 1
              end)%nat.
Proof.
  unfold setupRevision. run_step.
  destruct (generateEnvironment _ _ _) as [[langEnv [e|]] w1]; simpl.
  { give_trace. check_events. }
  destruct (rev_download _ _ _) as [[e|] w2]; simpl.
  { give_trace. check_events. }
  destruct (os_RemoveAll _ _) as [d w3]; simpl.
  destruct (os_MkdirAll _ _ _) as [[e|] w4]; simpl; give_trace; check_events.
Qed.

Lemma testRevision_census (r : Repo) (rev : revision)
    (langEnv : languageConfig) (s : state) :
  let res := testRevision r rev langEnv s in
  fst res = fst (rev_test rev (stageConfigOf r rev langEnv) (stagesOf r) (ext s))
  ∧ spawned (snd res) = spawned s
  ∧ runTestsInParallel (snd res) = runTestsInParallel s
  ∧ ∃ t, trace (snd res) = trace s ++ t
         ∧ Forall (λ e, fromTestTask e = true) t
         ∧ count isTest t = 1%nat
         ∧ count isCopy t = (if decide (IP (logServer r) = "") then 0 else 1)%nat.
Proof.
  cbv zeta. unfold testRevision, copyLogs. run_step.
  destruct (rev_test _ _ _ _) as [res w1]; simpl.
  destruct (IP (logServer r)) as [|c ip]; simpl.
  { repeat split. give_trace. check_events. }
  destruct (logServer_copy _ _ _) as [[e|] w2]; simpl; repeat split;
    give_trace; check_events.
Qed.

(** X8: testRevision calls the test of the revision once, on the
    configuration and the stages of the repository, and returns what it
    returned; the logs are shipped once if the log server has an
    address, and never otherwise.  It starts no goroutine and leaves
    runTestsInParallel alone. *)
Theorem testRevision_tests_once (r : Repo) (rev : revision)
    (langEnv : languageConfig) (s : state) :
  let res := testRevision r rev langEnv s in
  fst res = fst (rev_test rev (stageConfigOf r rev langEnv) (stagesOf r) (ext s))
  ∧ spawned (snd res) = spawned s
  ∧ runTestsInParallel (snd res) = runTestsInParallel s
  ∧ ∃ t, trace (snd res) = trace s ++ t
         ∧ Forall (λ e, fromTestTask e = true) t
         ∧ count isTest t = 1%nat
         ∧ count isCopy t = (if decide (IP (logServer r) = "") then 0 else 1)%nat.
Proof. apply testRevision_census. Qed.

Lemma testTask_census (r : Repo) (rev : revision) (langEnv : languageConfig)
    (s : state) :
  spawned (snd (testTask r rev langEnv s)) = spawned s
  ∧ runTestsInParallel (snd (testTask r rev langEnv s)) = runTestsInParallel s
  ∧ ∃ t, trace (snd (testTask r rev langEnv s)) = trace s ++ t
         ∧ Forall (λ e, fromTestTask e = true) t
         ∧ count isTest t = 1%nat.
Proof.
  unfold testTask, bind.
  destruct (testRevision_census r rev langEnv s)
    as (_ & Hsp & Hpar & t & Ht & Hall & Htest & _).
  destruct (testRevision r rev langEnv s) as [[e|] s1]; simpl in *.
  - repeat split; try done.
    exists (t ++ [EvLog Error (MsgFailedTest rev e)]). repeat split.
    + by rewrite Ht, app_assoc.
    + apply Forall_app. split; [done |]. check_events.
    + rewrite count_app, Htest. reflexivity.
  - repeat split; try done. by exists t.
Qed.

Lemma cleanupRevision_census (langEnv : languageConfig) (s : state) :
  spawned (snd (cleanupRevision langEnv s)) = spawned s
  ∧ runTestsInParallel (snd (cleanupRevision langEnv s)) = runTestsInParallel s
  ∧ ∃ res t, trace (snd (cleanupRevision langEnv s))
             = trace s ++ EvCleanup langEnv res :: t
             ∧ Forall (λ e, isLog e = true) t.
Proof.
  unfold cleanupRevision. run_step.
  destruct (cleanup langEnv (ext s)) as [[e|] w1]; simpl; repeat split.
  - exists (Some e), [EvLog Error (MsgCleanupError e)]. split.
    + by rewrite <- app_assoc.
    + check_events.
  - exists None, []. by split.
Qed.

(** Repo.test, case by case. *)
Lemma test_unfold (r : Repo) (s : state) :
  test r s =
    if (PR r =? 0)%Z
    then (Some (Errorf "Missing pull request number in configuration file"), s)
    else
      let fetched := newPullRequest (PR r) (prConfig r) (ext s) in
      let rev := fst (fst fetched) in
      let evs := trace s ++ [EvNewPullRequest (PR r) (fst fetched)] in
      match snd (fst fetched) with
      | Some (Errorf msg) =>
        (Some (Errorf ("failed to get pull request " +:+ pretty (PR r) +:+ " " +:+ msg)),
         mkState (snd fetched) evs (spawned s) (runTestsInParallel s)
           (rangeVars s) (rangeVar s))
      | None =>
        let prepared := setupRevision r rev
                          (mkState (snd fetched) evs (spawned s) false
                             (rangeVars s) (rangeVar s)) in
        match snd (fst prepared) with
        | Some (Errorf msg) =>
          (Some (Errorf ("failed to setup revision: " +:+ msg)), snd prepared)
        | None =>
          let langEnv := fst (fst prepared) in
          let tested := testRevision r rev langEnv (snd prepared) in
          (fst tested, snd (cleanupRevision langEnv (snd tested)))
        end
      end.
Proof.
  unfold test. destruct (PR r =? 0)%Z; [reflexivity |].
  unfold bind, call, emit, ret, setParallel. simpl.
  destruct (newPullRequest (PR r) (prConfig r) (ext s)) as [[rev [[msg]|]] w0]; simpl;
    [reflexivity |].
  destruct (setupRevision r rev _) as [[langEnv [[msg]|]] s1]; simpl; [reflexivity |].
  destruct (testRevision r rev langEnv s1) as [err s2]. simpl.
  by destruct (cleanupRevision langEnv s2).
Qed.

(** X9: Repo.test without a pull request number fails at once, and calls
    nothing.  In every case it starts no goroutine and never takes
    testLock; it asks for at most one pull request; it runs as many
    tests as it releases environments (none or one), and an environment
    it provisioned is either released or was abandoned by setupRevision. *)
Theorem test_census (r : Repo) (s : state) :
  (PR r = 0 →
   test r s = (Some (Errorf "Missing pull request number in configuration file"), s))
  ∧ spawned (snd (test r s)) = spawned s
  ∧ ∃ t, trace (snd (test r s)) = trace s ++ t
         ∧ count isGo t = 0%nat ∧ count isLock t = 0%nat
         ∧ (count isFetch t ≤ 1)%nat
         ∧ count isTest t = count released t
         ∧ count provisioned t = (count released t + count abandoned t)%nat.
Proof.
  rewrite test_unfold. destruct (PR r =? 0)%Z eqn:Hpr.
  { repeat split. exists []. rewrite app_nil_r. repeat split. unfold count. simpl. lia. }
  split; [intros Hzero; rewrite Hzero in Hpr; discriminate |]. cbv zeta.
  destruct (newPullRequest (PR r) (prConfig r) (ext s)) as [[rev [[msg]|]] w0];
    cbn [fst snd].
  { split; [done |]. cbn [trace]. give_trace. unfold count. simpl. repeat split; lia. }
  set (s0 := mkState w0 (trace s ++ [EvNewPullRequest (PR r) (rev, None)])
               (spawned s) false (rangeVars s) (rangeVar s)).
  destruct (setupRevision_census r rev s0) as (t1 & Ht1 & Hk1 & Hbal1).
  destruct (setupRevision_preserves r rev s0) as [Hsp1 _].
  assert (Hz1 : ∀ g, (∀ e, fromSetupRevision e = true → g e = false) →
                     count g t1 = 0%nat) by (intros g Hg; by eapply kinds_exclude).
  destruct (setupRevision r rev s0) as [[langEnv [[msg]|]] s1]; cbn [fst snd] in *.
  { split; [done |].
    exists ([EvNewPullRequest (PR r) (rev, None)] ++ t1). repeat split.
    - rewrite Ht1. subst s0. simpl. by rewrite <- app_assoc.
    - rewrite count_app, Hz1 by by_kind. reflexivity.
    - rewrite count_app, Hz1 by by_kind. reflexivity.
    - rewrite count_app, Hz1 by by_kind. unfold count. simpl. lia.
    - rewrite !count_app, (Hz1 isTest), (Hz1 released) by by_kind. reflexivity.
    - rewrite !count_app, Hbal1, (Hz1 released) by by_kind. unfold count. simpl. lia. }
  destruct (testRevision_census r rev langEnv s1)
    as (_ & Hsp2 & _ & t2 & Ht2 & Hk2 & Htest2 & _).
  destruct (testRevision r rev langEnv s1) as [err s2]; cbn [fst snd] in *.
  destruct (cleanupRevision_census langEnv s2) as (Hsp3 & _ & res & t3 & Ht3 & Hk3).
  destruct (cleanupRevision langEnv s2) as [u s3]; cbn [fst snd] in *.
  split; [by rewrite Hsp3, Hsp2, Hsp1 |].
  exists ([EvNewPullRequest (PR r) (rev, None)] ++ t1 ++ t2
          ++ [EvCleanup langEnv res] ++ t3).
  assert (Hz2 : ∀ g, (∀ e, fromTestTask e = true → g e = false) →
                     count g t2 = 0%nat) by (intros g Hg; by eapply kinds_exclude).
  assert (Hz3 : ∀ g, (∀ e, isLog e = true → g e = false) →
                     count g t3 = 0%nat) by (intros g Hg; by eapply kinds_exclude).
  repeat split.
  - rewrite Ht3, Ht2, Ht1. subst s0. simpl. by rewrite <- !app_assoc.
  - rewrite !count_app, Hz1, Hz2, Hz3 by by_kind. reflexivity.
  - rewrite !count_app, Hz1, Hz2, Hz3 by by_kind. reflexivity.
  - rewrite !count_app, Hz1, Hz2, Hz3 by by_kind. unfold count. simpl. lia.
  - rewrite !count_app, Htest2, (Hz1 isTest), (Hz3 isTest), (Hz1 released),
      (Hz2 released), (Hz3 released) by by_kind. reflexivity.
  - rewrite !count_app, Hbal1, (Hz2 provisioned), (Hz3 provisioned), (Hz1 released),
      (Hz2 released), (Hz3 released), (Hz2 abandoned), (Hz3 abandoned) by by_kind.
    unfold count. simpl. lia.
Qed.

(** X10: Repo.test when the pull request is fetched and set up: the test
    runs in serialized mode, its result is the result of Repo.test even
    when the cleanup fails, and the environment is released after the
    test, once. *)
Theorem test_returns_test_result (r : Repo) (s : state) :
  PR r ≠ 0 →
  let fetched := newPullRequest (PR r) (prConfig r) (ext s) in
  let rev := fst (fst fetched) in
  let s0 := mkState (snd fetched) (trace s ++ [EvNewPullRequest (PR r) (fst fetched)])
              (spawned s) false (rangeVars s) (rangeVar s) in
  let prepared := setupRevision r rev s0 in
  let langEnv := fst (fst prepared) in
  snd (fst fetched) = None →
  snd (fst prepared) = None →
  fst (test r s)
  = fst (rev_test rev (stageConfigOf r rev langEnv) (stagesOf r) (ext (snd prepared)))
  ∧ runTestsInParallel (snd (test r s)) = false
  ∧ snd (test r s)
    = snd (cleanupRevision langEnv (snd (testRevision r rev langEnv (snd prepared)))).
Proof.
  intros Hpr. cbv zeta. intros Hfetched Hprepared.
  rewrite test_unfold. apply Z.eqb_neq in Hpr. rewrite Hpr. cbv zeta.
  rewrite Hfetched, Hprepared. cbn [fst snd].
  set (s0 := mkState _ _ _ false _ _) in *.
  destruct (setupRevision_preserves r (fst (fst (newPullRequest (PR r) (prConfig r) (ext s)))) s0)
    as [_ Hpar1].
  set (rev := fst (fst (newPullRequest (PR r) (prConfig r) (ext s)))) in *.
  set (s1 := snd (setupRevision r rev s0)) in *.
  set (langEnv := fst (fst (setupRevision r rev s0))) in *.
  destruct (testRevision_census r rev langEnv s1) as (Hres & _ & Hpar2 & _).
  destruct (cleanupRevision_census langEnv (snd (testRevision r rev langEnv s1)))
    as (_ & Hpar3 & _).
  repeat split; [done |]. by rewrite Hpar3, Hpar2, Hpar1.
Qed.

(** ** testRevisions: the lock, the goroutines, the releases *)

Lemma locking_app (held : bool) (t1 t2 : list event) :
  locking held (t1 ++ t2)
  = match locking held t1 with
    | Some held' => locking held' t2
    | None => None
    end.
Proof.
  revert held. induction t1 as [|e t1 IH]; intros held; simpl; [done |].
  destruct e; try apply IH; destruct held; try done; apply IH.
Qed.

Lemma locking_without_test (held : bool) (t : list event) :
  Forall (λ e, isLock e = false ∧ isUnlock e = false ∧ isTest e = false) t →
  locking held t = Some held.
Proof.
  induction 1 as [|e t (Hl & Hu & Ht) _ IH]; simpl; [done |].
  destruct e; try done.
Qed.

Lemma locking_held (t : list event) :
  Forall (λ e, isLock e = false ∧ isUnlock e = false) t →
  locking true t = Some true.
Proof.
  induction 1 as [|e t (Hl & Hu) _ IH]; simpl; [done |].
  destruct e; try done.
Qed.

Lemma releasedEnvs_app (t1 t2 : list event) :
  releasedEnvs (t1 ++ t2) = releasedEnvs t1 ++ releasedEnvs t2.
Proof.
  induction t1 as [|e t1 IH]; simpl; [done |]. destruct e; simpl; by rewrite ?IH.
Qed.

Lemma goEnvs_app (t1 t2 : list event) :
  goEnvs (t1 ++ t2) = goEnvs t1 ++ goEnvs t2.
Proof.
  induction t1 as [|e t1 IH]; simpl; [done |]. destruct e; simpl; by rewrite ?IH.
Qed.

Lemma sleeps_app (t1 t2 : list event) :
  sleeps (t1 ++ t2) = sleeps t1 ++ sleeps t2.
Proof.
  induction t1 as [|e t1 IH]; simpl; [done |]. destruct e; simpl; by rewrite ?IH.
Qed.

Lemma releasedEnvs_none (t : list event) :
  Forall (λ e, released e = false) t → releasedEnvs t = [].
Proof. induction 1 as [|e t He _ IH]; simpl; [done |]. by destruct e. Qed.

Lemma goEnvs_none (t : list event) :
  Forall (λ e, isGo e = false) t → goEnvs t = [].
Proof. induction 1 as [|e t He _ IH]; simpl; [done |]. by destruct e. Qed.

Lemma sleeps_none (t : list event) :
  Forall (λ e, isSleep e = false) t → sleeps t = [].
Proof. induction 1 as [|e t He _ IH]; simpl; [done |]. by destruct e. Qed.

Lemma Forall_kind (f : event → bool) (P : event → Prop) (t : list event) :
  (∀ e, f e = true → P e) → Forall (λ e, f e = true) t → Forall P t.
Proof. intros HfP Hall. eapply Forall_impl; [exact Hall |]. exact HfP. Qed.

(** The three ways the loop body can go: it continues without
    dispatching, it starts a goroutine, or it runs the test itself
    between Lock and Unlock. *)
Lemma body_shape (r : Repo) (rev : revision) (revisionsTested : table)
    (defers : list languageConfig) (s : state) :
  let res := testRevisions_body r rev (revisionsTested, defers) s in
  ∃ t, trace (snd res) = trace s ++ t
       ∧ runTestsInParallel (snd res) = runTestsInParallel s
       ∧ ((snd (fst res) = defers ∧ spawned (snd res) = spawned s
           ∧ Forall (λ e, beforeDispatch e = true) t)
          ∨ (runTestsInParallel s = true
             ∧ ∃ t1 langEnv,
                 t = t1 ++ [EvGo rev langEnv]
                 ∧ Forall (λ e, beforeDispatch e = true) t1
                 ∧ snd (fst res) = langEnv :: defers
                 ∧ spawned (snd res) = spawned s ++ [(rangeVar s, langEnv)])
          ∨ (runTestsInParallel s = false
             ∧ ∃ t1 t2 langEnv,
                 t = t1 ++ [EvLock] ++ t2 ++ [EvUnlock]
                 ∧ Forall (λ e, beforeDispatch e = true) t1
                 ∧ Forall (λ e, fromTestTask e = true) t2
                 ∧ count isTest t2 = 1%nat
                 ∧ snd (fst res) = langEnv :: defers
                 ∧ spawned (snd res) = spawned s)).
Proof.
  cbv zeta.
  assert (Hskip : ∀ msg,
    ∃ t, trace (logged (assigned rev s) [EvLog Debug msg]) = trace s ++ t
         ∧ runTestsInParallel (logged (assigned rev s) [EvLog Debug msg]) = runTestsInParallel s
         ∧ ((defers = defers ∧ spawned (logged (assigned rev s) [EvLog Debug msg]) = spawned s
             ∧ Forall (λ e, beforeDispatch e = true) t)
            ∨ (runTestsInParallel s = true
               ∧ ∃ t1 langEnv,
                   t = t1 ++ [EvGo rev langEnv]
                   ∧ Forall (λ e, beforeDispatch e = true) t1
                   ∧ defers = langEnv :: defers
                   ∧ spawned (logged (assigned rev s) [EvLog Debug msg]) = spawned s ++ [(rangeVar s, langEnv)])
            ∨ (runTestsInParallel s = false
               ∧ ∃ t1 t2 langEnv,
                   t = t1 ++ [EvLock] ++ t2 ++ [EvUnlock]
                   ∧ Forall (λ e, beforeDispatch e = true) t1
                   ∧ Forall (λ e, fromTestTask e = true) t2
                   ∧ count isTest t2 = 1%nat
                   ∧ defers = langEnv :: defers
                   ∧ spawned (logged (assigned rev s) [EvLog Debug msg]) = spawned s))).
  { intros msg. exists [EvLog Debug msg]. repeat split. left. repeat split.
    check_events. }
  assert (Hcand :
    let res := testRevisions_candidate r rev (revisionsTested, defers)
                 (assigned rev s) in
    ∃ t, trace (snd res) = trace s ++ t
       ∧ runTestsInParallel (snd res) = runTestsInParallel s
       ∧ ((snd (fst res) = defers ∧ spawned (snd res) = spawned s
           ∧ Forall (λ e, beforeDispatch e = true) t)
          ∨ (runTestsInParallel s = true
             ∧ ∃ t1 langEnv,
                 t = t1 ++ [EvGo rev langEnv]
                 ∧ Forall (λ e, beforeDispatch e = true) t1
                 ∧ snd (fst res) = langEnv :: defers
                 ∧ spawned (snd res) = spawned s ++ [(rangeVar s, langEnv)])
          ∨ (runTestsInParallel s = false
             ∧ ∃ t1 t2 langEnv,
                 t = t1 ++ [EvLock] ++ t2 ++ [EvUnlock]
                 ∧ Forall (λ e, beforeDispatch e = true) t1
                 ∧ Forall (λ e, fromTestTask e = true) t2
                 ∧ count isTest t2 = 1%nat
                 ∧ snd (fst res) = langEnv :: defers
                 ∧ spawned (snd res) = spawned s))).
  { cbv zeta. rewrite candidate_unfold.
    pose proof (afterCanBeTested_trace rev s) as Hcan.
    destruct (afterCanBeTested_preserves rev s) as [Hsp0 Hpar0].
    destruct (fst (rev_canBeTested rev (ext s))) as [e|]; cbn [fst snd].
    { exists [EvCanBeTested rev (Some e);
              EvLog Debug (MsgCannotBeTested (rev_id rev) e)].
      unfold logged. cbn [trace spawned runTestsInParallel]. rewrite Hcan.
      repeat split; [by rewrite <- app_assoc | done |].
      left. repeat split; [done |]. check_events. }
    cbv zeta.
    destruct (setupRevision_census r rev (afterCanBeTested rev s)) as (t1 & Ht1 & Hk1 & _).
    destruct (setupRevision_preserves r rev (afterCanBeTested rev s)) as [Hsp1 Hpar1].
    destruct (setupRevision_rangeVars r rev (afterCanBeTested rev s)) as [_ Hvar1].
    destruct (afterCanBeTested_rangeVars rev s) as [_ Hvar0].
    destruct (setupRevision r rev (afterCanBeTested rev s)) as [[langEnv err] s2].
    cbn [fst snd] in *. rewrite Hcan in Ht1. rewrite Hsp0 in Hsp1. rewrite Hpar0 in Hpar1.
    rewrite Hvar0 in Hvar1.
    assert (Hbefore : Forall (λ e, beforeDispatch e = true)
                        ([EvCanBeTested rev None] ++ t1)).
    { apply Forall_app. split; [check_events |].
      eapply Forall_kind; [| exact Hk1]. intros e He. by destruct e. }
    destruct err as [e|]; cbn [fst snd].
    { exists (([EvCanBeTested rev None] ++ t1) ++ [EvLog Error (MsgFailedSetup rev e)]).
      unfold logged. cbn [trace spawned runTestsInParallel]. rewrite Ht1.
      repeat split; [by rewrite <- !app_assoc | done |].
      left. repeat split; [done |]. apply Forall_app. split; [done |]. check_events. }
    destruct (runTestsInParallel s2) eqn:Hpar2; cbn [fst snd trace spawned
                                                     runTestsInParallel rangeVar].
    { exists (([EvCanBeTested rev None] ++ t1) ++ [EvGo rev langEnv]).
      rewrite Ht1. repeat split; [by rewrite <- !app_assoc | congruence |].
      right. left. split; [congruence |].
      exists ([EvCanBeTested rev None] ++ t1), langEnv. repeat split; try done.
      by rewrite Hsp1, Hvar1. }
    destruct (testTask_census r rev langEnv (logged s2 [EvLock]))
      as (Hsp3 & Hpar3 & t2 & Ht2 & Hk2 & Htest2).
    unfold logged in *. cbn [trace spawned runTestsInParallel] in *.
    exists (([EvCanBeTested rev None] ++ t1) ++ [EvLock] ++ t2 ++ [EvUnlock]).
    rewrite Ht2, Ht1.
    repeat split; [by rewrite <- !app_assoc | congruence |].
    right. right. split; [congruence |].
    exists ([EvCanBeTested rev None] ++ t1), t2, langEnv. repeat split; try done.
    congruence. }
  cbv zeta in Hcand.
  unfold testRevisions_body, bind, getWorld, setRangeVar. cbn [ext].
  destruct (revisionsTested !! rev_id rev) as [tested|]; [| exact Hcand].
  destruct (rev_isBeingTested tested (ext s)); [apply Hskip |].
  destruct (rev_equal rev tested); [apply Hskip | exact Hcand].
Qed.

Lemma beforeDispatch_facts (t : list event) :
  Forall (λ e, beforeDispatch e = true) t →
  Forall (λ e, fromTestRevisions e = true) t
  ∧ (∀ held, locking held t = Some held)
  ∧ releasedEnvs t = [] ∧ goEnvs t = []
  ∧ count isGo t = 0%nat ∧ count isTest t = 0%nat
  ∧ count isLock t = 0%nat ∧ count isUnlock t = 0%nat.
Proof.
  intros Hall. repeat split.
  - eapply Forall_kind; [| exact Hall]. by_kind.
  - intros held. apply locking_without_test. eapply Forall_kind; [| exact Hall].
    intros e He. by destruct e.
  - apply releasedEnvs_none. eapply Forall_kind; [| exact Hall]. by_kind.
  - apply goEnvs_none. eapply Forall_kind; [| exact Hall]. by_kind.
  - eapply kinds_exclude; [| exact Hall]. by_kind.
  - eapply kinds_exclude; [| exact Hall]. by_kind.
  - eapply kinds_exclude; [| exact Hall]. by_kind.
  - eapply kinds_exclude; [| exact Hall]. by_kind.
Qed.

Lemma fromTestTask_facts (t : list event) :
  Forall (λ e, fromTestTask e = true) t →
  Forall (λ e, fromTestRevisions e = true) t
  ∧ locking true t = Some true
  ∧ releasedEnvs t = [] ∧ goEnvs t = []
  ∧ count isGo t = 0%nat ∧ count isLock t = 0%nat ∧ count isUnlock t = 0%nat.
Proof.
  intros Hall. repeat split.
  - eapply Forall_kind; [| exact Hall]. by_kind.
  - apply locking_held. eapply Forall_kind; [| exact Hall].
    intros e He. by destruct e.
  - apply releasedEnvs_none. eapply Forall_kind; [| exact Hall]. by_kind.
  - apply goEnvs_none. eapply Forall_kind; [| exact Hall]. by_kind.
  - eapply kinds_exclude; [| exact Hall]. by_kind.
  - eapply kinds_exclude; [| exact Hall]. by_kind.
  - eapply kinds_exclude; [| exact Hall]. by_kind.
Qed.

Lemma census_refl (s : state) (defers : list languageConfig) :
  census s s defers defers.
Proof.
  exists []. rewrite app_nil_r. unfold count. simpl.
  repeat split; try done; lia.
Qed.

Lemma census_trans (s1 s2 s3 : state) (d1 d2 d3 : list languageConfig) :
  census s1 s2 d1 d2 → census s2 s3 d2 d3 → census s1 s3 d1 d3.
Proof.
  intros (t1 & Ht1 & Hp1 & Hk1 & Hl1 & Hr1 & Hd1 & Hlk1 & Hul1 & Hsp1 & Hpar1 & Hser1)
         (t2 & Ht2 & Hp2 & Hk2 & Hl2 & Hr2 & Hd2 & Hlk2 & Hul2 & Hsp2 & Hpar2 & Hser2).
  rewrite Hp1 in Hpar2, Hser2.
  exists (t1 ++ t2). split_and!.
  - by rewrite Ht2, Ht1, app_assoc.
  - congruence.
  - by apply Forall_app.
  - by rewrite locking_app, Hl1.
  - by rewrite releasedEnvs_app, Hr1, Hr2.
  - rewrite !count_app. lia.
  - rewrite !count_app. lia.
  - rewrite !count_app. lia.
  - rewrite !count_app. lia.
  - intros Hpar. destruct (Hpar1 Hpar) as [Hz1 Hds1].
    destruct (Hpar2 Hpar) as [Hz2 Hds2]. split.
    + by rewrite count_app, Hz1, Hz2.
    + by rewrite Hds2, Hds1, goEnvs_app, rev_app_distr, <- app_assoc.
  - intros Hser. destruct (Hser1 Hser) as [Hz1 Hsame1].
    destruct (Hser2 Hser) as [Hz2 Hsame2]. split.
    + by rewrite count_app, Hz1, Hz2.
    + congruence.
Qed.

Lemma body_census (r : Repo) (rev : revision) (st : table * list languageConfig)
    (s : state) :
  census s (snd (testRevisions_body r rev st s)) (snd st)
    (snd (fst (testRevisions_body r rev st s))).
Proof.
  destruct st as [revisionsTested defers].
  destruct (body_shape r rev revisionsTested defers s) as (t & Ht & Hpar & Hcases).
  cbn [snd]. exists t. split; [exact Ht |]. split; [exact Hpar |].
  destruct Hcases as [(Hd & Hsp & Hk) | [(Hmode & t1 & langEnv & -> & Hk1 & Hd & Hsp)
                     | (Hmode & t1 & t2 & langEnv & -> & Hk1 & Hk2 & Htest & Hd & Hsp)]].
  - apply beforeDispatch_facts in Hk as (Hk & Hl & Hr & Hg & Hcg & Hct & Hcl & Hcu).
    rewrite Hd, Hsp, Hcg, Hct, Hcl, Hcu, Hg. split_and!; try done; lia.
  - apply beforeDispatch_facts in Hk1 as (Hk & Hl & Hr & Hg & Hcg & Hct & Hcl & Hcu).
    rewrite Hd, Hsp, !count_app, Hcg, Hct, Hcl, Hcu, goEnvs_app, Hg, locking_app, Hl,
      releasedEnvs_app, Hr, length_app.
    unfold count. simpl. split_and!; try done; try lia; try congruence.
    apply Forall_app. split; [done |]. check_events.
  - apply beforeDispatch_facts in Hk1 as (Hk & Hl & Hr & Hg & Hcg & Hct & Hcl & Hcu).
    apply fromTestTask_facts in Hk2 as (Hk' & Hl' & Hr' & Hg' & Hcg' & Hcl' & Hcu').
    rewrite Hd, Hsp, !count_app, Hcg, Hct, Hcl, Hcu, Hcg', Hcl', Hcu', Htest,
      !locking_app, Hl, !releasedEnvs_app, Hr, Hr'.
    cbn [app locking]. rewrite locking_app, Hl'. cbn [locking].
    unfold count. simpl. split_and!; try done; try lia; try congruence.
    apply Forall_app. split; [done |]. constructor; [done |].
    apply Forall_app. split; [done |]. check_events.
Qed.

Lemma loop_census (r : Repo) (revisions : list revision)
    (st : table * list languageConfig) (s : state) :
  census s (snd (testRevisions_loop r revisions st s)) (snd st)
    (snd (fst (testRevisions_loop r revisions st s))).
Proof.
  revert st s. induction revisions as [|rev rest IH]; intros st s; simpl.
  { apply census_refl. }
  unfold bind. pose proof (body_census r rev st s) as Hbody.
  destruct (testRevisions_body r rev st s) as [st1 s1]. cbn [fst snd] in *.
  eapply census_trans; [exact Hbody | apply IH].
Qed.

Lemma count_released_length (t : list event) :
  count released t = length (releasedEnvs t).
Proof.
  unfold count. induction t as [|e t IH]; simpl; [done |].
  destruct e; simpl; by rewrite ?IH.
Qed.

(** The deferred cleanups: every environment on the stack is released,
    in the order of the stack, a failed cleanup only adding a line to
    the log. *)
Lemma runDeferred_census (defers : list languageConfig) (s : state) :
  spawned (snd (runDeferred defers s)) = spawned s
  ∧ runTestsInParallel (snd (runDeferred defers s)) = runTestsInParallel s
  ∧ ∃ t, trace (snd (runDeferred defers s)) = trace s ++ t
         ∧ Forall (λ e, released e || isLog e = true) t
         ∧ releasedEnvs t = defers.
Proof.
  revert s. induction defers as [|langEnv rest IH]; intros s; simpl.
  { repeat split. exists []. by rewrite app_nil_r. }
  unfold bind.
  destruct (cleanupRevision_census langEnv s) as (Hsp1 & Hpar1 & res & t1 & Ht1 & Hk1).
  destruct (cleanupRevision langEnv s) as [u s1]. cbn [fst snd] in *.
  destruct (IH s1) as (Hsp2 & Hpar2 & t2 & Ht2 & Hk2 & Hr2).
  split; [congruence |]. split; [congruence |].
  exists ((EvCleanup langEnv res :: t1) ++ t2). split_and!.
  - by rewrite Ht2, Ht1, app_assoc.
  - apply Forall_app. split; [| done]. constructor; [done |].
    eapply Forall_kind; [| exact Hk1]. intros e He. by destruct e.
  - rewrite releasedEnvs_app. cbn [releasedEnvs]. rewrite Hr2.
    rewrite releasedEnvs_none; [done |].
    eapply Forall_kind; [| exact Hk1]. by_kind.
Qed.

Lemma cleanup_facts (t : list event) :
  Forall (λ e, released e || isLog e = true) t →
  Forall (λ e, fromTestRevisions e = true) t
  ∧ (∀ held, locking held t = Some held)
  ∧ goEnvs t = []
  ∧ count isGo t = 0%nat ∧ count isTest t = 0%nat
  ∧ count isLock t = 0%nat ∧ count isUnlock t = 0%nat.
Proof.
  intros Hall. split_and!.
  - eapply Forall_impl; [exact Hall |]. by_kind.
  - intros held. apply locking_without_test. eapply Forall_impl; [exact Hall |].
    intros e He. by destruct e.
  - apply goEnvs_none. eapply Forall_impl; [exact Hall |]. by_kind.
  - apply count_none. eapply Forall_impl; [exact Hall |]. by_kind.
  - apply count_none. eapply Forall_impl; [exact Hall |]. by_kind.
  - apply count_none. eapply Forall_impl; [exact Hall |]. by_kind.
  - apply count_none. eapply Forall_impl; [exact Hall |]. by_kind.
Qed.

(** Everything a call of testRevisions adds to the trace, at once. *)
Lemma testRevisions_census (r : Repo) (revisions : list revision)
    (revisionsTested : table) (s : state) :
  let s' := snd (testRevisions r revisions revisionsTested s) in
  ∃ t, trace s' = trace s ++ t
       ∧ runTestsInParallel s' = runTestsInParallel s
       ∧ Forall (λ e, fromTestRevisions e = true) t
       ∧ locking false t = Some false
       ∧ count released t = (count isGo t + count isTest t)%nat
       ∧ count isLock t = count isTest t
       ∧ count isUnlock t = count isTest t
       ∧ length (spawned s') = (length (spawned s) + count isGo t)%nat
       ∧ (runTestsInParallel s = true →
          count isTest t = 0%nat ∧ releasedEnvs t = rev (goEnvs t))
       ∧ (runTestsInParallel s = false →
          count isGo t = 0%nat ∧ spawned s' = spawned s).
Proof.
  cbv zeta. rewrite testRevisions_unfold. cbn [fst snd].
  destruct (loop_census r revisions
              (removeStale revisions (ext s) revisionsTested, []) s)
    as (t1 & Ht1 & Hp1 & Hk1 & Hl1 & Hr1 & Hd1 & Hlk1 & Hul1 & Hsp1 & Hpar1 & Hser1).
  destruct (testRevisions_loop _ _ _ _) as [[tested defers] s1]. cbn [fst snd] in *.
  set (s1' := snd (endRange s1)).
  destruct (runDeferred_census defers s1') as (Hsp2 & Hp2 & t2 & Ht2 & Hk2 & Hr2).
  change (trace s1') with (trace s1) in Ht2.
  change (spawned s1') with (spawned s1) in Hsp2.
  change (runTestsInParallel s1') with (runTestsInParallel s1) in Hp2.
  apply cleanup_facts in Hk2 as (Hk2 & Hl2 & Hg2 & Hcg2 & Hct2 & Hcl2 & Hcu2).
  exists (t1 ++ t2). split_and!.
  - by rewrite Ht2, Ht1, app_assoc.
  - congruence.
  - by apply Forall_app.
  - by rewrite locking_app, Hl1.
  - rewrite !count_app, !count_released_length, Hr1, Hr2, Hcg2, Hct2. simpl in *. lia.
  - rewrite !count_app. lia.
  - rewrite !count_app. lia.
  - rewrite count_app, Hsp2. lia.
  - intros Hpar. destruct (Hpar1 Hpar) as [Hz Hds]. split.
    + by rewrite count_app, Hz, Hct2.
    + rewrite releasedEnvs_app, goEnvs_app, Hr1, Hr2, Hg2, Hds. simpl.
      by rewrite !app_nil_r.
  - intros Hser. destruct (Hser1 Hser) as [Hz Hsame]. split.
    + by rewrite count_app, Hz, Hcg2.
    + congruence.
Qed.

(** X11: in a call of testRevisions every test of a revision made by the
    loop is made with testLock held; the lock is taken once per test,
    never twice in a row, and it is free when testRevisions returns. *)
Theorem testRevisions_lock_discipline (r : Repo) (revisions : list revision)
    (revisionsTested : table) (s : state) :
  ∃ t, trace (snd (testRevisions r revisions revisionsTested s)) = trace s ++ t
       ∧ locking false t = Some false
       ∧ count isLock t = count isTest t
       ∧ count isUnlock t = count isTest t.
Proof.
  destruct (testRevisions_census r revisions revisionsTested s)
    as (t & Ht & _ & _ & Hl & _ & Hlk & Hul & _).
  by exists t.
Qed.

(** X12: testRevisions only works on what it was given: it never asks
    the provider for a branch, a pull request or the list of pull
    requests, never builds a provider client, never sleeps, and leaves
    runTestsInParallel as it is. *)
Theorem testRevisions_stays_local (r : Repo) (revisions : list revision)
    (revisionsTested : table) (s : state) :
  runTestsInParallel (snd (testRevisions r revisions revisionsTested s))
  = runTestsInParallel s
  ∧ ∃ t, trace (snd (testRevisions r revisions revisionsTested s)) = trace s ++ t
         ∧ Forall (λ e, fromTestRevisions e = true) t
         ∧ Forall (λ e, fromDiscover e = true → isLog e = true) t
         ∧ Forall (λ e, fromSetupCvr e = true → isLog e = true) t
         ∧ sleeps t = [].
Proof.
  destruct (testRevisions_census r revisions revisionsTested s)
    as (t & Ht & Hp & Hk & _).
  split; [exact Hp |]. exists t. split_and!; try done.
  - eapply Forall_kind; [| exact Hk]. intros e He. by destruct e.
  - eapply Forall_kind; [| exact Hk]. intros e He. by destruct e.
  - apply sleeps_none. eapply Forall_kind; [| exact Hk]. by_kind.
Qed.


(** X14: in parallel mode, when testRevisions returns it has released
    the environment of every goroutine it started, the last started
    first, whether or not a cleanup failed. *)
Theorem testRevisions_parallel_releases_in_reverse (r : Repo)
    (revisions : list revision) (revisionsTested : table) (s : state) :
  runTestsInParallel s = true →
  ∃ t, trace (snd (testRevisions r revisions revisionsTested s)) = trace s ++ t
       ∧ releasedEnvs t = rev (goEnvs t).
Proof.
  intros Hmode. destruct (testRevisions_census r revisions revisionsTested s)
    as (t & Ht & _ & _ & _ & _ & _ & _ & _ & Hpar & _).
  exists t. split; [done |]. by destruct (Hpar Hmode).
Qed.

(** C4 (amended): when the loop of a poll cycle reaches a discovered
    revision whose identity is in the tested-table with an entry marked
    being-tested, it skips it: the range variable is assigned and a
    debug line is logged, nothing else; the table, the deferred
    cleanups, the world and the goroutines are as they were, and the
    loop goes on with the next revision.  In serialized mode the tests
    of a cycle run one at a time: the loop starts no goroutine, and
    every test it runs is made with testLock held, the lock being taken
    once per test and free at the end.  Nothing is said of the tests in
    flight in parallel mode. *)
Theorem being_tested_is_skipped_and_serialized_tests_run_one_at_a_time
    (r : Repo) (pre post : list revision) (rev tested : revision)
    (revisionsTested : table) (defers : list languageConfig) (s : state) :
  let reached := testRevisions_loop r pre (revisionsTested, defers) s in
  let whole := testRevisions_loop r (pre ++ rev :: post) (revisionsTested, defers) s in
  fst (fst reached) !! rev_id rev = Some tested →
  rev_isBeingTested tested (ext (snd reached)) = true →
  testRevisions_body r rev (fst reached) (snd reached)
  = (fst reached,
     logged (assigned rev (snd reached)) [EvLog Debug (MsgBeingTested tested)])
  ∧ whole
    = testRevisions_loop r post (fst reached)
        (logged (assigned rev (snd reached)) [EvLog Debug (MsgBeingTested tested)])
  ∧ (runTestsInParallel s = false →
     spawned (snd whole) = spawned s
     ∧ ∃ t, trace (snd whole) = trace s ++ t
            ∧ count isGo t = 0%nat
            ∧ locking false t = Some false
            ∧ count isLock t = count isTest t
            ∧ count isUnlock t = count isTest t).
Proof.
  intros reached whole Hlook Hbusy.
  destruct (loop_skips_being_tested r pre post rev tested revisionsTested defers s
              Hlook Hbusy) as [Hbody Hloop].
  split; [exact Hbody |]. split; [exact Hloop |].
  intros Hser.
  destruct (loop_census r (pre ++ rev :: post) (revisionsTested, defers) s)
    as (t & Ht & _ & _ & Hl & _ & _ & Hlk & Hul & _ & _ & Hser').
  destruct (Hser' Hser) as [Hgo Hsp].
  split; [exact Hsp |]. by exists t.
Qed.

(** ** The goroutines and the range variable *)

Lemma testTask_rangeVars (r : Repo) (rev : revision) (langEnv : languageConfig)
    (s : state) :
  rangeVars (snd (testTask r rev langEnv s)) = rangeVars s
  ∧ rangeVar (snd (testTask r rev langEnv s)) = rangeVar s.
Proof.
  unfold testTask, testRevision, copyLogs. run_step.
  destruct (rev_test _ _ _ _) as [[e|] w1]; simpl;
    (destruct (negb _); simpl; [| done]);
    by destruct (logServer_copy _ _ _) as [[e'|] w2].
Qed.

Lemma runDeferred_rangeVars (defers : list languageConfig) (s : state) :
  rangeVars (snd (runDeferred defers s)) = rangeVars s
  ∧ rangeVar (snd (runDeferred defers s)) = rangeVar s.
Proof.
  revert s. induction defers as [|langEnv rest IH]; intros s; simpl; [done |].
  unfold bind, cleanupRevision. run_step.
  destruct (cleanup langEnv (ext s)) as [[e|] w1]; simpl;
    match goal with |- context [runDeferred rest ?s1] => destruct (IH s1) as [-> ->] end;
    done.
Qed.

(** The body assigns the range variable of the loop and no other. *)
Lemma body_rangeVars (r : Repo) (rev : revision) (st : table * list languageConfig)
    (s : state) :
  rangeVars (snd (testRevisions_body r rev st s)) = <[rangeVar s := rev]> (rangeVars s)
  ∧ rangeVar (snd (testRevisions_body r rev st s)) = rangeVar s.
Proof.
  destruct st as [revisionsTested defers].
  assert (Hcand :
    rangeVars (snd (testRevisions_candidate r rev (revisionsTested, defers)
                      (assigned rev s)))
    = <[rangeVar s := rev]> (rangeVars s)
    ∧ rangeVar (snd (testRevisions_candidate r rev (revisionsTested, defers)
                       (assigned rev s)))
      = rangeVar s).
  { rewrite candidate_unfold.
    destruct (afterCanBeTested_rangeVars rev s) as [Hvars0 Hvar0].
    destruct (fst (rev_canBeTested rev (ext s))) as [e|]; [done |]. cbv zeta.
    destruct (setupRevision_rangeVars r rev (afterCanBeTested rev s)) as [Hvars1 Hvar1].
    destruct (setupRevision r rev (afterCanBeTested rev s)) as [[langEnv err] s2].
    cbn [fst snd] in *. rewrite Hvars0 in Hvars1. rewrite Hvar0 in Hvar1.
    destruct err as [e|]; [done |].
    destruct (runTestsInParallel s2); [done |].
    destruct (testTask_rangeVars r rev langEnv (logged s2 [EvLock])) as [Hvars2 Hvar2].
    unfold logged in *. cbn [rangeVars rangeVar] in *. by rewrite Hvars2, Hvar2. }
  unfold testRevisions_body, bind, getWorld, setRangeVar. cbn [ext].
  destruct (revisionsTested !! rev_id rev) as [tested|]; [| exact Hcand].
  destruct (rev_isBeingTested tested (ext s)); [done |].
  destruct (rev_equal rev tested); [done | exact Hcand].
Qed.

(** The goroutines the body starts are started on the range variable of
    the loop. *)
Lemma body_closures (r : Repo) (rev : revision) (st : table * list languageConfig)
    (s : state) :
  ∃ t, trace (snd (testRevisions_body r rev st s)) = trace s ++ t
       ∧ spawned (snd (testRevisions_body r rev st s))
         = spawned s ++ map (λ langEnv, (rangeVar s, langEnv)) (goEnvs t).
Proof.
  destruct st as [revisionsTested defers].
  destruct (body_shape r rev revisionsTested defers s) as (t & Ht & _ & Hcases).
  exists t. split; [exact Ht |].
  destruct Hcases as [(_ & Hsp & Hk) | [(_ & t1 & langEnv & -> & Hk1 & _ & Hsp)
                     | (_ & t1 & t2 & langEnv & -> & Hk1 & Hk2 & _ & _ & Hsp)]].
  - apply beforeDispatch_facts in Hk as (_ & _ & _ & Hg & _).
    by rewrite Hsp, Hg, app_nil_r.
  - apply beforeDispatch_facts in Hk1 as (_ & _ & _ & Hg & _).
    by rewrite Hsp, goEnvs_app, Hg.
  - apply beforeDispatch_facts in Hk1 as (_ & _ & _ & Hg & _).
    apply fromTestTask_facts in Hk2 as (_ & _ & _ & Hg' & _).
    rewrite Hsp, !goEnvs_app, Hg, Hg'. by rewrite app_nil_r.
Qed.

Lemma loop_closures (r : Repo) (revisions : list revision)
    (st : table * list languageConfig) (s : state) :
  let s' := snd (testRevisions_loop r revisions st s) in
  rangeVar s' = rangeVar s
  ∧ rangeVars s' = match last revisions with
                   | Some rev => <[rangeVar s := rev]> (rangeVars s)
                   | None => rangeVars s
                   end
  ∧ ∃ t, trace s' = trace s ++ t
         ∧ spawned s' = spawned s ++ map (λ langEnv, (rangeVar s, langEnv)) (goEnvs t)
         ∧ (revisions = [] → t = []).
Proof.
  cbv zeta. revert st s.
  induction revisions as [|rev rest IH]; intros st s; simpl.
  { split_and!; try done. exists []. by rewrite !app_nil_r. }
  unfold bind.
  destruct (body_rangeVars r rev st s) as [Hvars1 Hvar1].
  destruct (body_closures r rev st s) as (t1 & Ht1 & Hsp1).
  destruct (testRevisions_body r rev st s) as [st1 s1]. cbn [fst snd] in *.
  destruct (IH st1 s1) as (Hvar2 & Hvars2 & t2 & Ht2 & Hsp2 & _).
  split_and!.
  - congruence.
  - rewrite Hvars2, Hvar1, Hvars1. rewrite last_cons.
    destruct (last rest); [by rewrite insert_insert_eq | done].
  - exists (t1 ++ t2). split_and!.
    + by rewrite Ht2, Ht1, app_assoc.
    + by rewrite Hsp2, Hsp1, Hvar1, goEnvs_app, map_app, app_assoc.
    + done.
Qed.

(** X23: the goroutines started by a call of testRevisions all refer to
    one range variable, the one of the loop of this call, each with the
    environment of its iteration.  When testRevisions returns that
    variable holds the last discovered revision: this is what each of
    these goroutines would test if it ran now, whatever the revision it
    was started for.  The range variables of earlier calls are as they
    were. *)
Theorem goroutines_share_the_range_variable (r : Repo)
    (revisions : list revision) (revisionsTested : table) (s : state) :
  let s' := snd (testRevisions r revisions revisionsTested s) in
  rangeVar s' = S (rangeVar s)
  ∧ (∀ a, a ≠ rangeVar s → rangeVars s' !! a = rangeVars s !! a)
  ∧ (revisions ≠ [] → rangeVars s' !! rangeVar s = last revisions)
  ∧ ∃ t, trace s' = trace s ++ t
         ∧ spawned s' = spawned s ++ map (λ langEnv, (rangeVar s, langEnv)) (goEnvs t)
         ∧ pending s'
           = map (λ g, rangeVars s' !! fst g) (spawned s)
             ++ repeat (last revisions) (length (goEnvs t)).
Proof.
  cbv zeta. rewrite testRevisions_unfold. cbn [fst snd].
  destruct (loop_closures r revisions
              (removeStale revisions (ext s) revisionsTested, []) s)
    as (Hvar1 & Hvars1 & t1 & Ht1 & Hsp1 & Hnil1).
  destruct (testRevisions_loop _ _ _ _) as [[tested defers] s1]. cbn [fst snd] in *.
  set (s1' := snd (endRange s1)).
  destruct (runDeferred_rangeVars defers s1') as [Hvars2 Hvar2].
  destruct (runDeferred_census defers s1') as (Hsp2 & _ & t2 & Ht2 & Hk2 & _).
  apply cleanup_facts in Hk2 as (_ & _ & Hg2 & _).
  change (rangeVars s1') with (rangeVars s1) in Hvars2.
  change (rangeVar s1') with (S (rangeVar s1)) in Hvar2.
  change (spawned s1') with (spawned s1) in Hsp2.
  change (trace s1') with (trace s1) in Ht2.
  set (s2 := snd (runDeferred defers s1')) in *.
  assert (Hspawned : spawned s2
                     = spawned s ++ map (λ langEnv, (rangeVar s, langEnv))
                                      (goEnvs (t1 ++ t2))).
  { by rewrite Hsp2, Hsp1, goEnvs_app, Hg2, app_nil_r. }
  split_and!.
  - congruence.
  - intros a Ha. rewrite Hvars2, Hvars1.
    destruct (last revisions); [by rewrite lookup_insert_ne | done].
  - intros Hne. rewrite Hvars2, Hvars1.
    destruct (last revisions) as [rev|] eqn:Hlast; [by rewrite lookup_insert_eq |].
    apply last_None in Hlast. done.
  - exists (t1 ++ t2). split_and!.
    + by rewrite Ht2, Ht1, app_assoc.
    + exact Hspawned.
    + unfold pending. rewrite Hspawned, map_app, map_map. f_equal.
      cbn [fst]. rewrite goEnvs_app, Hg2, app_nil_r.
      destruct revisions as [|rev0 rest].
      * by rewrite Hnil1.
      * rewrite Hvars2, Hvars1.
        destruct (last (rev0 :: rest)) as [rev|] eqn:Hlast.
        -- rewrite lookup_insert_eq. generalize (goEnvs t1).
           intros envs. induction envs as [|env envs IH]; simpl; [done |].
           by rewrite IH.
        -- by apply last_None in Hlast.
Qed.

(** ** The tested-table *)

Lemma removeStale_facts (revisions : list revision) (w : world)
    (revisionsTested : table) :
  removeStale revisions w revisionsTested ⊆ revisionsTested
  ∧ (∀ k v, revisionsTested !! k = Some v →
            found revisions k = true ∨ rev_isBeingTested v w = true →
            removeStale revisions w revisionsTested !! k = Some v)
  ∧ removeStale revisions w (removeStale revisions w revisionsTested)
    = removeStale revisions w revisionsTested.
Proof.
  split_and!.
  - apply map_subseteq_spec. intros k v. rewrite removeStale_lookup.
    destruct (revisionsTested !! k) as [v'|]; [|done]. by case_match.
  - intros k v Hlook Hkeep. rewrite removeStale_lookup, Hlook.
    destruct Hkeep as [-> | ->]; [done |]. by rewrite andb_false_r.
  - apply map_eq. intros k. rewrite (removeStale_lookup _ _ (removeStale _ _ _)).
    destruct (removeStale revisions w revisionsTested !! k) as [v|] eqn:Hlook; [|done].
    rewrite removeStale_lookup in Hlook.
    destruct (revisionsTested !! k) as [v'|]; [|done].
    destruct (negb (found revisions k) && negb (rev_isBeingTested v' w)) eqn:Hstale;
      [done |].
    injection Hlook as ->. by rewrite Hstale.
Qed.

(** X15: the first pass of testRevisions only deletes: what is left is
    part of the table it was given, an entry being tested or of a
    discovered identity is always left, and a second pass over the
    result removes nothing more. *)
Theorem removeStale_only_deletes (revisions : list revision) (w : world)
    (revisionsTested : table) :
  removeStale revisions w revisionsTested ⊆ revisionsTested
  ∧ (∀ k v, revisionsTested !! k = Some v →
            found revisions k = true ∨ rev_isBeingTested v w = true →
            removeStale revisions w revisionsTested !! k = Some v)
  ∧ removeStale revisions w (removeStale revisions w revisionsTested)
    = removeStale revisions w revisionsTested.
Proof. apply removeStale_facts. Qed.

Lemma loop_entries (r : Repo) (revisions : list revision)
    (st : table * list languageConfig) (s : state) (k : string) (v : revision) :
  fst (fst (testRevisions_loop r revisions st s)) !! k = Some v →
  fst st !! k = Some v ∨ (v ∈ revisions ∧ rev_id v = k).
Proof.
  revert st s. induction revisions as [|rev rest IH]; intros st s; simpl; [by left |].
  unfold bind. pose proof (body_table r rev (fst st) (snd st) s) as Hbody.
  destruct st as [revisionsTested defers]. cbn [fst snd] in *.
  destruct (testRevisions_body r rev (revisionsTested, defers) s) as [st1 s1].
  cbn [fst] in *. intros Hlook. apply IH in Hlook as [Hlook | [Hin Hid]].
  - assert (Hor : fst st1 = revisionsTested
                  ∨ fst st1 = <[rev_id rev := rev]> revisionsTested).
    { rewrite Hbody. repeat case_match; auto. }
    destruct Hor as [Hor | Hor]; rewrite Hor in Hlook; [by left |].
    destruct (decide (rev_id rev = k)) as [<- | Hne].
    + rewrite lookup_insert_eq in Hlook. injection Hlook as <-.
      right. split; [apply list_elem_of_here | done].
    + rewrite lookup_insert_ne in Hlook by done. by left.
  - right. split; [by apply list_elem_of_further | done].
Qed.

Lemma testRevisions_entries (r : Repo) (revisions : list revision)
    (revisionsTested : table) (s : state) (k : string) (v : revision) :
  fst (testRevisions r revisions revisionsTested s) !! k = Some v →
  revisionsTested !! k = Some v ∨ (v ∈ revisions ∧ rev_id v = k).
Proof.
  rewrite testRevisions_unfold. cbn [fst]. intros Hlook.
  apply loop_entries in Hlook as [Hlook | Hnew]; [| by right]. left.
  cbn [fst] in Hlook.
  destruct (removeStale_facts revisions (ext s) revisionsTested) as (Hsub & _).
  eapply lookup_weaken; [exact Hlook | exact Hsub].
Qed.

(** X16: every entry of the tested-table after testRevisions was in the
    table before, under the same key, or is one of the discovered
    revisions, stored under its identity. *)
Theorem testRevisions_entries_origin (r : Repo) (revisions : list revision)
    (revisionsTested : table) (s : state) (k : string) (v : revision) :
  fst (testRevisions r revisions revisionsTested s) !! k = Some v →
  revisionsTested !! k = Some v ∨ (v ∈ revisions ∧ rev_id v = k).
Proof. apply testRevisions_entries. Qed.

Lemma loop_iteration_keyed (r : Repo) (revisionsTested : table) (s : state) :
  keyedById revisionsTested →
  keyedById (fst (loop_iteration r revisionsTested s)).
Proof.
  intros Hkeyed. unfold loop_iteration. unfold bind at 1.
  destruct (discover r s) as [revs s1]. unfold bind at 1.
  destruct (0 <? length revs)%nat.
  - unfold bind at 1 2 3, logf, emit, ret. cbn [fst snd].
    match goal with
    | |- context [testRevisions r revs revisionsTested ?s2] =>
      pose proof (testRevisions_entries r revs revisionsTested s2) as Horigin;
      destruct (testRevisions r revs revisionsTested s2) as [tested s3]
    end.
    cbn [fst snd] in *. intros k v Hlook.
    destruct (Horigin k v Hlook) as [Hold | [_ Hid]]; [by apply Hkeyed | done].
  - unfold bind, logf, emit, ret. by cbn [fst snd].
Qed.

(** X17: however long the loop runs, every key of its tested-table is
    the identity of the revision stored under it. *)
Theorem loop_table_keyed_by_identity (r : Repo) (n : nat) (s : state) :
  keyedById (fst (loop r n s)).
Proof.
  unfold loop. unfold bind at 1, logf, emit. cbn [fst snd].
  generalize (mkState (ext s) (trace s ++ [EvLog Debug MsgMonitoring]) (spawned s)
                (runTestsInParallel s) (rangeVars s) (rangeVar s)).
  assert (Hempty : keyedById (∅ : table)) by (intros k v Hlook; by rewrite lookup_empty in Hlook).
  revert Hempty. generalize (∅ : table).
  induction n as [|n IH]; intros revisionsTested Hkeyed s0; simpl; [done |].
  unfold bind. pose proof (loop_iteration_keyed r revisionsTested s0 Hkeyed) as Hnext.
  destruct (loop_iteration r revisionsTested s0) as [tested s1]. by apply IH.
Qed.

(** X18: a discovered revision that the table checks let through but
    that cannot be tested is left out: only canBeTested was called for
    it, no environment is provisioned, and after the cycle the tested-
    table holds for its identity what it held before.  The discovered
    revisions have distinct identities. *)
Theorem revision_that_cannot_be_tested_is_left_out (r : Repo)
    (pre post : list revision) (rev : revision) (revisionsTested : table)
    (s : state) (e : error) :
  NoDup (map rev_id (pre ++ rev :: post)) →
  let reached :=
    testRevisions_loop r pre
      (removeStale (pre ++ rev :: post) (ext s) revisionsTested, []) s in
  needsTest (fst (fst reached)) rev (ext (snd reached)) = true →
  fst (rev_canBeTested rev (ext (snd reached))) = Some e →
  testRevisions_body r rev (fst reached) (snd reached)
  = (fst reached,
     logged (afterCanBeTested rev (snd reached))
       [EvLog Debug (MsgCannotBeTested (rev_id rev) e)])
  ∧ fst (testRevisions r (pre ++ rev :: post) revisionsTested s) !! rev_id rev
    = revisionsTested !! rev_id rev.
Proof.
  intros Hnodup reached Hneeds Hcan.
  rewrite map_app in Hnodup. simpl in Hnodup.
  apply NoDup_app in Hnodup as (_ & Hpre & Hpost).
  apply NoDup_cons in Hpost as [Hpost _].
  assert (Hpre' : rev_id rev ∉ map rev_id pre).
  { intros Hin. apply (Hpre _ Hin). apply list_elem_of_here. }
  assert (Hbody : testRevisions_body r rev (fst reached) (snd reached)
                  = (fst reached,
                     logged (afterCanBeTested rev (snd reached))
                       [EvLog Debug (MsgCannotBeTested (rev_id rev) e)])).
  { destruct (fst reached) as [tested1 defers1] eqn:Hst. cbn [fst] in Hneeds.
    rewrite body_candidate by done. rewrite candidate_unfold. by rewrite Hcan. }
  split; [exact Hbody |].
  rewrite testRevisions_unfold. cbn [fst snd].
  rewrite testRevisions_loop_app. fold reached.
  pose proof (loop_lookup_other r pre
    (removeStale (pre ++ rev :: post) (ext s) revisionsTested, []) s _ Hpre') as Hlook1.
  fold reached in Hlook1. cbn [fst] in Hlook1.
  rewrite removeStale_discovered in Hlook1
    by (apply elem_of_app; right; apply list_elem_of_here).
  cbn [testRevisions_loop]. unfold bind. rewrite Hbody.
  rewrite loop_lookup_other by done. exact Hlook1.
Qed.

(** ** Discovery and the loop *)

Lemma appendPullRequests_census (r : Repo) (revisions : list revision)
    (prs : list Z) (s : state) :
  let res := appendPullRequests r revisions prs s in
  spawned (snd res) = spawned s
  ∧ runTestsInParallel (snd res) = runTestsInParallel s
  ∧ ∃ fetched t,
      fst (fst res) = revisions ++ fetched
      ∧ trace (snd res) = trace s ++ t
      ∧ Forall (λ e, fromDiscover e = true) t
      ∧ count isListing t = 0%nat
      ∧ (snd (fst res) = None →
         length fetched = length prs ∧ count isFetch t = length prs)
      ∧ (snd (fst res) ≠ None →
         (length fetched < length prs)%nat ∧ count isFetch t = S (length fetched)).
Proof.
  cbv zeta. revert revisions s. induction prs as [|n rest IH]; intros revisions s.
  { simpl. unfold ret. cbn [fst snd]. split_and!; try done.
    exists [], []. rewrite !app_nil_r. by split_and!. }
  cbn [appendPullRequests]. unfold bind, logf, call, emit, ret. simpl.
  destruct (newPullRequest n (prConfig r) (ext s)) as [[pr [[msg]|]] w1]; simpl.
  { split_and!; try done.
    exists [], [EvLog Debug (MsgRequestingPullRequest n);
                EvNewPullRequest n (pr, Some (Errorf msg))].
    rewrite app_nil_r, <- app_assoc. split_and!; try done.
    - check_events.
    - simpl. split; [lia | done]. }
  match goal with
  | |- context [appendPullRequests r (revisions ++ [pr]) rest ?s1] =>
    destruct (IH (revisions ++ [pr]) s1)
      as (Hsp & Hpar & fetched & t & Hres & Ht & Hk & Hlist & Hok & Hko);
    destruct (appendPullRequests r (revisions ++ [pr]) rest s1) as [[revs err] s2]
  end.
  cbn [fst snd spawned runTestsInParallel trace] in *. split_and!; try done.
  exists (pr :: fetched),
    ([EvLog Debug (MsgRequestingPullRequest n); EvNewPullRequest n (pr, None)] ++ t).
  split_and!.
  - by rewrite Hres, <- app_assoc.
  - by rewrite Ht, <- !app_assoc.
  - apply Forall_app. split; [check_events | done].
  - by rewrite count_app, Hlist.
  - intros Hnone. destruct (Hok Hnone) as [Hlen Hcount]. split; [simpl; lia |].
    rewrite count_app, Hcount. reflexivity.
  - intros Hsome. destruct (Hko Hsome) as [Hlen Hcount]. split; [simpl; lia |].
    rewrite count_app, Hcount. reflexivity.
Qed.

Lemma asked_app (t1 t2 : list event) :
  asked (t1 ++ t2) = asked t1 ++ asked t2.
Proof.
  induction t1 as [|e t1 IH]; simpl; [done |]. destruct e; simpl; by rewrite ?IH.
Qed.

Lemma listings_app (t1 t2 : list event) :
  listings (t1 ++ t2) = listings t1 ++ listings t2.
Proof.
  induction t1 as [|e t1 IH]; simpl; [done |]. destruct e; simpl; by rewrite ?IH.
Qed.

(** Which pull requests appendPullRequests asks for, and what it makes
    of the answers. *)
Lemma appendPullRequests_requests (r : Repo) (revisions : list revision)
    (prs : list Z) (s : state) :
  let res := appendPullRequests r revisions prs s in
  ∃ t, trace (snd res) = trace s ++ t
       ∧ listings t = []
       ∧ answers (prConfig r) (ext s) (asked t) (ext (snd res))
       ∧ fst (fst res) = revisions ++ fetchedOf (asked t)
       ∧ (snd (fst res) = None →
          map fst (asked t) = prs ∧ length (fetchedOf (asked t)) = length prs)
       ∧ (snd (fst res) ≠ None →
          (∃ rest, prs = map fst (asked t) ++ rest)
          ∧ length (asked t) = S (length (fetchedOf (asked t)))).
Proof.
  cbv zeta. revert revisions s. induction prs as [|n rest IH]; intros revisions s.
  { simpl. unfold ret. cbn [fst snd]. exists []. rewrite !app_nil_r. by split_and!. }
  cbn [appendPullRequests]. unfold bind, logf, call, emit, ret. simpl.
  destruct (newPullRequest n (prConfig r) (ext s)) as [[pr [[msg]|]] w1] eqn:Hcall;
    simpl.
  { exists [EvLog Debug (MsgRequestingPullRequest n);
            EvNewPullRequest n (pr, Some (Errorf msg))].
    rewrite <- app_assoc. cbn [asked fetchedOf listings answers].
    rewrite Hcall, app_nil_r. split_and!; try done.
    intros _. split; [by exists rest | done]. }
  match goal with
  | |- context [appendPullRequests r (revisions ++ [pr]) rest ?s1] =>
    destruct (IH (revisions ++ [pr]) s1) as (t & Ht & Hlist & Hans & Hres & Hok & Hko);
    destruct (appendPullRequests r (revisions ++ [pr]) rest s1) as [[revs err] s2]
  end.
  cbn [fst snd trace ext] in *.
  exists ([EvLog Debug (MsgRequestingPullRequest n); EvNewPullRequest n (pr, None)] ++ t).
  cbn [app asked fetchedOf listings answers]. rewrite Hcall. cbn [fst snd].
  split_and!; try done.
  - by rewrite Ht, <- !app_assoc.
  - by rewrite Hres, <- app_assoc.
  - intros Hnone. destruct (Hok Hnone) as [Hasked Hlen]. simpl. by rewrite Hasked, Hlen.
  - intros Hsome. destruct (Hko Hsome) as [(rest' & Hasked) Hlen]. split.
    + exists rest'. simpl. by rewrite Hasked.
    + simpl. by rewrite Hlen.
Qed.

(** X19: appendPullRequests asks the provider for the pull requests it
    is given, in their order and from the world it is called in, and
    appends what is answered to the revisions it was given, until one
    cannot be fetched: it then stops, so that the pull requests asked
    for are the first of the list, the last of them being the one that
    failed, and none of those that follow is asked for. *)
Theorem appendPullRequests_stops_at_first_failure (r : Repo)
    (revisions : list revision) (prs : list Z) (s : state) :
  let res := appendPullRequests r revisions prs s in
  ∃ t, trace (snd res) = trace s ++ t
       ∧ answers (prConfig r) (ext s) (asked t) (ext (snd res))
       ∧ fst (fst res) = revisions ++ fetchedOf (asked t)
       ∧ (snd (fst res) = None →
          map fst (asked t) = prs ∧ length (fetchedOf (asked t)) = length prs)
       ∧ (snd (fst res) ≠ None →
          (∃ rest, prs = map fst (asked t) ++ rest)
          ∧ length (asked t) = S (length (fetchedOf (asked t)))).
Proof.
  cbv zeta. destruct (appendPullRequests_requests r revisions prs s)
    as (t & Ht & _ & Hans & Hres & Hok & Hko).
  by exists t.
Qed.

(** The discovery, case by case. *)
Lemma discover_unfold (r : Repo) (s : state) :
  discover r s =
    let b := newRepoBranch (MasterBranch r) (cvr r) (ext s) in
    let found := match snd (fst b) with
                 | Some _ => []
                 | None => [fst (fst b)]
                 end in
    let s1 := mkState (snd b)
                (trace s ++ [EvLog Debug (MsgRequestingMaster (MasterBranch r));
                             EvNewRepoBranch (MasterBranch r) (fst b)]
                         ++ match snd (fst b) with
                            | Some e => [EvLog Warn (MsgFailedMaster (MasterBranch r) e)]
                            | None => []
                            end)
                (spawned s) (runTestsInParallel s) (rangeVars s) (rangeVar s) in
    if negb (PR r =? 0)%Z
    then
      let a := appendPullRequests r found [PR r] s1 in
      (fst (fst a),
       match snd (fst a) with
       | Some e => logged (snd a) [EvLog Warn (MsgFailedAppendPullRequest (PR r) e)]
       | None => snd a
       end)
    else
      let l := getOpenPullRequests (cvr r) (snd b) in
      let s2 := mkState (snd l)
                  (trace s1 ++ [EvLog Debug MsgRequestingOpenPullRequests;
                                EvGetOpenPullRequests (fst l)])
                  (spawned s) (runTestsInParallel s) (rangeVars s) (rangeVar s) in
      match snd (fst l) with
      | Some e => (found, logged s2 [EvLog Warn (MsgFailedOpenPullRequests e)])
      | None =>
        let a := appendPullRequests r found (fst (fst l)) s2 in
        (fst (fst a),
         match snd (fst a) with
         | Some e =>
           logged (snd a) [EvLog Warn (MsgFailedAppendPullRequests (fst (fst l)) e)]
         | None => snd a
         end)
      end.
Proof.
  unfold discover. generalize [PR r]. intros pinned.
  unfold bind, call, emit, logf, ret, logged. simpl.
  destruct (newRepoBranch (MasterBranch r) (cvr r) (ext s)) as [[b [e|]] w1]; simpl;
    rewrite <- ?app_assoc; simpl.
  - destruct (negb (PR r =? 0)%Z); simpl.
    + destruct (appendPullRequests r [] pinned _) as [[revs [e'|]] s2]; reflexivity.
    + destruct (getOpenPullRequests (cvr r) w1) as [[prs [e'|]] w2]; simpl;
        rewrite <- ?app_assoc; simpl; [reflexivity |].
      destruct (appendPullRequests r [] prs _) as [[revs [e''|]] s2]; reflexivity.
  - destruct (negb (PR r =? 0)%Z); simpl.
    + destruct (appendPullRequests r [b] pinned _) as [[revs [e'|]] s2]; reflexivity.
    + destruct (getOpenPullRequests (cvr r) w1) as [[prs [e'|]] w2]; simpl;
        rewrite <- ?app_assoc; simpl; [reflexivity |].
      destruct (appendPullRequests r [b] prs _) as [[revs [e''|]] s2]; reflexivity.
Qed.

Lemma append_then_warn (r : Repo) (found : list revision) (prs : list Z)
    (s1 : state) (msg : error → logmsg) :
  let a := appendPullRequests r found prs s1 in
  let s' := match snd (fst a) with
            | Some e => logged (snd a) [EvLog Warn (msg e)]
            | None => snd a
            end in
  spawned s' = spawned s1
  ∧ runTestsInParallel s' = runTestsInParallel s1
  ∧ ∃ fetched t,
      fst (fst a) = found ++ fetched
      ∧ trace s' = trace s1 ++ t
      ∧ Forall (λ e, fromDiscover e = true) t
      ∧ count isListing t = 0%nat
      ∧ (length fetched ≤ length prs)%nat
      ∧ (count isFetch t ≤ length prs)%nat
      ∧ (prs ≠ [] → (1 ≤ count isFetch t)%nat).
Proof.
  cbv zeta. destruct (appendPullRequests_census r found prs s1)
    as (Hsp & Hpar & fetched & t & Hres & Ht & Hk & Hlist & Hok & Hko).
  destruct (snd (fst (appendPullRequests r found prs s1))) as [e|] eqn:Herr.
  - destruct Hko as [Hlen Hcount]; [done |].
    unfold logged. cbn [spawned runTestsInParallel trace]. split_and!; try done.
    exists fetched, (t ++ [EvLog Warn (msg e)]). split_and!; try done.
    + by rewrite Ht, app_assoc.
    + apply Forall_app. split; [done | check_events].
    + by rewrite count_app, Hlist.
    + lia.
    + rewrite count_app, Hcount. unfold count. simpl. lia.
    + intros _. rewrite count_app, Hcount. lia.
  - destruct Hok as [Hlen Hcount]; [done |]. split_and!; try done.
    exists fetched, t. split_and!; try done; try lia.
    intros Hne. rewrite Hcount. destruct prs; [done | simpl; lia].
Qed.

Lemma discover_census (r : Repo) (s : state) :
  let res := discover r s in
  let branch := fst (newRepoBranch (MasterBranch r) (cvr r) (ext s)) in
  spawned (snd res) = spawned s
  ∧ runTestsInParallel (snd res) = runTestsInParallel s
  ∧ (snd branch = None → ∃ rest, fst res = fst branch :: rest)
  ∧ ∃ t, trace (snd res) = trace s ++ t
         ∧ Forall (λ e, fromDiscover e = true) t
         ∧ (PR r ≠ 0 →
            count isListing t = 0%nat ∧ count isFetch t = 1%nat
            ∧ (length (fst res) ≤ 2)%nat)
         ∧ (PR r = 0 → count isListing t = 1%nat).
Proof.
  cbv zeta. rewrite discover_unfold. cbv zeta.
  destruct (newRepoBranch (MasterBranch r) (cvr r) (ext s)) as [[b eb] w1].
  cbn [fst snd].
  set (found := match eb with Some _ => [] | None => [b] end).
  set (t0 := [EvLog Debug (MsgRequestingMaster (MasterBranch r));
              EvNewRepoBranch (MasterBranch r) (b, eb)]
             ++ match eb with
                | Some e => [EvLog Warn (MsgFailedMaster (MasterBranch r) e)]
                | None => []
                end).
  set (s1 := mkState w1 (trace s ++ t0) (spawned s) (runTestsInParallel s)
               (rangeVars s) (rangeVar s)).
  assert (Hk0 : Forall (λ e, fromDiscover e = true) t0).
  { subst t0. destruct eb; check_events. }
  assert (Hl0 : count isListing t0 = 0%nat) by (subst t0; by destruct eb).
  assert (Hf0 : count isFetch t0 = 0%nat) by (subst t0; by destruct eb).
  assert (Hlen0 : (length found ≤ 1)%nat) by (subst found; destruct eb; simpl; lia).
  assert (Hfirst : ∀ fetched, eb = None → ∃ rest, found ++ fetched = b :: rest).
  { intros fetched ->. by exists fetched. }
  destruct (PR r =? 0)%Z eqn:Hpr; cbn [negb].
  - apply Z.eqb_eq in Hpr.
    destruct (getOpenPullRequests (cvr r) w1) as [[prs el] w2]. cbn [fst snd].
    set (s2 := mkState w2
                 (trace s1 ++ [EvLog Debug MsgRequestingOpenPullRequests;
                               EvGetOpenPullRequests (prs, el)])
                 (spawned s) (runTestsInParallel s) (rangeVars s) (rangeVar s)).
    destruct el as [e|].
    + cbn [fst snd logged spawned runTestsInParallel trace s2].
      split_and!; try done.
      { intros ->. by exists []. }
      exists (t0 ++ [EvLog Debug MsgRequestingOpenPullRequests;
                     EvGetOpenPullRequests (prs, Some e);
                     EvLog Warn (MsgFailedOpenPullRequests e)]).
      split_and!.
      * subst s1. cbn [trace]. by rewrite <- !app_assoc.
      * apply Forall_app. split; [done | check_events].
      * intros Hne. done.
      * intros _. by rewrite count_app, Hl0.
    + destruct (append_then_warn r found prs s2
                  (λ e, MsgFailedAppendPullRequests prs e))
        as (Hsp & Hpar & fetched & t & Hres & Ht & Hk & Hlist & _).
      cbv zeta in Hsp, Hpar, Ht, Hres. cbn [fst snd].
      split_and!; try done.
      { intros Heb. rewrite Hres. by apply Hfirst. }
      exists (t0 ++ [EvLog Debug MsgRequestingOpenPullRequests;
                     EvGetOpenPullRequests (prs, None)] ++ t).
      split_and!.
      * rewrite Ht. subst s2 s1. cbn [trace]. by rewrite <- !app_assoc.
      * apply Forall_app. split; [done |]. apply Forall_app. split; [check_events | done].
      * intros Hne. done.
      * intros _. by rewrite !count_app, Hl0, Hlist.
  - apply Z.eqb_neq in Hpr.
    destruct (append_then_warn r found [PR r] s1
                (λ e, MsgFailedAppendPullRequest (PR r) e))
      as (Hsp & Hpar & fetched & t & Hres & Ht & Hk & Hlist & Hlen & Hle & Hge).
    cbv zeta in Hsp, Hpar, Ht, Hres. cbn [fst snd].
    split_and!; try done.
    { intros Heb. rewrite Hres. by apply Hfirst. }
    exists (t0 ++ t). split_and!.
    + rewrite Ht. subst s1. cbn [trace]. by rewrite <- !app_assoc.
    + by apply Forall_app.
    + intros _. rewrite !count_app, Hl0, Hlist, Hf0, Hres, length_app.
      specialize (Hge ltac:(done)). simpl in Hle, Hlen. split_and!; lia.
    + intros Hzero. done.
Qed.

(** X20: the discovery only talks to the provider: it asks for the
    master branch, for pull requests, for the list of open pull
    requests, and logs; it provisions nothing, tests nothing, starts no
    goroutine and does not sleep.  When the master branch is fetched it
    comes first in what is discovered. *)
Theorem discover_master_first (r : Repo) (s : state) :
  let branch := fst (newRepoBranch (MasterBranch r) (cvr r) (ext s)) in
  spawned (snd (discover r s)) = spawned s
  ∧ runTestsInParallel (snd (discover r s)) = runTestsInParallel s
  ∧ (snd branch = None → ∃ rest, fst (discover r s) = fst branch :: rest)
  ∧ ∃ t, trace (snd (discover r s)) = trace s ++ t
         ∧ Forall (λ e, fromDiscover e = true) t
         ∧ Forall (λ e, fromTestRevisions e = true → isLog e = true) t
         ∧ sleeps t = [].
Proof.
  cbv zeta. destruct (discover_census r s) as (Hsp & Hpar & Hfirst & t & Ht & Hk & _).
  split_and!; try done. exists t. split_and!; try done.
  - eapply Forall_kind; [| exact Hk]. intros e He. by destruct e.
  - apply sleeps_none. eapply Forall_kind; [| exact Hk]. by_kind.
Qed.

(** Which requests the discovery makes to the provider. *)
Lemma discover_requests (r : Repo) (s : state) :
  let b := newRepoBranch (MasterBranch r) (cvr r) (ext s) in
  let w1 := snd b in
  let l := getOpenPullRequests (cvr r) w1 in
  ∃ t, trace (snd (discover r s)) = trace s ++ t
       ∧ fst (discover r s)
         = match snd (fst b) with Some _ => [] | None => [fst (fst b)] end
           ++ fetchedOf (asked t)
       ∧ (PR r ≠ 0 →
          listings t = []
          ∧ asked t = [(PR r, fst (newPullRequest (PR r) (prConfig r) w1))])
       ∧ (PR r = 0 →
          listings t = [fst l]
          ∧ answers (prConfig r) (snd l) (asked t) (ext (snd (discover r s)))
          ∧ match snd (fst l) with
            | Some _ => asked t = []
            | None => ∃ rest, fst (fst l) = map fst (asked t) ++ rest
            end).
Proof.
  cbv zeta. rewrite discover_unfold. cbv zeta.
  destruct (newRepoBranch (MasterBranch r) (cvr r) (ext s)) as [[b eb] w1].
  cbn [fst snd].
  set (found := match eb with Some _ => [] | None => [b] end).
  set (t0 := [EvLog Debug (MsgRequestingMaster (MasterBranch r));
              EvNewRepoBranch (MasterBranch r) (b, eb)]
             ++ match eb with
                | Some e => [EvLog Warn (MsgFailedMaster (MasterBranch r) e)]
                | None => []
                end).
  set (s1 := mkState w1 (trace s ++ t0) (spawned s) (runTestsInParallel s)
               (rangeVars s) (rangeVar s)).
  assert (Ha0 : asked t0 = []) by (subst t0; by destruct eb).
  assert (Hl0 : listings t0 = []) by (subst t0; by destruct eb).
  destruct (PR r =? 0)%Z eqn:Hpr; cbn [negb].
  - apply Z.eqb_eq in Hpr.
    destruct (getOpenPullRequests (cvr r) w1) as [[prs el] w2]. cbn [fst snd].
    set (s2 := mkState w2
                 (trace s1 ++ [EvLog Debug MsgRequestingOpenPullRequests;
                               EvGetOpenPullRequests (prs, el)])
                 (spawned s) (runTestsInParallel s) (rangeVars s) (rangeVar s)).
    destruct el as [e|].
    + exists (t0 ++ [EvLog Debug MsgRequestingOpenPullRequests;
                     EvGetOpenPullRequests (prs, Some e);
                     EvLog Warn (MsgFailedOpenPullRequests e)]).
      cbn [fst snd logged trace ext s2 s1]. split_and!.
      * by rewrite <- !app_assoc.
      * rewrite asked_app, Ha0. cbn [asked fetchedOf app]. by rewrite app_nil_r.
      * intros Hne. done.
      * intros _. rewrite asked_app, listings_app, Ha0, Hl0. by split_and!.
    + destruct (appendPullRequests_requests r found prs s2)
        as (t & Ht & Hlist & Hans & Hres & Hok & Hko).
      cbv zeta in Ht, Hans, Hres, Hok, Hko.
      exists (t0 ++ [EvLog Debug MsgRequestingOpenPullRequests;
                     EvGetOpenPullRequests (prs, None)]
                 ++ t ++ match snd (fst (appendPullRequests r found prs s2)) with
                         | Some e => [EvLog Warn (MsgFailedAppendPullRequests prs e)]
                         | None => []
                         end).
      assert (Hasked : ∀ tail, asked tail = [] →
                asked (t0 ++ [EvLog Debug MsgRequestingOpenPullRequests;
                              EvGetOpenPullRequests (prs, None)] ++ t ++ tail)
                = asked t).
      { intros tail Htail. rewrite !asked_app, Ha0, Htail. cbn [asked app].
        by rewrite app_nil_r. }
      assert (Hlistings : ∀ tail, listings tail = [] →
                listings (t0 ++ [EvLog Debug MsgRequestingOpenPullRequests;
                                 EvGetOpenPullRequests (prs, None)] ++ t ++ tail)
                = [(prs, None)]).
      { intros tail Htail. rewrite !listings_app, Hl0, Hlist, Htail. reflexivity. }
      destruct (snd (fst (appendPullRequests r found prs s2))) as [e|] eqn:Herr;
        cbn [fst snd logged trace ext]; split_and!.
      * rewrite Ht. subst s2 s1. cbn [trace]. by rewrite <- !app_assoc.
      * by rewrite Hasked.
      * intros Hne. done.
      * intros _. rewrite Hasked, Hlistings by done. split_and!; try done.
        by destruct Hko as [Hprefix _].
      * rewrite Ht. subst s2 s1. cbn [trace]. by rewrite <- !app_assoc, app_nil_r.
      * by rewrite Hasked.
      * intros Hne. done.
      * intros _. rewrite Hasked, Hlistings by done. split_and!; try done.
        destruct Hok as [Hall _]; [done |]. exists []. by rewrite app_nil_r.
  - apply Z.eqb_neq in Hpr.
    cbn [appendPullRequests]. unfold bind, logf, call, emit, ret. simpl.
    destruct (newPullRequest (PR r) (prConfig r) w1) as [[pr [[msg]|]] w2]; simpl.
    + eexists (t0 ++ [EvLog Debug (MsgRequestingPullRequest (PR r));
                      EvNewPullRequest (PR r) (pr, Some (Errorf msg));
                      EvLog Warn (MsgFailedAppendPullRequest (PR r) _)]).
      split_and!.
      * by rewrite <- !app_assoc.
      * rewrite asked_app, Ha0. cbn [asked fetchedOf app]. by rewrite app_nil_r.
      * intros _. by rewrite asked_app, listings_app, Ha0, Hl0.
      * intros Hzero. done.
    + exists (t0 ++ [EvLog Debug (MsgRequestingPullRequest (PR r));
                     EvNewPullRequest (PR r) (pr, None)]).
      split_and!.
      * by rewrite <- !app_assoc.
      * rewrite asked_app, Ha0. reflexivity.
      * intros _. by rewrite asked_app, listings_app, Ha0, Hl0.
      * intros Hzero. done.
Qed.

(** X21: what is discovered is the branch, if it could be fetched,
    followed by the pull requests that could be fetched, in the order
    they were asked for.  With a pull request number in the
    configuration the discovery asks the provider for that pull request
    and for no other, once, right after the branch, never lists the
    open pull requests, and discovers at most two revisions.  Without
    one it lists the open pull requests exactly once, right after the
    branch; if the listing fails it asks for no pull request, and
    otherwise the pull requests it asks for are those of the listing,
    in its order, as far as it gets, each answer being the
    provider's. *)
Theorem discover_pinned_or_listed (r : Repo) (s : state) :
  let b := newRepoBranch (MasterBranch r) (cvr r) (ext s) in
  let w1 := snd b in
  let l := getOpenPullRequests (cvr r) w1 in
  ∃ t, trace (snd (discover r s)) = trace s ++ t
       ∧ fst (discover r s)
         = match snd (fst b) with Some _ => [] | None => [fst (fst b)] end
           ++ fetchedOf (asked t)
       ∧ (PR r ≠ 0 →
          listings t = []
          ∧ asked t = [(PR r, fst (newPullRequest (PR r) (prConfig r) w1))]
          ∧ (length (fst (discover r s)) ≤ 2)%nat)
       ∧ (PR r = 0 →
          listings t = [fst l]
          ∧ answers (prConfig r) (snd l) (asked t) (ext (snd (discover r s)))
          ∧ match snd (fst l) with
            | Some _ => asked t = []
            | None => ∃ rest, fst (fst l) = map fst (asked t) ++ rest
            end).
Proof.
  cbv zeta.
  destruct (discover_requests r s) as (t & Ht & Hfound & Hpinned & Hlisted).
  destruct (discover_census r s) as (_ & _ & _ & t' & Ht' & _ & Hpinned' & _).
  exists t. split_and!; [exact Ht | exact Hfound | | exact Hlisted].
  intros Hpr. destruct (Hpinned Hpr) as [Hlistings Hasked].
  destruct (Hpinned' Hpr) as (_ & _ & Hlen). by split_and!.
Qed.

Lemma loop_iteration_sleeps (r : Repo) (revisionsTested : table) (s : state) :
  ∃ t, trace (snd (loop_iteration r revisionsTested s)) = trace s ++ t
       ∧ sleeps t = [refresh r].
Proof.
  unfold loop_iteration. unfold bind at 1.
  destruct (discover_census r s) as (_ & _ & _ & t1 & Ht1 & Hk1 & _).
  destruct (discover r s) as [revs s1]. cbn [fst snd] in *.
  assert (Hs1 : sleeps t1 = []).
  { apply sleeps_none. eapply Forall_kind; [| exact Hk1]. by_kind. }
  unfold bind at 1. destruct (0 <? length revs)%nat.
  - unfold bind at 1 2 3, logf, emit, ret. cbn [fst snd].
    match goal with
    | |- context [testRevisions r revs revisionsTested ?s2] =>
      destruct (testRevisions_census r revs revisionsTested s2) as (t2 & Ht2 & _ & Hk2 & _);
      destruct (testRevisions r revs revisionsTested s2) as [tested s3]
    end.
    cbn [fst snd trace] in *.
    assert (Hs2 : sleeps t2 = []).
    { apply sleeps_none. eapply Forall_kind; [| exact Hk2]. by_kind. }
    exists (t1 ++ [EvLog Debug (MsgTestingRevisions revs)] ++ t2
            ++ [EvLog Debug (MsgGoingToSleep (RefreshTime r)); EvSleep (refresh r)]).
    split.
    + rewrite Ht2, Ht1. by rewrite <- !app_assoc.
    + rewrite !sleeps_app, Hs1, Hs2. reflexivity.
  - unfold bind, logf, emit, ret. cbn [fst snd trace].
    exists (t1 ++ [EvLog Debug (MsgGoingToSleep (RefreshTime r)); EvSleep (refresh r)]).
    split.
    + rewrite Ht1. by rewrite <- !app_assoc.
    + rewrite sleeps_app, Hs1. reflexivity.
Qed.

(** X22: the loop sleeps exactly once per iteration, each time for the
    parsed refresh time, whatever was discovered and tested. *)
Theorem loop_sleeps_once_per_iteration (r : Repo) (n : nat) (s : state) :
  ∃ t, trace (snd (loop r n s)) = trace s ++ t
       ∧ sleeps t = repeat (refresh r) n.
Proof.
  unfold loop. unfold bind at 1, logf, emit. cbn [fst snd].
  assert (Hiter : ∀ n revisionsTested s0,
    ∃ t, trace (snd (loop_iterations r n revisionsTested s0)) = trace s0 ++ t
         ∧ sleeps t = repeat (refresh r) n).
  { clear. induction n as [|n IH]; intros revisionsTested s0; simpl.
    - exists []. by rewrite app_nil_r.
    - unfold bind.
      destruct (loop_iteration_sleeps r revisionsTested s0) as (t1 & Ht1 & Hs1).
      destruct (loop_iteration r revisionsTested s0) as [tested s1]. cbn [fst snd] in *.
      destruct (IH tested s1) as (t2 & Ht2 & Hs2).
      exists (t1 ++ t2). split.
      + by rewrite Ht2, Ht1, app_assoc.
      + by rewrite sleeps_app, Hs1, Hs2. }
  match goal with
  | |- context [loop_iterations r n ∅ ?s0] => destruct (Hiter n ∅ s0) as (t & Ht & Hs)
  end.
  exists ([EvLog Debug MsgMonitoring] ++ t). split.
  - rewrite Ht. cbn [trace]. by rewrite <- app_assoc.
  - by rewrite sleeps_app, Hs.
Qed.

End Properties.

(** * Concrete runs *)

Section Runs.

Import Sim.

(** ** The simulated outside at work *)

Example ParseDuration_examples :
  GoTime.ParseDuration "30s" = (30000000000, None)
  ∧ GoTime.ParseDuration "1h30m" = (5400000000000, None)
  ∧ GoTime.ParseDuration "1.5s" = (1500000000, None)
  ∧ GoTime.ParseDuration "0" = (0, None)
  ∧ GoTime.ParseDuration "-5s" = (-5000000000, None)
  ∧ GoTime.ParseDuration "0s" = (0, None)
  ∧ snd (GoTime.ParseDuration "10") = Some (Errorf "time: missing unit in duration 10")
  ∧ snd (GoTime.ParseDuration "") = Some (Errorf "time: invalid duration ")
  ∧ snd (GoTime.ParseDuration "5 s") = Some (Errorf "time: unknown unit  s in duration 5 s")
  ∧ snd (GoTime.ParseDuration "abc") = Some (Errorf "time: invalid duration abc").
Proof. vm_compute. repeat split. Qed.

Example sim_setup_ok :
  snd (fst (setup (config "30s") (start quiet false))) = None
  ∧ refresh repo = 30000000000
  ∧ URL repo = "github.com/clearcontainers/tests"
  ∧ env repo = ["HOME=/root"; "CI=true"; "LOCALCI=true";
                    "LOCALCI_REPO_SLUG=github.com/clearcontainers/tests"]
  ∧ whitelistUsers repo = [""].
Proof. vm_compute. repeat split. Qed.

(** A repository whose only command is [echo pass]: the branch is
    tested once, the run stage passes and onSuccess follows; polled
    again at the same commit, it is not tested a second time. *)
Example unchanged_branch_tested_once :
  let twice := mkWorld [] 0 ["c1"; "c1"] ([], None) [] [] false [] false false false [] in
  let res := loop repo 2 (start twice false) in
  fst res !! "master" = Some master1
  ∧ count isTest (trace (snd res)) = 1%nat
  ∧ map stage_name
      (snd (revision_test runCommand (stageConfigOf repo master1 languageConfig_zero)
              (stagesOf repo) twice))
    = ["setup"; "run"; "teardown"; "onSuccess"].
Proof. vm_compute. repeat split. Qed.

(** A pull request whose author is not accepted: canBeTested fails,
    nothing is provisioned and the tested-table is not updated. *)
Example blocked_pull_request_not_dispatched :
  let w := mkWorld [] 0 [] ([7], None) [(7, "p1")] ["7"] false [] false false false [] in
  let res := loop repo 1 (start w false) in
  fst res = ∅
  ∧ count provisioned (trace (snd res)) = 0%nat
  ∧ count isTest (trace (snd res)) = 0%nat.
Proof. vm_compute. repeat split. Qed.

(** ** C3 *)

(** C3 fails on this input, in parallel mode.  The branch and pull
    request 7 are in the tested-table, neither being tested; a cycle
    discovers a new commit of the branch, then pull request 7,
    unchanged.  The loop dispatches the branch and skips the pull
    request: no call of testRevisions is about it.  But the goroutine
    started for the branch reads the range variable when it runs, and
    the loop has moved on to the pull request by then: the goroutine
    tests pull request 7, the revision that was skipped, and the new
    commit of the branch, recorded as tested, is never tested. *)
Lemma skipped_revision_is_tested_by_goroutine :
  let tested : gmap string rev := {[ "master" := master1; "7" := pr7 ]} in
  let cycle := testRevisions repo [master2; pr7'] tested (start quiet true) in
  let ran := snd (runSpawned repo (snd cycle)) in
  rev_equal pr7' pr7 = true
  ∧ rev_isBeingTested pr7 quiet = false
  ∧ map subject (trace (snd cycle))
    = [Some master2; Some master2; Some master2; None; None; Some master2; None; None]
  ∧ last (List.filter isLog (trace (snd cycle)))
    = Some (EvLog Debug (MsgAlreadyTested pr7'))
  ∧ fst cycle !! "master" = Some master2
  ∧ fst cycle !! "7" = Some pr7
  ∧ pending (snd cycle) = [Some pr7']
  ∧ map subject (List.filter isTest (trace ran)) = [Some pr7'].
Proof. vm_compute. repeat split. Qed.

(** What holds: the loop itself skips the unchanged revision.  The
    branch is in the tested-table at its first commit; a cycle
    discovers it at the same commit, together with a pull request. *)
Example unchanged_revision_skipped_by_loop_run :
  let tested : gmap string rev := {[ "master" := master1 ]} in
  let res := testRevisions repo [master1'; pr7] tested (start quiet false) in
  rev_equal master1' master1 = true
  ∧ fst res !! "master" = Some master1
  ∧ ∃ t, trace (snd res) = trace (start quiet false) ++ t
         ∧ Forall (λ e, subject e ≠ Some master1') t.
Proof.
  split; [reflexivity |].
  refine (unchanged_revision_skipped_by_loop repo [master1'; pr7]
            {[ "master" := master1 ]} (start quiet false) master1' master1
            _ _ _ _ _).
  - compute_done.
  - compute_done.
  - reflexivity.
  - reflexivity.
  - reflexivity.
Qed.

(** ** C4 *)

(** The branch in the tested-table is being tested; a cycle discovers
    it at a new commit, and pull request 7, in serialized mode. *)
Lemma being_tested_is_skipped_and_serialized_tests_run_one_at_a_time_run :
  let tested : gmap string rev := {[ "master" := master1 ]} in
  let whole := testRevisions_loop repo [master2; pr7] (tested, []) (start busy false) in
  rev_isBeingTested master1 busy = true
  ∧ whole
    = testRevisions_loop repo [pr7] (tested, [])
        (logged (assigned master2 (start busy false))
           [EvLog Debug (MsgBeingTested master1)])
  ∧ spawned (snd whole) = []
  ∧ ∃ t, trace (snd whole) = t
         ∧ locking false t = Some false
         ∧ count isLock t = count isTest t.
Proof.
  split; [reflexivity |].
  destruct (being_tested_is_skipped_and_serialized_tests_run_one_at_a_time
              repo [] [pr7] master2 master1 {[ "master" := master1 ]} []
              (start busy false)) as (_ & Hloop & Hser).
  - reflexivity.
  - reflexivity.
  - destruct (Hser eq_refl) as (Hsp & t & Ht & _ & Hl & Hlk & _).
    split; [exact Hloop |]. split; [exact Hsp |].
    exists t. split; [exact Ht |]. split; [exact Hl | exact Hlk].
Defined.

(** C4, as stated, fails in parallel mode.  A second commit is pushed
    to the branch between two polls: when the second cycle finds the
    branch changed, the goroutine of the first commit has not run and
    the table entry is not marked being-tested, so nothing is skipped
    and a second goroutine is started: two tests of the branch are in
    flight, and both run.  Within one cycle too: the branch and pull
    request 7 are dispatched, and both goroutines would test pull
    request 7. *)
Lemma two_tests_in_flight_for_one_identity :
  let first := snd (loop repo 1 (start pushed true)) in
  let second := snd (loop repo 2 (start pushed true)) in
  let cycle := snd (testRevisions repo [master1; pr7] ∅ (start quiet true)) in
  rev_isBeingTested master1 (ext first) = false
  ∧ pending second = [Some master1; Some master2]
  ∧ map (option_map rev_id) (pending second) = [Some "master"; Some "master"]
  ∧ map subject (List.filter isTest (trace (snd (runSpawned repo second))))
    = [Some master1; Some master2]
  ∧ map (option_map rev_id) (pending cycle) = [Some "7"; Some "7"].
Proof. vm_compute. repeat split. Qed.

(** ** C5 *)

(** Pull request 7 is in the tested-table, not being tested; a cycle
    discovers the branch only. *)
Lemma stale_entry_removed_iff_not_being_tested_run :
  let tested : gmap string rev := {[ "7" := pr7 ]} in
  rev_isBeingTested pr7 quiet = false
  ∧ fst (testRevisions repo [master1] tested (start quiet false)) !! "7" = None.
Proof.
  split; [reflexivity |].
  refine (proj2 (proj1 (stale_entry_removed_iff_not_being_tested repo [master1]
                          {[ "7" := pr7 ]} (start quiet false) "7" pr7 _ _)) _).
  - reflexivity.
  - compute_done.
  - reflexivity.
Defined.

(** ** C1 *)

(** The branch is discovered for the first time and its setup
    succeeds. *)
Lemma dispatched_revision_recorded_iff_setup_succeeds_run :
  needsTest (∅ : gmap string rev) master1 quiet = true
  ∧ fst (rev_canBeTested master1 quiet) = None
  ∧ fst (testRevisions repo [master1] ∅ (start quiet false)) !! "master"
    = Some master1.
Proof.
  split; [reflexivity |]. split; [reflexivity |].
  refine (dispatched_revision_recorded_iff_setup_succeeds repo [] [] master1 ∅
            (start quiet false) _ _ _).
  - compute_done.
  - reflexivity.
  - reflexivity.
Defined.

(** C1, as stated, fails: the branch reaches dispatch (the table is
    empty and it can be tested) in a world where no environment can be
    provisioned: after
    the cycle the tested-table has no entry for it, and the next cycle,
    which finds the branch unchanged, dispatches it again. *)
Lemma failed_setup_is_not_recorded :
  let s := start noProvision false in
  let attempts (t : list (@event rev string)) :=
    length (List.filter (λ e, match e with
                              | EvGenerateEnvironment _ _ _ => true
                              | _ => false
                              end) t) in
  needsTest (∅ : gmap string rev) master1 (ext s) = true
  ∧ fst (rev_canBeTested master1 (ext s)) = None
  ∧ snd (fst (setupRevision repo master1 (afterCanBeTested master1 s)))
    = Some (Errorf "cannot create environment")
  ∧ fst (testRevisions repo [master1] ∅ s) !! "master" = None
  ∧ attempts (trace (snd (testRevisions repo [master1] ∅ s))) = 1%nat
  ∧ fst (loop repo 2 s) !! "master" = None
  ∧ attempts (trace (snd (loop repo 2 s))) = 2%nat.
Proof. vm_compute. repeat split. Qed.

(** ** C2 *)

(** C2 fails on this input: the download of the branch fails after its
    environment was provisioned, and the cycle ends without a single
    release. *)
Lemma download_failure_leaks_environment :
  let s := start brokenDownload false in
  let t := trace (snd (testRevisions repo [master1] ∅ s)) in
  t = [EvCanBeTested master1 None;
       EvGenerateEnvironment master1 "github.com/clearcontainers/tests"
         (mkLanguageConfig "/tmp/github.com/clearcontainers/tests"
            ["GOPATH=/tmp/github.com/clearcontainers/tests"], None);
       EvDownload master1 "/tmp/github.com/clearcontainers/tests"
         (Some (Errorf "download failed"));
       EvLog Error (MsgFailedSetup master1 (Errorf "download failed"))]
  ∧ count provisioned t = 1%nat
  ∧ count released t = 0%nat.
Proof. vm_compute. repeat split. Qed.

(** When the setup succeeds the environment is released once, when
    testRevisions returns. *)
Example successful_setup_releases_once :
  let t := trace (snd (testRevisions repo [master1] ∅ (start quiet false))) in
  count provisioned t = 1%nat ∧ count released t = 1%nat
  ∧ count abandoned t = 0%nat.
Proof. vm_compute. repeat split. Qed.

(** ** C7 *)

(** A refresh time that is not a duration. *)
Lemma setup_rejects_only_unparsable_refresh_time_run :
  snd (time_ParseDuration "half an hour") ≠ None
  ∧ snd (fst (setup (config "half an hour") (start quiet false))) ≠ None.
Proof.
  assert (Hparse : snd (time_ParseDuration (RefreshTime (config "half an hour")))
                   ≠ None) by (vm_compute; discriminate).
  split; [exact Hparse |].
  exact (proj1 (setup_rejects_only_unparsable_refresh_time (config "half an hour")
                  (start quiet false)) Hparse).
Defined.

(** C7, as stated, fails: a refresh time of zero and a negative one
    pass setup. *)
Lemma zero_and_negative_refresh_time_accepted :
  let zero := fst (setup (config "0s") (start quiet false)) in
  let negative := fst (setup (config "-5s") (start quiet false)) in
  snd zero = None ∧ refresh (fst zero) = 0
  ∧ snd negative = None ∧ refresh (fst negative) = -5000000000.
Proof. vm_compute. repeat split. Qed.

(** ** C8 *)

(** The test passes and the log server refuses the logs: testRevision
    returns nil all the same. *)
Lemma logs_shipped_after_test_without_changing_result_run :
  let langEnv := mkLanguageConfig "/tmp/w" [] in
  let res := testRevision repoWithLogs master1 langEnv (start noLogServer false) in
  IP (logServer repoWithLogs) ≠ ""
  ∧ fst res = None
  ∧ last (trace (snd res))
    = Some (EvLog Error (MsgFailedCopy "/logs/master" (logServer repoWithLogs))).
Proof.
  assert (Hip : IP (logServer repoWithLogs) ≠ "") by (vm_compute; discriminate).
  split; [exact Hip |].
  destruct (logs_shipped_after_test_without_changing_result repoWithLogs master1
              (mkLanguageConfig "/tmp/w" []) (start noLogServer false) Hip)
    as (Hres & _ & Htrace).
  split.
  - rewrite Hres. vm_compute. reflexivity.
  - rewrite Htrace. vm_compute. reflexivity.
Defined.

(** ** C9 *)

(** The branch is dispatched in parallel mode. *)
Lemma parallel_dispatch_records_without_marking_run :
  let done := testRevisions_body repo master1 (∅, []) (start quiet true) in
  fst (fst done) !! "master" = Some master1
  ∧ spawned (snd done) = [(0%nat, mkLanguageConfig "/tmp/github.com/clearcontainers/tests"
                                    ["GOPATH=/tmp/github.com/clearcontainers/tests"])]
  ∧ pending (snd done) = [Some master1]
  ∧ rev_isBeingTested master1 (ext (snd done)) = false.
Proof.
  destruct (parallel_dispatch_records_without_marking repo master1 ∅ []
              (start quiet true)) as (Htable & Hstate & Hmark & _).
  - reflexivity.
  - reflexivity.
  - reflexivity.
  - reflexivity.
  - cbv zeta. rewrite Htable, Hstate. vm_compute. repeat split.
Defined.

(** C9, as stated, fails: in parallel mode, a commit is pushed to the
    branch between two polls.  After the first iteration the branch is in the tested-table
    and its goroutine is started, but its being-tested marker is not
    set; the second iteration then starts a second goroutine for the
    same identity while the first one has not run. *)
Lemma loop_does_not_mark_dispatched_revision :
  let first := loop repo 1 (start pushed true) in
  let second := loop repo 2 (start pushed true) in
  fst first !! "master" = Some master1
  ∧ pending (snd first) = [Some master1]
  ∧ rev_isBeingTested master1 (ext (snd first)) = false
  ∧ pending (snd second) = [Some master1; Some master2]
  ∧ map (option_map rev_id) (pending (snd second)) = [Some "master"; Some "master"].
Proof. vm_compute. repeat split. Qed.

(** ** C10 *)

(** The provider cannot be reached: pull request 7, which a cycle with
    a discovery would remove from the tested-table, stays. *)
Lemma nothing_discovered_skips_reconciliation_run :
  let tested : gmap string rev := {[ "7" := pr7 ]} in
  let res := loop_iteration repo tested (start offline false) in
  fst (discover repo (start offline false)) = []
  ∧ rev_isBeingTested pr7 offline = false
  ∧ fst res !! "7" = Some pr7
  ∧ count isTest (trace (snd res)) = 0%nat.
Proof.
  assert (Hnone : fst (discover repo (start offline false)) = []) by reflexivity.
  split; [exact Hnone |]. split; [reflexivity |].
  destruct (nothing_discovered_skips_reconciliation repo {[ "7" := pr7 ]}
              (start offline false) Hnone) as [Htable Hstate].
  cbv zeta. rewrite Htable, Hstate. vm_compute. repeat split.
Defined.

(** ** C6 *)

(** A run stage that fails: teardown still runs, then onFailure, and not
    onSuccess. *)
Example failing_run_stage :
  let r := mkRepo "u" "master" 0 "30s" "" ["make deps"] ["false"] ["make clean"]
             ["echo ok"] ["echo ko"] false "" "" "/logs" "Go" (mkRepoComment "" "")
             (mkLogServer "" "" "") "" "u" 0 [] []
             (mkPullRequestConfig "u" (mkRepoComment "" "") "" "" "") in
  let res := revision_test runCommand
               (stageConfigOf r master1 (mkLanguageConfig "/tmp/w" []))
               (stagesOf r) quiet in
  map stage_name (snd res) = ["setup"; "run"; "teardown"; "onFailure"]
  ∧ fst (fst res) = Some (Errorf "stage run failed: false").
Proof. vm_compute. repeat split. Qed.


(** ** More of repo.go *)

(** The configuration of the examples passes setup. *)
Lemma setup_success_validates_run :
  let r := config "30s" in
  let done := fst (setup r (start quiet false)) in
  snd done = None
  ∧ strings_TrimSpace (URL r) ≠ ""
  ∧ Run r ≠ []
  ∧ URL (fst done) = "github.com/clearcontainers/tests"
  ∧ refresh (fst done) = 30000000000.
Proof.
  assert (Hok : snd (fst (setup (config "30s") (start quiet false))) = None)
    by (vm_compute; reflexivity).
  destruct (setup_success_validates (config "30s") (start quiet false) Hok)
    as (Hurl & _ & Hrun & _ & Htrim & Hrefresh & _).
  cbv zeta. rewrite Htrim, Hrefresh.
  split_and!; [exact Hok | exact Hurl | exact Hrun | |]; vm_compute; reflexivity.
Defined.

(** The configuration of the examples, set up. *)
Lemma setup_success_derives_run :
  let r' := fst (fst (setup (config "30s") (start quiet false))) in
  snd (fst (setup (config "30s") (start quiet false))) = None
  ∧ cvr r' = "github.com/clearcontainers/tests"
  ∧ whitelistUsers r' = [""]
  ∧ env r' = ["HOME=/root"; "CI=true"; "LOCALCI=true";
              "LOCALCI_REPO_SLUG=github.com/clearcontainers/tests"].
Proof.
  assert (Hok : snd (fst (setup (config "30s") (start quiet false))) = None)
    by (vm_compute; reflexivity).
  destruct (setup_success_derives (config "30s") (start quiet false) Hok)
    as (Hcvr & Husers & _ & Henv).
  cbv zeta in *. rewrite Henv, Husers, Hcvr.
  split_and!; [exact Hok | | |]; vm_compute; reflexivity.
Defined.

(** A URL made of blanks. *)
Lemma setup_blank_url_run :
  let r := configFor "   " 0 (mkLogServer "" "" "") in
  strings_TrimSpace (URL r) = ""
  ∧ setup r (start quiet false)
    = ((set_URL "" r, Some (Errorf "missing repository url")), start quiet false).
Proof.
  assert (Hblank : strings_TrimSpace (URL (configFor "   " 0 (mkLogServer "" "" ""))) = "")
    by reflexivity.
  split; [exact Hblank |].
  exact (setup_blank_url (configFor "   " 0 (mkLogServer "" "" "")) (start quiet false)
           Hblank).
Defined.

(** A refresh time that is not a duration. *)
Lemma setup_unparsable_refresh_time_stops_early_run :
  snd (time_ParseDuration "half an hour") ≠ None
  ∧ ∃ t, trace (snd (setup (config "half an hour") (start quiet false)))
         = trace (start quiet false) ++ t
         ∧ Forall (λ e, fromSetupCvr e = true) t.
Proof.
  assert (Hparse : snd (time_ParseDuration (RefreshTime (config "half an hour")))
                   ≠ None) by (vm_compute; discriminate).
  split; [exact Hparse |].
  exact (setup_unparsable_refresh_time_stops_early (config "half an hour")
           (start quiet false) Hparse).
Defined.

(** A log server given by its address only. *)
Lemma setupLogServer_defaults_run :
  let r := configFor "github.com/clearcontainers/tests" 0 (mkLogServer "10.0.0.1" "" "") in
  let r' := fst (fst (setupLogServer r (start quiet false))) in
  IP (logServer r) ≠ ""
  ∧ logServer r' = mkLogServer "10.0.0.1" "root" "/var/log/localCI"
  ∧ setupLogServer r' (start quiet false) = ((r', None), start quiet false).
Proof.
  assert (Hip : IP (logServer (configFor "github.com/clearcontainers/tests" 0
                                 (mkLogServer "10.0.0.1" "" ""))) ≠ "")
    by (vm_compute; discriminate).
  destruct (setupLogServer_defaults
              (configFor "github.com/clearcontainers/tests" 0 (mkLogServer "10.0.0.1" "" ""))
              (start quiet false) Hip) as (_ & _ & _ & _ & _ & Hagain).
  cbv zeta. split_and!; [exact Hip | reflexivity | exact Hagain].
Defined.

(** Pull request 7 is pinned, fetched and set up; the state asks for
    parallel tests and Repo.test serializes all the same. *)
Lemma test_returns_test_result_run :
  PR pinned ≠ 0
  ∧ fst (Repo_test pinned (start withPR7 true)) = None
  ∧ runTestsInParallel (snd (Repo_test pinned (start withPR7 true))) = false
  ∧ count released (trace (snd (Repo_test pinned (start withPR7 true)))) = 1%nat.
Proof.
  assert (Hpr : PR pinned ≠ 0) by (vm_compute; discriminate).
  destruct (test_returns_test_result pinned (start withPR7 true) Hpr)
    as (Hres & Hpar & Hstate).
  - reflexivity.
  - reflexivity.
  - split; [exact Hpr |]. rewrite Hres, Hpar, Hstate. vm_compute. repeat split.
Defined.

(** The branch and pull request 7 are both dispatched in parallel
    mode. *)
Lemma testRevisions_parallel_releases_in_reverse_run :
  let s := start quiet true in
  runTestsInParallel s = true
  ∧ ∃ t, trace (snd (testRevisions repo [master1; pr7] ∅ s)) = trace s ++ t
         ∧ releasedEnvs t = List.rev (goEnvs t).
Proof.
  split; [reflexivity |].
  exact (testRevisions_parallel_releases_in_reverse repo [master1; pr7] ∅
           (start quiet true) eq_refl).
Defined.

(** The branch, discovered for the first time, is the one entry of the
    table. *)
Lemma testRevisions_entries_origin_run :
  fst (testRevisions repo [master1] ∅ (start quiet false)) !! "master" = Some master1
  ∧ ((∅ : gmap string rev) !! "master" = Some master1
     ∨ (master1 ∈ [master1] ∧ rev_id master1 = "master")).
Proof.
  assert (Hlook : fst (testRevisions repo [master1] ∅ (start quiet false)) !! "master"
                  = Some master1) by reflexivity.
  split; [exact Hlook |].
  exact (testRevisions_entries_origin repo [master1] ∅ (start quiet false) "master"
           master1 Hlook).
Defined.

(** Pull request 7 is discovered after the branch; its author is not
    accepted. *)
Lemma revision_that_cannot_be_tested_is_left_out_run :
  let s := start blockedPR7 false in
  fst (rev_canBeTested pr7 blockedPR7) = Some (Errorf "not in whitelist")
  ∧ fst (testRevisions repo [master1; pr7] ∅ s) !! "7" = None.
Proof.
  split; [reflexivity |].
  refine (proj2 (revision_that_cannot_be_tested_is_left_out repo [master1] [] pr7 ∅
                   (start blockedPR7 false) (Errorf "not in whitelist") _ _ _)).
  - compute_done.
  - reflexivity.
  - reflexivity.
Defined.

(** The download of the branch fails after its environment was
    provisioned: setupRevision hands back the zero languageConfig. *)
Lemma setupRevision_outcome_run :
  let res := setupRevision repo master1 (start brokenDownload false) in
  snd (fst res) ≠ None ∧ fst (fst res) = languageConfig_zero.
Proof.
  assert (Hfail : snd (fst (setupRevision repo master1 (start brokenDownload false)))
                  ≠ None) by (vm_compute; discriminate).
  pose proof (setupRevision_outcome repo master1 (start brokenDownload false)) as Hout.
  cbv zeta in Hout. destruct Hout as (_ & _ & Hzero & _).
  split; [exact Hfail | exact (Hzero Hfail)].
Defined.

(** The configuration of the examples pins no pull request. *)
Lemma test_census_run :
  PR repo = 0
  ∧ Repo_test repo (start quiet false)
    = (Some (Errorf "Missing pull request number in configuration file"),
       start quiet false).
Proof.
  assert (Hpr : PR repo = 0) by (vm_compute; reflexivity).
  split; [exact Hpr |].
  exact (proj1 (test_census repo (start quiet false)) Hpr).
Defined.


(** The branch is discovered again; the closed pull request 7 is not. *)
Lemma removeStale_only_deletes_run :
  let tested : gmap string rev := {[ "master" := master1; "7" := pr7 ]} in
  found [master2] "master" = true
  ∧ removeStale [master2] quiet tested !! "master" = Some master1.
Proof.
  split; [reflexivity |].
  refine (proj1 (proj2 (removeStale_only_deletes [master2] quiet
                          {[ "master" := master1; "7" := pr7 ]}))
            "master" master1 _ _).
  - reflexivity.
  - left. reflexivity.
Defined.

(** Pull request 7 exists and pull requests 8 and 9 do not: 9 is never
    asked for. *)
Lemma appendPullRequests_stops_at_first_failure_run :
  let res := appendPullRequests repo [master1] [7; 8; 9] (start withPR7 false) in
  snd (fst res) ≠ None
  ∧ map fst (asked (trace (snd res))) = [7; 8]
  ∧ ∃ t, trace (snd res) = trace (start withPR7 false) ++ t
         ∧ fst (fst res) = [master1] ++ fetchedOf (asked t)
         ∧ (∃ rest, [7; 8; 9] = map fst (asked t) ++ rest)
         ∧ length (asked t) = S (length (fetchedOf (asked t))).
Proof.
  assert (Hfail : snd (fst (appendPullRequests repo [master1] [7; 8; 9]
                              (start withPR7 false))) ≠ None)
    by (vm_compute; discriminate).
  pose proof (appendPullRequests_stops_at_first_failure repo [master1] [7; 8; 9]
                (start withPR7 false)) as Hstop.
  cbv zeta in *. destruct Hstop as (t & Ht & _ & Hres & _ & Hko).
  destruct (Hko Hfail) as [Hprefix Hlen].
  split; [exact Hfail |]. split; [vm_compute; reflexivity |].
  exists t. split_and!; assumption.
Defined.

(** The branch is fetched. *)
Lemma discover_master_first_run :
  snd (fst (newRepoBranch "master" (cvr repo) quiet)) = None
  ∧ ∃ rest, fst (discover repo (start quiet false)) = master1 :: rest.
Proof.
  split; [reflexivity |].
  pose proof (discover_master_first repo (start quiet false)) as Hfirst.
  cbv zeta in Hfirst. destruct Hfirst as (_ & _ & Hfirst & _).
  exact (Hfirst eq_refl).
Defined.

(** Pull request 7 is pinned. *)
Lemma discover_pinned_or_listed_run :
  PR pinned ≠ 0
  ∧ ∃ t, trace (snd (discover pinned (start withPR7 false)))
         = trace (start withPR7 false) ++ t
         ∧ listings t = []
         ∧ map fst (asked t) = [7].
Proof.
  assert (Hpr : PR pinned ≠ 0) by (vm_compute; discriminate).
  split; [exact Hpr |].
  pose proof (discover_pinned_or_listed pinned (start withPR7 false)) as Hrequests.
  cbv zeta in Hrequests. destruct Hrequests as (t & Ht & _ & Hpinned & _).
  destruct (Hpinned Hpr) as (Hlist & Hasked & _).
  exists t. split_and!; [exact Ht | exact Hlist |].
  rewrite Hasked. vm_compute. reflexivity.
Defined.

(** The branch and pull request 7 are dispatched in parallel mode: both
    goroutines are left with pull request 7 to test. *)
Lemma goroutines_share_the_range_variable_run :
  let s' := snd (testRevisions repo [master1; pr7] ∅ (start quiet true)) in
  [master1; pr7] ≠ []
  ∧ rangeVars s' !! 0%nat = Some pr7
  ∧ pending s' = [Some pr7; Some pr7].
Proof.
  assert (Hne : [master1; pr7] ≠ []) by discriminate.
  split; [exact Hne |].
  pose proof (goroutines_share_the_range_variable repo [master1; pr7] ∅
                (start quiet true)) as Hshare.
  cbv zeta in Hshare. destruct Hshare as (_ & _ & Hlast & _).
  split; [exact (Hlast Hne) |]. vm_compute. reflexivity.
Defined.

End Runs.
